(** * Airweave sync orchestration: a shallow embedding and its properties

    The development follows the Python sources of the backend:

    - [airweave/core/temporal_service.py]        (module [TemporalService])
    - [airweave/platform/temporal/activities.py] (module [Activities])
    - [airweave/platform/auth/services.py]       (module [OAuth2Service])
    - [airweave/platform/sync/factory.py]        (module [SyncFactory])
    - [airweave/platform/file_handling/file_manager.py] (modules [FileManager]
                                                   and [FileStreaming])
    - [app/core/dag_service.py]                  (module [DagService])
    - [airweave/platform/auth/services.py], the code exchange
                                                 (module [OAuth2Exchange])
    - [airweave/analytics/search_analytics.py]   (module [SearchAnalytics])

    Coroutines are embedded as state-passing functions over an explicit
    world; Python exceptions are values of type [exn] carried by [outcome].
    A Python [str] is a [string] with one character per code point; code
    points above 255 are outside the model. *)

From Stdlib Require Import NArith ZArith List Ascii String Bool Lia.
From stdpp Require Import gmap strings list.

Import ListNotations.
Local Open Scope string_scope.
Local Open Scope list_scope.

(** ** Python exceptions and outcomes *)

Inductive exn : Type :=
| CancelledError
| TimeoutError
| NotFoundException (msg : string)
| TokenRefreshError (msg : string)
| HTTPException (status_code : Z) (detail : string)
| HTTPStatusError (status_code : Z)
| ValidationError
| AttributeError
| IndexError
| ValueError
| TypeError (msg : string)
| UnicodeEncodeError
| RPCError (msg : string)
| Exception (msg : string).

Global Instance exn_eq_dec : EqDecision exn.
Proof. solve_decision. Defined.

(** [except Exception] does not catch [asyncio.CancelledError], which derives
    from [BaseException]. *)
Definition is_Exception (e : exn) : bool :=
  match e with
  | CancelledError => false
  | _ => true
  end.

Inductive outcome (A : Type) : Type :=
| Return (a : A)
| Raise (e : exn).
Arguments Return {A} a.
Arguments Raise {A} e.

(** ** [uuid.UUID] and its [str] *)

Module Uuid.

(** A UUID is its 128-bit [int]; the constructor refuses anything else. *)
Record UUID : Type := mkUUID {
  int : N;
  int_128 : (int <? 2 ^ 128)%N = true
}.

Definition hex_char (d : N) : ascii :=
  match d with
  | 0 => "0" | 1 => "1" | 2 => "2" | 3 => "3" | 4 => "4" | 5 => "5"
  | 6 => "6" | 7 => "7" | 8 => "8" | 9 => "9" | 10 => "a" | 11 => "b"
  | 12 => "c" | 13 => "d" | 14 => "e" | _ => "f"
  end%N%char.

(** The [k] low hexadecimal digits of [n], most significant first. *)
Fixpoint hex_digits (k : nat) (n : N) : list N :=
  match k with
  | O => []
  | S k' => hex_digits k' (n / 16) ++ [(n mod 16)%N]
  end.

(** ['%032x' % self.int] *)
Definition hex (u : UUID) : list ascii := map hex_char (hex_digits 32 (int u)).

(** [UUID.__str__]:
    ['%s-%s-%s-%s-%s' % (hex[:8], hex[8:12], hex[12:16], hex[16:20], hex[20:])] *)
Definition str_chars (u : UUID) : list ascii :=
  let h := hex u in
  take 8 h ++ "-"%char :: take 4 (drop 8 h) ++ "-"%char :: take 4 (drop 12 h)
    ++ "-"%char :: take 4 (drop 16 h) ++ "-"%char :: drop 20 h.

Definition str (u : UUID) : string := string_of_list_ascii (str_chars u).

End Uuid.

(** ** [airweave/core/temporal_service.py] *)

Module TemporalService.

Record SyncJob : Type := mkSyncJob {
  id : Uuid.UUID;
  sync_id : Uuid.UUID
}.

(** The part of the workflow engine the service talks to: the workflows it
    knows by identifier, and whether cancellation was requested for them. *)
Inductive wf_state : Type := WfRunning | WfCancelRequested.

Record engine : Type := mkEngine {
  reachable : bool;                     (* does [get_client()] succeed *)
  workflows : gmap string wf_state
}.

(** [client.start_workflow(..., id=workflow_id, ...)]: the engine refuses a
    second run under an identifier that is already running. *)
Definition start_workflow (workflow_id : string) (e : engine)
  : outcome string * engine :=
  match workflows e !! workflow_id with
  | Some _ => (Raise (RPCError "Workflow execution already started"), e)
  | None =>
      (Return workflow_id,
       mkEngine (reachable e) (<[workflow_id := WfRunning]> (workflows e)))
  end.

(** [client.get_workflow_handle(workflow_id).cancel()] *)
Definition handle_cancel (workflow_id : string) (e : engine)
  : outcome unit * engine :=
  match workflows e !! workflow_id with
  | Some _ =>
      (Return tt,
       mkEngine (reachable e) (<[workflow_id := WfCancelRequested]> (workflows e)))
  | None => (Raise (RPCError "workflow not found"), e)
  end.

(** [workflow_id = f"sync-{sync_job.id}"] (line 47) *)
Definition run_workflow_id (sync_job : SyncJob) : string :=
  "sync-" +:+ Uuid.str (id sync_job).

(** [workflow_id = f"sync-{sync_job_id}"] (line 84) *)
Definition cancel_workflow_id (sync_job_id : string) : string :=
  "sync-" +:+ sync_job_id.

(** [run_source_connection_workflow]: returns the handle (its workflow id). *)
Definition run_source_connection_workflow (sync_job : SyncJob) (e : engine)
  : outcome string * engine :=
  if reachable e then
    let workflow_id := run_workflow_id sync_job in
    start_workflow workflow_id e
  else (Raise (RPCError "Temporal client unavailable"), e).

(** [cancel_sync_job_workflow]: every exception is turned into [False]. *)
Definition cancel_sync_job_workflow (sync_job_id : string) (e : engine)
  : bool * engine :=
  if reachable e then
    let workflow_id := cancel_workflow_id sync_job_id in
    match handle_cancel workflow_id e with
    | (Return _, e') => (true, e')
    | (Raise _, e') => (false, e')
    end
  else (false, e).

End TemporalService.

(** ** Values shared by the services *)

(** What the credential dictionaries hold: strings, or [None]. *)
Inductive pyval : Type := PyNone | PyStr (s : string).

Global Instance pyval_eq_dec : EqDecision pyval.
Proof. solve_decision. Defined.

(** Python truthiness ([if not x]). *)
Definition truthy (v : pyval) : bool :=
  match v with
  | PyNone => false
  | PyStr s => negb (String.eqb s EmptyString)
  end.

(** [str(v)] inside an f-string. *)
Definition py_str (v : pyval) : string :=
  match v with
  | PyNone => "None"
  | PyStr s => s
  end.

(** [str.isascii]: every code point is below 128. *)
Definition isascii (s : string) : bool :=
  forallb (fun c => (N_of_ascii c <? 128)%N) (list_ascii_of_string s).

Abbreviation dict := (gmap string pyval).

(** [if d:] on an [Optional[dict]]: neither [None] nor empty. *)
Definition dict_truthy (d : option dict) : bool :=
  match d with
  | None => false
  | Some m => negb (bool_decide (m = ∅))
  end.

(** [d.get(k, dflt)] *)
Definition dict_get (d : dict) (k : string) (dflt : pyval) : pyval :=
  default dflt (d !! k).

(** [airweave.platform.auth.schemas.AuthType]: the members the sources name,
    and the remaining ones by name. *)
Inductive AuthType : Type :=
| oauth2
| oauth2_with_refresh
| oauth2_with_refresh_rotating
| other_auth (name : string).

Global Instance AuthType_eq_dec : EqDecision AuthType.
Proof. solve_decision. Defined.

(** ** [airweave/platform/auth/services.py] *)

Module OAuth2Service.

(** The settings of one integration ([integration_settings]). *)
Record IntegrationConfig : Type := mkIntegrationConfig {
  integration_short_name : string;
  auth_type : AuthType;
  backend_url : string;
  content_type : string;
  client_credential_location : string;
  client_id : pyval;
  client_secret : pyval
}.

Record WhiteLabel : Type := mkWhiteLabel {
  source_short_name : string;
  wl_client_id : pyval;
  wl_client_secret : pyval
}.

Record OAuth2TokenResponse : Type := mkOAuth2TokenResponse {
  access_token : string;
  refresh_token : pyval
}.

Record TokenRequest : Type := mkTokenRequest {
  url : string;
  headers : gmap string string;
  payload : dict
}.

(** What [client.post] gives: a transport failure, or a status and the
    decoded JSON body. *)
Inductive http_result : Type :=
| HttpError (msg : string)
| HttpResponse (status_code : Z) (json : dict).

(** [_get_refresh_token] *)
Definition _get_refresh_token (decrypted_credential : dict) : outcome pyval :=
  let refresh_token := dict_get decrypted_credential "refresh_token" PyNone in
  if negb (truthy refresh_token)
  then Raise (TokenRefreshError "No refresh token found")
  else Return refresh_token.

(** [_get_integration_config] *)
Definition _get_integration_config
    (integration_settings : gmap string IntegrationConfig)
    (integration_short_name : string) : outcome IntegrationConfig :=
  match integration_settings !! integration_short_name with
  | None =>
      Raise (NotFoundException
               ("Configuration for " +:+ integration_short_name +:+ " not found"))
  | Some integration_config => Return integration_config
  end.

(** [_get_client_credentials] (lines 273-286) *)
Definition _get_client_credentials (integration_config : IntegrationConfig)
    (auth_fields : option dict) (decrypted_credential : option dict)
  : pyval * pyval :=
  let client_id := client_id integration_config in
  let client_secret := client_secret integration_config in
  (* First check decrypted_credential *)
  let '(client_id, client_secret) :=
    if dict_truthy decrypted_credential then
      let d := default ∅ decrypted_credential in
      (dict_get d "client_id" client_id, dict_get d "client_secret" client_secret)
    else (client_id, client_secret) in
  (* Then check auth_fields *)
  let '(client_id, client_secret) :=
    if dict_truthy auth_fields then
      let a := default ∅ auth_fields in
      (dict_get a "client_id" client_id, dict_get a "client_secret" client_secret)
    else (client_id, client_secret) in
  (client_id, client_secret).

Section WithCodec.
(** [base64.b64encode] of the ASCII bytes, and the credential cipher of
    [airweave.core.credentials]. *)
Variable b64encode : string -> string.
Variable cipher : Type.
Variable encrypt : dict -> cipher.
Variable decrypt : cipher -> dict.

(** [_encode_client_credentials] (lines 438-442): [credentials.encode("ascii")]
    raises on a character outside ASCII. *)
Definition _encode_client_credentials (client_id client_secret : pyval)
  : outcome string :=
  let credentials := py_str client_id +:+ ":" +:+ py_str client_secret in
  if isascii credentials then Return (b64encode credentials)
  else Raise UnicodeEncodeError.

(** [_prepare_token_request] (lines 312-339); the logging at the end takes
    [len(refresh_token)], which [None] does not have. *)
Definition _prepare_token_request (integration_config : IntegrationConfig)
    (refresh_token client_id client_secret : pyval)
  : outcome (gmap string string * dict) :=
  let headers : gmap string string :=
    {[ "Content-Type" := content_type integration_config ]} in
  let payload : dict :=
    <["refresh_token" := refresh_token]> {[ "grant_type" := PyStr "refresh_token" ]} in
  let request : outcome (gmap string string * dict) :=
    if String.eqb (client_credential_location integration_config) "header" then
      match _encode_client_credentials client_id client_secret with
      | Raise e => Raise e
      | Return encoded_credentials =>
          Return (<["Authorization" := "Basic " +:+ encoded_credentials]> headers,
                  payload)
      end
    else
      Return (headers,
              <["client_secret" := client_secret]>
                (<["client_id" := client_id]> payload)) in
  match request with
  | Raise e => Raise e
  | Return (headers, payload) =>
      (* Log the request details for debugging *)
      match refresh_token with
      | PyNone => Raise (TypeError "object of type 'NoneType' has no len()")
      | PyStr _ => Return (headers, payload)
      end
  end.

(** [_make_token_request]: [raise_for_status] refuses every status outside
    2xx; both handlers re-raise. *)
Definition _make_token_request (post : TokenRequest -> http_result)
    (url : string) (headers : gmap string string) (payload : dict) : outcome dict :=
  match post (mkTokenRequest url headers payload) with
  | HttpError msg => Raise (Exception msg)
  | HttpResponse status_code json =>
      if ((200 <=? status_code) && (status_code <? 300))%Z
      then Return json
      else Raise (HTTPStatusError status_code)
  end.

(** Modelled from the spec: [OAuth2TokenResponse] (absent from the sources)
    built from the keys of [response.json()]; a token is "a secret bundle
    (access token, optional refresh token, expiry)": the access token is
    required, the refresh token optional. *)
Definition parse_token_response (json : dict) : outcome OAuth2TokenResponse :=
  match json !! "access_token" with
  | Some (PyStr a) =>
      Return (mkOAuth2TokenResponse a (dict_get json "refresh_token" PyNone))
  | _ => Raise ValidationError
  end.

Record Connection : Type := mkConnection {
  integration_credential_id : N
}.

Record IntegrationCredential : Type := mkIntegrationCredential {
  encrypted_credentials : cipher
}.

(** The two tables the refresh touches, keyed by the rows' ids, and the
    credential updates issued so far (oldest first). *)
Record Db : Type := mkDb {
  connections : gmap N Connection;
  integration_credentials : gmap N IntegrationCredential;
  credential_updates : list (N * cipher)
}.

(** Modelled from the spec: [crud.integration_credential.update(db_obj=...,
    obj_in={"encrypted_credentials": ...})], absent from the sources (the
    credential is "persisted back to durable storage"): the row takes the new
    cipher text. *)
Definition crud_integration_credential_update (id : N) (c : cipher) (db : Db) : Db :=
  mkDb (connections db)
       (<[id := mkIntegrationCredential c]> (integration_credentials db))
       (credential_updates db ++ [(id, c)]).

(** [_handle_token_response] (lines 400-422); a row that is not there
    comes back as [None], whose attribute access raises. *)
Definition _handle_token_response (db : Db) (json : dict)
    (integration_config : IntegrationConfig) (connection_id : N)
  : outcome OAuth2TokenResponse * Db :=
  match parse_token_response json with
  | Raise e => (Raise e, db)
  | Return oauth2_token_response =>
      if decide (auth_type integration_config = oauth2_with_refresh_rotating) then
        match connections db !! connection_id with
        | None => (Raise AttributeError, db)
        | Some connection =>
            match integration_credentials db !! integration_credential_id connection with
            | None => (Raise AttributeError, db)
            | Some integration_credential =>
                let current_credentials :=
                  decrypt (encrypted_credentials integration_credential) in
                let current_credentials :=
                  <["refresh_token" := refresh_token oauth2_token_response]>
                    current_credentials in
                let encrypted_credentials := encrypt current_credentials in
                let db' :=
                  crud_integration_credential_update
                    (integration_credential_id connection) encrypted_credentials db in
                (Return oauth2_token_response, db')
            end
        end
      else (Return oauth2_token_response, db)
  end.

(** The client credentials of a refresh (lines 160-169): those of
    [_get_client_credentials], or the white label's when it is made for the
    integration. *)
Definition refresh_client_credentials (integration_config : IntegrationConfig)
    (integration_short_name : string) (decrypted_credential : dict)
    (white_label : option WhiteLabel) : pyval * pyval :=
  (* Get client credentials *)
  let '(client_id, client_secret) :=
    _get_client_credentials integration_config None (Some decrypted_credential) in
  (* Override with white label credentials if available *)
  match white_label with
  | Some wl =>
      if String.eqb (source_short_name wl) integration_short_name
      then (wl_client_id wl, wl_client_secret wl)
      else (client_id, client_secret)
  | None => (client_id, client_secret)
  end.

(** [refresh_access_token] (lines 151-193); the outer handler logs and
    re-raises, so every exception leaves as it came. *)
Definition refresh_access_token
    (integration_settings : gmap string IntegrationConfig)
    (post : TokenRequest -> http_result)
    (db : Db) (integration_short_name : string) (connection_id : N)
    (decrypted_credential : dict) (white_label : option WhiteLabel)
  : outcome OAuth2TokenResponse * Db :=
  match _get_refresh_token decrypted_credential with
  | Raise e => (Raise e, db)
  | Return refresh_token =>
      match _get_integration_config integration_settings integration_short_name with
      | Raise e => (Raise e, db)
      | Return integration_config =>
          let '(client_id, client_secret) :=
            refresh_client_credentials integration_config integration_short_name
              decrypted_credential white_label in
          match _prepare_token_request integration_config refresh_token
                  client_id client_secret with
          | Raise e => (Raise e, db)
          | Return (headers, payload) =>
              match _make_token_request post (backend_url integration_config)
                      headers payload with
              | Raise e => (Raise e, db)
              | Return response =>
                  _handle_token_response db response integration_config connection_id
              end
          end
      end
  end.

End WithCodec.

End OAuth2Service.

(** ** [airweave/platform/temporal/activities.py] *)

Module Activities.

(** [SyncJobStatus] (pending -> in_progress -> completed, failed or
    cancelled). *)
Inductive SyncJobStatus : Type :=
| PENDING | IN_PROGRESS | COMPLETED | FAILED | CANCELLED.

Global Instance SyncJobStatus_eq_dec : EqDecision SyncJobStatus.
Proof. solve_decision. Defined.

(** A row of the job table; ids are UUIDs, held by their [int]. *)
Record SyncJob : Type := mkSyncJob {
  id : N;
  sync_id : N;
  status : SyncJobStatus;
  error : option string;
  failed_at : option Z
}.

Inductive heartbeat_details : Type :=
| SyncInProgress                          (* "Sync in progress" *)
| WaitingForRunningJobs (total_waited : Z).
                     (* f"Waiting for running jobs to complete ({total_waited}s)" *)

(** What an activity does to the outside, in the order it does it. *)
Inductive effect : Type :=
| TaskCreated                             (* asyncio.create_task(_run_sync_task(...)) *)
| Heartbeat (details : heartbeat_details) (* activity.heartbeat(...) *)
| TaskCancel                              (* sync_task.cancel() *)
| TaskAwaited                             (* await sync_task *)
| StatusUpdate (job : N) (s : SyncJobStatus)
               (error : option string) (failed_at : option Z)
                                          (* sync_job_service.update_status(...) *)
| LogError (msg : string)                 (* ctx.logger.error(...) *)
| Sleep (seconds : Z)                     (* asyncio.sleep(...) *)
| JobCreated (job : N).                   (* crud.sync_job.create(...); db.commit() *)

Record world : Type := mkWorld {
  jobs : gmap N SyncJob;                  (* the job table *)
  clock : Z;                              (* seconds since the activity started *)
  trace : list effect                     (* oldest first *)
}.

Definition emit (e : effect) (w : world) : world :=
  mkWorld (jobs w) (clock w) (trace w ++ [e]).

(** What the event loop delivers while the activity is suspended in one
    [wait_for(shield(sync_task), timeout=1)]. *)
Inductive wait_event : Type :=
| Tick                                    (* the timeout elapses *)
| TaskEnds (o : outcome unit)             (* the sync task returns or raises *)
| CancelRequested.                        (* the engine cancels the activity *)

Inductive task_state : Type :=
| Running
| Ended (o : outcome unit).

(** Everything the activities take from outside. *)
Record environment : Type := mkEnvironment {
  wait_events : list wait_event;
  (* what [await sync_task] gives after [sync_task.cancel()] on a running task *)
  teardown : outcome unit;
  (* the exception [update_status] fails with, if it fails *)
  update_failure : option exn;
  utc_now_naive : Z;
  (* [datetime.fromisoformat], [None] where it raises *)
  fromisoformat : string -> option Z;
  (* the job table as the other workers have left it, [t] seconds after the
     activity started *)
  table_after : Z -> gmap N SyncJob;
  (* the primary key the database gives the next job *)
  next_job_id : N
}.

(** One [await asyncio.wait_for(asyncio.shield(sync_task), timeout)].
    The shield keeps the timeout and the activity's cancellation away from
    the task.  A task that has ended hands over its own result or exception
    at once; while it runs, the wait ends with [TimeoutError] when the
    timeout elapses, with the task's outcome when the task ends, and with
    [CancelledError] when the activity is cancelled. *)
Definition wait_for_shielded (timeout : Z) (task : task_state) (ev : wait_event)
  : outcome unit * task_state :=
  match task with
  | Ended o => (o, task)
  | Running =>
      match ev with
      | Tick => (Raise TimeoutError, Running)
      | TaskEnds o => (o, Ended o)
      | CancelRequested => (Raise CancelledError, Running)
      end
  end.

Inductive loop_exit : Type :=
| LoopBreak                               (* [break] *)
| LoopRaised (e : exn)                    (* an exception leaves the loop *)
| LoopWaiting.                            (* still supervising *)

(** The supervising loop (lines 113-119). *)
Fixpoint supervise (events : list wait_event) (task : task_state) (w : world)
  : loop_exit * task_state * world :=
  match events with
  | [] => (LoopWaiting, task, w)
  | ev :: events' =>
      match wait_for_shielded 1 task ev with
      | (Return _, task') => (LoopBreak, task', w)
      | (Raise TimeoutError, task') =>
          (* except asyncio.TimeoutError *)
          supervise events' task' (emit (Heartbeat SyncInProgress) w)
      | (Raise e, task') => (LoopRaised e, task', w)
      end
  end.

(** Modelled from the spec: [sync_job_service.update_status] (job
    persistence: "update job status/counters/error"), absent from the
    sources.  The call either fails with the environment's exception or
    writes status, error and failure time into the job's row. *)
Definition update_status (env : environment) (sync_job_id : N)
    (s : SyncJobStatus) (error : option string) (failed_at : option Z) (w : world)
  : outcome unit * world :=
  let w := emit (StatusUpdate sync_job_id s error failed_at) w in
  match update_failure env with
  | Some e => (Raise e, w)
  | None =>
      (Return tt,
       mkWorld
         (alter (fun j => mkSyncJob (id j) (sync_id j) s error failed_at)
                sync_job_id (jobs w))
         (clock w) (trace w))
  end.

(** [sync_task.cancel()] followed by [await sync_task]: a task that has
    ended keeps its outcome. *)
Definition cancel_and_await (env : environment) (task : task_state) : outcome unit :=
  match task with
  | Ended o => o
  | Running => teardown env
  end.

(** The [try] around [update_status] in the cancellation handler (lines
    130-145): a failing update is logged and dropped. *)
Definition try_mark_cancelled (env : environment) (sync_job : SyncJob) (w : world)
  : outcome unit * world :=
  match update_status env (id sync_job) CANCELLED
          (Some "Workflow was cancelled") (Some (utc_now_naive env)) w with
  | (Return _, w) => (Return tt, w)
  | (Raise status_err, w) =>
      if is_Exception status_err
      then (Return tt, emit (LogError "Failed to update job to CANCELLED") w)
      else (Raise status_err, w)
  end.

(** The handler [except asyncio.CancelledError] (lines 123-146). *)
Definition on_cancelled (env : environment) (sync_job : SyncJob)
    (task : task_state) (w : world) : outcome unit * world :=
  (* Ensure the internal sync task is cancelled and awaited *)
  let w := emit TaskCancel w in
  let w := emit TaskAwaited w in
  let suppressed :=
    (* with suppress(asyncio.CancelledError): await sync_task *)
    match cancel_and_await env task with
    | Return _ | Raise CancelledError => Return tt
    | Raise e => Raise e
    end in
  match suppressed with
  | Raise e => (Raise e, w)
  | Return _ =>
      match try_mark_cancelled env sync_job w with
      | (Return _, w) => (Raise CancelledError, w)      (* [raise] *)
      | (Raise e, w) => (Raise e, w)
      end
  end.

(** [run_sync_activity] (lines 99-149); [None] while the loop is still
    supervising. *)
Definition run_sync_activity (env : environment) (sync_job : SyncJob) (w : world)
  : option (outcome unit) * world :=
  (* Start the sync task *)
  let w := emit TaskCreated w in
  match supervise (wait_events env) Running w with
  | (LoopWaiting, _, w) => (None, w)
  | (LoopBreak, _, w) => (Some (Return tt), w)
  | (LoopRaised CancelledError, task, w) =>
      let '(o, w) := on_cancelled env sync_job task w in (Some o, w)
  | (LoopRaised e, _, w) =>
      (* except Exception as e *)
      (Some (Raise e), emit (LogError "Failed sync activity") w)
  end.

(** [mark_sync_job_cancelled_activity] (lines 193-208); [sync_job_id] is the
    id that [UUID(sync_job_id)] reads back. *)
Definition mark_sync_job_cancelled_activity (env : environment) (sync_job_id : N)
    (reason : option string) (when_iso : option string) (w : world)
  : outcome unit * world :=
  let failed_at :=
    match when_iso with
    | Some s => if String.eqb s EmptyString then None else fromisoformat env s
    | None => None
    end in
  update_status env sync_job_id CANCELLED reason failed_at w.

(** Modelled from the spec: [crud.sync_job.get_all_by_sync_id(db,
    sync_id=..., status=[...])], absent from the sources ("fetch
    currently-running jobs for a given sync configuration"): the rows of the
    sync whose status is one of those asked for. *)
Definition get_all_by_sync_id (table : gmap N SyncJob) (sid : N)
    (statuses : list SyncJobStatus) : list SyncJob :=
  List.filter
    (fun j => (N.eqb (sync_id j) sid)
              && existsb (fun s => bool_decide (status j = s)) statuses)
    (map snd (map_to_list table)).

(** [asyncio.sleep(seconds)]: the clock advances and the table is what the
    other workers have made of it meanwhile. *)
Definition sleep (env : environment) (seconds : Z) (w : world) : world :=
  let t := (clock w + seconds)%Z in
  mkWorld (table_after env t) t (trace w ++ [Sleep seconds]).

Definition max_wait_time : Z := 60 * 60.
Definition wait_interval : Z := 30.

Inductive wait_exit : Type :=
| WaitBroke                               (* [break]: the running jobs are gone *)
| WaitElse                                (* the [else] of the [while] *)
| WaitUnfinished.                         (* the bound on iterations was too small *)

(** The [while total_waited < max_wait_time] loop (lines 284-305). *)
Fixpoint wait_for_running_jobs (fuel : nat) (env : environment) (sid : N)
    (total_waited : Z) (w : world) : wait_exit * world :=
  match fuel with
  | O => (WaitUnfinished, w)
  | S fuel' =>
      if (total_waited <? max_wait_time)%Z then
        let w := emit (Heartbeat (WaitingForRunningJobs total_waited)) w in
        let w := sleep env wait_interval w in
        let total_waited := (total_waited + wait_interval)%Z in
        let still_running :=
          get_all_by_sync_id (jobs w) sid [PENDING; IN_PROGRESS] in
        match still_running with
        | [] => (WaitBroke, w)
        | _ :: _ => wait_for_running_jobs fuel' env sid total_waited w
        end
      else (WaitElse, w)
  end.

(** Modelled from the spec: [crud.sync_job.create(db,
    obj_in=SyncJobCreate(sync_id=...))] and the commit, absent from the
    sources ("create job"; a job starts as pending): a fresh pending job under
    the key the database gives it. *)
Definition create_job (env : environment) (sid : N) (w : world) : SyncJob * world :=
  let sync_job := mkSyncJob (next_job_id env) sid PENDING None None in
  (sync_job,
   mkWorld (<[next_job_id env := sync_job]> (jobs w)) (clock w)
           (trace w ++ [JobCreated (next_job_id env)])).

(** [create_sync_job_activity] (lines 260-342); [None] only if the loop
    were cut short.  The message of the first exception also names the
    sync. *)
Definition create_sync_job_activity (env : environment) (sid : N)
    (force_full_sync : bool) (w : world) : option (outcome SyncJob) * world :=
  let running_jobs := get_all_by_sync_id (jobs w) sid [PENDING; IN_PROGRESS] in
  let created w := let '(j, w') := create_job env sid w in (Some (Return j), w') in
  match running_jobs with
  | _ :: _ =>
      if force_full_sync then
        let fuel := S (Z.to_nat (max_wait_time / wait_interval)) in
        match wait_for_running_jobs fuel env sid 0 w with
        | (WaitBroke, w) => created w
        | (WaitElse, w) =>
            (Some (Raise (Exception
               "Timeout waiting for running jobs to complete after 3600s")), w)
        | (WaitUnfinished, w) => (None, w)
        end
      else
        (Some (Raise (Exception
           "Sync already has a running job. Skipping this scheduled run to avoid conflicts.")),
         w)
  | [] => created w
  end.

End Activities.

(** ** [airweave/platform/sync/factory.py] *)

Module SyncFactory.

Record Sync : Type := mkSync {
  sync_id : N;
  source_connection_id : N;
  destination_connection_ids : list N
}.

(** [schemas.Connection] *)
Record Connection : Type := mkConnection {
  connection_id : N;
  short_name : string;
  integration_credential_id : option N
}.

(** [schemas.SourceConnection] *)
Record SourceConnection : Type := mkSourceConnection {
  config_fields : option dict;
  white_label_id : option N
}.

(** [schemas.Source] *)
Record Source : Type := mkSource {
  source_short_name : string;
  auth_type : AuthType;
  auth_config_class : option string
}.

Record IntegrationCredential : Type := mkIntegrationCredential {
  encrypted_credentials : string
}.

Record Destination : Type := mkDestination {
  destination_short_name : string
}.

Record Collection : Type := mkCollection {
  collection_id : N
}.

(** The tables the factory reads; a row that is not there is [None]. *)
Record Db : Type := mkDb {
  connections : gmap N Connection;                 (* crud.connection.get *)
  source_connections : gmap N SourceConnection;    (* crud.source_connection.get_by_sync_id *)
  sources : gmap string Source;                    (* crud.source.get_by_short_name *)
  integration_credentials : gmap N IntegrationCredential;
  destinations : gmap string Destination;          (* crud.destination.get_by_short_name *)
  white_labels : gmap N OAuth2Service.WhiteLabel   (* crud.white_label.get *)
}.

Record TokenProvider : Type := mkTokenProvider {
  tp_integration_short_name : string;
  tp_connection_id : N;
  tp_decrypted_credential : dict;
  tp_white_label : option OAuth2Service.WhiteLabel
}.

(** What a source is created from: a token string, a validated auth config
    of the named class, or the decrypted dictionary itself. *)
Inductive source_credentials : Type :=
| CredToken (token : string)
| CredAuthConfig (class : string) (fields : dict)
| CredDict (d : dict).

(** The source class found by the locator, as far as [hasattr] looks. *)
Record SourceClass : Type := mkSourceClass {
  has_set_token_provider : bool;
  has_set_logger : bool
}.

Record SourceInstance : Type := mkSourceInstance {
  source_class : SourceClass;
  credentials : source_credentials;
  config : dict;
  token_provider : option TokenProvider;
  logger_set : bool
}.

Inductive EmbeddingModel : Type :=
| OpenAIText2Vec (api_key : string)
| LocalText2Vec.

Record DestinationInstance : Type := mkDestinationInstance {
  destination : Destination;
  destination_collection : N
}.

Record SyncContext : Type := mkSyncContext {
  source : SourceInstance;
  ctx_destinations : list DestinationInstance;
  embedding_model : EmbeddingModel;
  white_label : option OAuth2Service.WhiteLabel
}.

(** The collaborators of the factory that live elsewhere. *)
Record platform : Type := mkPlatform {
  decrypt : string -> dict;                              (* credentials.decrypt *)
  get_source : Source -> SourceClass;                    (* resource_locator.get_source *)
  (* resource_locator.get_auth_config(cls).model_validate(...) *)
  validate_auth_config : string -> dict -> outcome dict;
  get_valid_token : TokenProvider -> outcome string;     (* TokenProvider.get_valid_token *)
  OPENAI_API_KEY : option string                         (* settings.OPENAI_API_KEY *)
}.

(** [_get_source_config] (lines 242-258) *)
Definition _get_source_config (db : Db) (sync : Sync)
  : outcome (Connection * dict * Source) :=
  match connections db !! source_connection_id sync with
  | None => Raise (NotFoundException "Source connection not found")
  | Some source_connection =>
      match source_connections db !! sync_id sync with
      | None => Raise (NotFoundException "Source connection record not found")
      | Some source_connection_obj =>
          let config_fields := default ∅ (config_fields source_connection_obj) in
          match sources db !! short_name source_connection with
          | None =>
              Raise (NotFoundException
                       ("Source not found: " +:+ short_name source_connection))
          | Some source_model => Return (source_connection, config_fields, source_model)
          end
      end
  end.

(** [_create_source_with_token] *)
Definition _create_source_with_token (cls : SourceClass) (access_token : string)
    (config_fields : dict) : SourceInstance :=
  mkSourceInstance cls (CredToken access_token) config_fields None (has_set_logger cls).

(** [_create_token_provider_if_needed] (lines 325-338) *)
Definition _create_token_provider_if_needed (source_model : Source)
    (source_connection : Connection) (decrypted_credential : dict)
    (white_label : option OAuth2Service.WhiteLabel) : option TokenProvider :=
  if negb (bool_decide (auth_type source_model = oauth2_with_refresh)
           || bool_decide (auth_type source_model = oauth2_with_refresh_rotating))
  then None
  else Some (mkTokenProvider (source_short_name source_model)
               (connection_id source_connection) decrypted_credential white_label).

(** [_get_source_credentials] (lines 348-356) *)
Definition _get_source_credentials (pf : platform)
    (token_provider : option TokenProvider) (source_model : Source)
    (decrypted_credential : dict) : outcome source_credentials :=
  match token_provider with
  | Some tp =>
      (* Let the provider get the initial valid token *)
      match get_valid_token pf tp with
      | Return token => Return (CredToken token)
      | Raise e => Raise e
      end
  | None =>
      match auth_config_class source_model with
      | Some cls =>
          if String.eqb cls EmptyString then Return (CredDict decrypted_credential)
          else
            match validate_auth_config pf cls decrypted_credential with
            | Return fields => Return (CredAuthConfig cls fields)
            | Raise e => Raise e
            end
      | None => Return (CredDict decrypted_credential)
      end
  end.

(** [_get_integration_credential] *)
Definition _get_integration_credential (db : Db) (credential_id : N)
  : outcome IntegrationCredential :=
  match integration_credentials db !! credential_id with
  | None => Raise (NotFoundException "Source integration credential not found")
  | Some credential => Return credential
  end.

(** [_create_source_with_credentials] (lines 284-312) *)
Definition _create_source_with_credentials (pf : platform) (db : Db)
    (source_connection : Connection) (source_model : Source) (cls : SourceClass)
    (config_fields : dict) (white_label : option OAuth2Service.WhiteLabel)
  : outcome SourceInstance :=
  match integration_credential_id source_connection with
  | None => Raise (NotFoundException "Source connection has no integration credential")
  | Some credential_id =>
      match _get_integration_credential db credential_id with
      | Raise e => Raise e
      | Return credential =>
          let decrypted_credential := decrypt pf (encrypted_credentials credential) in
          (* Create token provider if needed *)
          let token_provider :=
            _create_token_provider_if_needed source_model source_connection
              decrypted_credential white_label in
          (* Get source credentials *)
          match _get_source_credentials pf token_provider source_model
                  decrypted_credential with
          | Raise e => Raise e
          | Return source_credentials =>
              (* Inject token provider and logger *)
              Return (mkSourceInstance cls source_credentials config_fields
                        (if has_set_token_provider cls then token_provider else None)
                        (has_set_logger cls))
          end
      end
  end.

(** [_create_source_instance] (lines 213-234) *)
Definition _create_source_instance (pf : platform) (db : Db) (sync : Sync)
    (white_label : option OAuth2Service.WhiteLabel) (access_token : option string)
  : outcome SourceInstance :=
  match _get_source_config db sync with
  | Raise e => Raise e
  | Return (source_connection, config_fields, source_model) =>
      let cls := get_source pf source_model in
      match access_token with
      | Some token =>
          if String.eqb token EmptyString then
            _create_source_with_credentials pf db source_connection source_model cls
              config_fields white_label
          else
            (* Handle direct access token case *)
            Return (_create_source_with_token cls token config_fields)
      | None =>
          (* Handle stored credentials case *)
          _create_source_with_credentials pf db source_connection source_model cls
            config_fields white_label
      end
  end.

(** [_get_embedding_model] *)
Definition _get_embedding_model (pf : platform) : EmbeddingModel :=
  match OPENAI_API_KEY pf with
  | Some key => if String.eqb key EmptyString then LocalText2Vec else OpenAIText2Vec key
  | None => LocalText2Vec
  end.

(** [schemas.Destination.model_validate(destination_model)]: validation
    refuses [None]. *)
Definition Destination_model_validate (destination_model : option Destination)
  : outcome Destination :=
  match destination_model with
  | None => Raise ValidationError
  | Some d => Return d
  end.

(** [_create_destination_instances] (lines 417-442) *)
Definition _create_destination_instances (db : Db) (sync : Sync)
    (collection : Collection) : outcome (list DestinationInstance) :=
  match destination_connection_ids sync with
  | [] => Raise IndexError
  | destination_connection_id :: _ =>
      match connections db !! destination_connection_id with
      | None => Raise (NotFoundException "Destination connection not found")
      | Some destination_connection =>
          let destination_model := destinations db !! short_name destination_connection in
          match Destination_model_validate destination_model with
          | Raise e => Raise e
          | Return destination_schema =>
              match destination_model with
              | None =>
                  Raise (NotFoundException
                           ("Destination not found for connection "
                              +:+ short_name destination_connection))
              | Some _ =>
                  Return [mkDestinationInstance destination_schema
                            (collection_id collection)]
              end
          end
      end
  end.

(** [_create_sync_context] (lines 155-199), up to the destinations; the
    registries loaded after them are read from tables that take no part
    here. *)
Definition _create_sync_context (pf : platform) (db : Db) (sync : Sync)
    (collection : Collection) (source_connection : SourceConnection)
    (access_token : option string) : outcome SyncContext :=
  (* Fetch white label if set in sync *)
  let white_label :=
    match white_label_id source_connection with
    | Some wid => white_labels db !! wid
    | None => None
    end in
  match _create_source_instance pf db sync white_label access_token with
  | Raise e => Raise e
  | Return source =>
      let embedding_model := _get_embedding_model pf in
      match _create_destination_instances db sync collection with
      | Raise e => Raise e
      | Return destinations =>
          Return (mkSyncContext source destinations embedding_model white_label)
      end
  end.

(** What [create_orchestrator] hands back: the context and the size of the
    worker pool. *)
Record SyncOrchestrator : Type := mkSyncOrchestrator {
  sync_context : SyncContext;
  max_workers : N
}.

(** [create_orchestrator] (lines 68-116) *)
Definition create_orchestrator (pf : platform) (SYNC_MAX_WORKERS : N) (db : Db)
    (sync : Sync) (collection : Collection) (source_connection : SourceConnection)
    (access_token : option string) (max_workers : option N)
  : outcome SyncOrchestrator :=
  let max_workers := default SYNC_MAX_WORKERS max_workers in
  match _create_sync_context pf db sync collection source_connection access_token with
  | Raise e => Raise e
  | Return sync_context => Return (mkSyncOrchestrator sync_context max_workers)
  end.

End SyncFactory.

(** ** [airweave/platform/file_handling/file_manager.py] *)

Module FileManager.

(** Values of the entity's [metadata] dictionary. *)
Inductive meta_value : Type :=
| MetaStr (s : string)
| MetaInt (z : Z).

Record FileEntity : Type := mkFileEntity {
  name : option string;                 (* [Optional[str]] in the entity schemas *)
  download_url : option string;
  should_skip : bool;
  metadata : option (gmap string meta_value);
  checksum : option string;
  local_path : option string;
  file_uuid : option Uuid.UUID;
  total_size : option Z
}.

(** What the next turn of the loop over the stream brings: a chunk of bytes,
    or an exception. *)
Inductive stream_item : Type :=
| Chunk (data : list Byte.byte)
| StreamError (e : exn).

(** The temporary directory: the files there, by path. *)
Abbreviation filesystem := (gmap string (list Byte.byte)).

Definition base_temp_dir : string := "/tmp/airweave".

Fixpoint strip_left (l : list ascii) : list ascii :=
  match l with
  | c :: l' => if Ascii.eqb c " "%char then strip_left l' else l
  | [] => []
  end.

(** [str.strip()] on a string whose only white space is the blank. *)
Definition strip (l : list ascii) : list ascii :=
  rev (strip_left (rev (strip_left l))).

Section WithHost.
(** [str.isalnum] on a character, [hashlib.sha256(...).hexdigest()], the
    formatting [f"{max_size / (1024 * 1024 * 1024):.1f}"], and what
    [aiofiles.open(path, "wb")] raises, if anything. *)
Variable isalnum : ascii -> bool.
Variable sha256_hexdigest : list Byte.byte -> string.
Variable format_gb : Z -> string.
Variable open_error : string -> option exn.

(** [_safe_filename] *)
Definition _safe_filename (filename : string) : string :=
  let safe_name :=
    List.filter
      (fun c => isalnum c
                || existsb (Ascii.eqb c) (list_ascii_of_string "._- "))
      (list_ascii_of_string filename) in
  string_of_list_ascii (strip safe_name).

Inductive save_result : Type :=
| Saved (downloaded_size : Z)              (* the stream is exhausted *)
| Exceeded (downloaded_size : Z)           (* the size check fired *)
| Failed (e : exn).                        (* the stream raised *)

(** The [async for chunk in stream] loop (lines 56-92) on the file opened at
    [temp_path]. *)
Fixpoint save_stream (stream : list stream_item) (downloaded_size : Z)
    (temp_path : string) (max_size : Z) (fs : filesystem)
  : save_result * filesystem :=
  match stream with
  | [] => (Saved downloaded_size, fs)
  | StreamError e :: _ => (Failed e, fs)
  | Chunk chunk :: stream' =>
      let downloaded_size := (downloaded_size + Z.of_nat (length chunk))%Z in
      (* Safety check to skip files exceeding max size *)
      if (downloaded_size >? max_size)%Z then (Exceeded downloaded_size, fs)
      else
        (* await f.write(chunk) *)
        let fs := alter (fun content => content ++ chunk) temp_path fs in
        save_stream stream' downloaded_size temp_path max_size fs
  end.

(** [os.path.join(self.base_temp_dir, f"{file_uuid}-{safe_filename}")] *)
Definition temp_path_of (file_uuid : Uuid.UUID) (filename : string) : string :=
  base_temp_dir +:+ "/" +:+ Uuid.str file_uuid +:+ "-" +:+ _safe_filename filename.

(** The handler at lines 103-108: [except Exception] removes the partial
    file and raises again; it does not catch [asyncio.CancelledError], which
    leaves the file as it is. *)
Definition on_error (e : exn) (temp_path : string) (fs : filesystem)
  : outcome FileEntity * filesystem :=
  if is_Exception e then
    (* Clean up partial file if it exists *)
    (Raise e, delete temp_path fs)
  else (Raise e, fs).

(** [handle_file_entity] (lines 43-110); [file_uuid] is what [uuid4()]
    draws.  An entity without a name fails in [_safe_filename], before the
    [try]; what the call returns is the entity it was given, updated, and on
    the raising paths the caller's entity is not followed further. *)
Definition handle_file_entity (fs : filesystem) (file_uuid : Uuid.UUID)
    (stream : list stream_item) (entity : FileEntity) (max_size : Z)
  : outcome FileEntity * filesystem :=
  match download_url entity with
  | None => (Return entity, fs)
  | Some url =>
      if String.eqb url EmptyString then (Return entity, fs)
      else
        (* Initialize a flag to indicate if this entity should be skipped *)
        let entity :=
          mkFileEntity (name entity) (download_url entity) false (metadata entity)
            (checksum entity) (local_path entity) (FileManager.file_uuid entity)
            (total_size entity) in
        match name entity with
        | None => (Raise (TypeError "'NoneType' object is not iterable"), fs)
        | Some filename =>
            let temp_path := temp_path_of file_uuid filename in
            (* aiofiles.open(temp_path, "wb") *)
            match open_error temp_path with
            | Some e => on_error e temp_path fs
            | None =>
                let fs := <[temp_path := []]> fs in
                match save_stream stream 0 temp_path max_size fs with
                | (Exceeded downloaded_size, fs) =>
                    (* Clean up the partial file *)
                    let fs := delete temp_path fs in
                    (* Add warning to entity metadata *)
                    let md :=
                      match metadata entity with
                      | Some m => if bool_decide (m = ∅) then ∅ else m
                      | None => ∅
                      end in
                    let md :=
                      <["error" := MetaStr ("File too large (exceeded "
                                              +:+ format_gb max_size
                                              +:+ "GB limit)")]> md in
                    let md := <["size_exceeded" := MetaInt downloaded_size]> md in
                    (* Set the skip flag *)
                    (Return (mkFileEntity (name entity) (download_url entity) true
                               (Some md) (checksum entity) (local_path entity)
                               (FileManager.file_uuid entity) (total_size entity)),
                     fs)
                | (Failed e, fs) => on_error e temp_path fs
                | (Saved downloaded_size, fs) =>
                    (* Calculate checksum and update entity *)
                    match fs !! temp_path with
                    | None => (Raise (Exception "FileNotFoundError"), fs)
                    | Some content =>
                        (Return (mkFileEntity (name entity) (download_url entity)
                                   (should_skip entity) (metadata entity)
                                   (Some (sha256_hexdigest content)) (Some temp_path)
                                   (Some file_uuid) (Some downloaded_size)),
                         fs)
                    end
                end
            end
        end
  end.

End WithHost.

End FileManager.

(** ** [app/core/dag_service.py] *)

Module DagService.

Record Sync : Type := mkSync {
  sync_name : string;
  source_connection_id : N;
  destination_connection_id : option N
}.

Record Connection : Type := mkConnection {
  connection_id : N;
  short_name : string
}.

Record Source : Type := mkSource {
  source_name : string;
  output_entity_definition_ids : list N
}.

Record EntityDefinition : Type := mkEntityDefinition {
  entity_definition_id : N;
  entity_definition_name : string
}.

Record Destination : Type := mkDestination {
  destination_name : string
}.

Record Db : Type := mkDb {
  syncs : gmap N Sync;                             (* crud.sync.get *)
  connections : gmap N Connection;                 (* crud.connection.get *)
  sources : gmap string Source;                    (* crud.source.get_by_short_name *)
  entity_definitions : gmap N EntityDefinition;    (* crud.entity_definition *)
  destinations : gmap string Destination           (* crud.destination.get_by_short_name *)
}.

Inductive node_type : Type :=
| source | entity | transformer | destination.

Global Instance node_type_eq_dec : EqDecision node_type.
Proof. solve_decision. Defined.

(** [DagNodeCreate] *)
Record DagNodeCreate : Type := mkDagNodeCreate {
  id : N;
  type : node_type;
  name : string;
  node_connection_id : option N;
  node_entity_definition_id : option N;
  config : option (gmap string string)
}.

(** [DagEdgeCreate] *)
Record DagEdgeCreate : Type := mkDagEdgeCreate {
  from_node_id : N;
  to_node_id : N
}.

(** [SyncDagDefinitionCreate] *)
Record SyncDagDefinitionCreate : Type := mkSyncDagDefinitionCreate {
  dag_name : string;
  dag_sync_id : N;
  nodes : list DagNodeCreate;
  edges : list DagEdgeCreate
}.

(** [needle in haystack] on strings. *)
Fixpoint contains (needle haystack : string) : bool :=
  if String.prefix needle haystack then true
  else
    match haystack with
    | EmptyString => false
    | String _ haystack' => contains needle haystack'
    end.

(** [crud.entity_definition.get_multi_by_ids]: the rows found for the ids. *)
Definition get_multi_by_ids (db : Db) (ids : list N) : list EntityDefinition :=
  omap (fun i => entity_definitions db !! i) ids.

(** The loop over the entity definitions (lines 54-72).  [uuid4] is a
    sequence of draws, [k] the number of draws made so far; an id is drawn
    for every definition, also for those that are skipped. *)
Fixpoint add_entity_nodes (uuid4 : nat -> N) (source_node_id : N)
    (entity_definitions : list EntityDefinition) (k : nat)
    (nodes : list DagNodeCreate) (edges : list DagEdgeCreate)
  : nat * list DagNodeCreate * list DagEdgeCreate :=
  match entity_definitions with
  | [] => (k, nodes, edges)
  | entity_definition :: rest =>
      let entity_node_id := uuid4 k in
      if contains "Workspace" (entity_definition_name entity_definition)
         || contains "Comment" (entity_definition_name entity_definition)
      then add_entity_nodes uuid4 source_node_id rest (S k) nodes edges
      else
        let entity_node :=
          mkDagNodeCreate entity_node_id entity
            (entity_definition_name entity_definition) None
            (Some (entity_definition_id entity_definition)) None in
        (* Create edge from source to entity *)
        add_entity_nodes uuid4 source_node_id rest (S k)
          (nodes ++ [entity_node])
          (edges ++ [mkDagEdgeCreate source_node_id entity_node_id])
  end.

(** [nodes[1:-1]] *)
Definition inner_nodes (nodes : list DagNodeCreate) : list DagNodeCreate :=
  removelast (tl nodes).

(** [create_initial_dag] (lines 24-133): the definition handed to
    [crud.sync_dag_definition.create_with_nodes_and_edges].  A row that is
    not there is [None]; reading an attribute of it raises. *)
Definition create_initial_dag (db : Db) (uuid4 : nat -> N) (sync_id : N)
  : outcome SyncDagDefinitionCreate :=
  match syncs db !! sync_id with
  | None => Raise AttributeError
  | Some sync =>
      match connections db !! source_connection_id sync with
      | None => Raise (HTTPException 404 "Source connection not found")
      | Some source_connection =>
          match sources db !! short_name source_connection with
          | None => Raise AttributeError
          | Some src =>
              let entity_definitions :=
                get_multi_by_ids db (output_entity_definition_ids src) in
              (* Create source node with pre-set ID *)
              let source_node_id := uuid4 0%nat in
              let source_node :=
                mkDagNodeCreate source_node_id source (source_name src)
                  (Some (connection_id source_connection)) None None in
              let nodes := [source_node] in
              let edges := [] in
              (* Create entity nodes with pre-set IDs *)
              let '(k, nodes, edges) :=
                add_entity_nodes uuid4 source_node_id entity_definitions 1%nat
                  nodes edges in
              (* Add a fake file entity node *)
              let file_entity_node_id := uuid4 k in
              let file_entity_node :=
                mkDagNodeCreate file_entity_node_id entity "AsanaPDF" None None
                  (Some {[ "type" := "file" ]}) in
              let nodes := nodes ++ [file_entity_node] in
              (* Create edge from source to file entity *)
              let edges := edges ++ [mkDagEdgeCreate source_node_id file_entity_node_id] in
              (* Create destination node with pre-set ID *)
              let destination_node_id := uuid4 (S k) in
              let destination_node :=
                match destination_connection_id sync with
                | Some did =>
                    match connections db !! did with
                    | None =>
                        Raise (HTTPException 404 "Destination connection not found")
                    | Some destination_connection =>
                        match destinations db !! short_name destination_connection with
                        | None => Raise AttributeError
                        | Some dst =>
                            Return (mkDagNodeCreate destination_node_id destination
                                      (destination_name dst)
                                      (Some (connection_id destination_connection))
                                      None None)
                        end
                    end
                | None =>
                    Return (mkDagNodeCreate destination_node_id destination
                              "Native Weaviate" None None None)
                end in
              match destination_node with
              | Raise e => Raise e
              | Return destination_node =>
                  let nodes := nodes ++ [destination_node] in
                  (* Create edges from entities to destination *)
                  let edges :=
                    edges ++ map (fun node => mkDagEdgeCreate (id node) destination_node_id)
                                 (inner_nodes nodes) in
                  Return (mkSyncDagDefinitionCreate
                            ("DAG for " +:+ sync_name sync) sync_id nodes edges)
              end
          end
      end
  end.

End DagService.

(** ** [file_manager.py]: streaming a file from a URL *)

Module FileStreaming.

(** What [client.stream("GET", url, headers=..., follow_redirects=True)]
    gives: no response at all, or a status and the chunks of the body, the
    last of which may be an exception raised while reading. *)
Inductive http_stream : Type :=
| ConnectFailed (e : exn)
| Streamed (status_code : Z) (body : list FileManager.stream_item).

(** The headers of the request (lines 126-130); [headers or {}] is the
    caller's dictionary, or an empty one. *)
Definition request_headers (url : string) (access_token : option string)
    (headers : option (gmap string string)) : gmap string string :=
  let request_headers := default ∅ headers in
  (* Only add Authorization header if URL doesn't already have S3 auth *)
  match access_token with
  | Some token =>
      if negb (String.eqb token EmptyString)
         && negb (DagService.contains "X-Amz-Algorithm" url)
      then <["Authorization" := "Bearer " +:+ token]> request_headers
      else request_headers
  | None => request_headers
  end.

(** [stream_file_from_url] (lines 119-144): what the generator yields.  Any
    exception is logged and raised again. *)
Definition stream_file_from_url
    (get : string -> gmap string string -> http_stream)
    (url : string) (access_token : option string)
    (headers : option (gmap string string)) : list FileManager.stream_item :=
  match get url (request_headers url access_token headers) with
  | ConnectFailed e => [FileManager.StreamError e]
  | Streamed status_code body =>
      (* response.raise_for_status() *)
      if ((200 <=? status_code) && (status_code <? 300))%Z then body
      else [FileManager.StreamError (HTTPStatusError status_code)]
  end.

End FileStreaming.

(** ** [airweave/platform/auth/services.py]: exchanging an authorization code *)

Module OAuth2Exchange.

(** What [response.json()] gives; numbers are taken to be integers. *)
#[warnings="-register-all"] Inductive json : Type :=
| JNull
| JBool (b : bool)
| JNum (n : Z)
| JStr (s : string)
| JArr (items : list json)
| JObj (fields : list (string * json)).

(** Python truthiness of a decoded JSON value. *)
Definition json_truthy (v : json) : bool :=
  match v with
  | JNull => false
  | JBool b => b
  | JNum n => negb (n =? 0)%Z
  | JStr s => negb (String.eqb s EmptyString)
  | JArr items => match items with [] => false | _ => true end
  | JObj fields => match fields with [] => false | _ => true end
  end.

(** [d.get(k)] on a decoded JSON object. *)
Fixpoint obj_get (k : string) (fields : list (string * json)) : json :=
  match fields with
  | [] => JNull
  | (k', v) :: rest => if String.eqb k k' then v else obj_get k rest
  end.

(** The settings of one integration ([integration_settings]), as far as the
    exchange reads them. *)
Record OAuth2Settings : Type := mkOAuth2Settings {
  backend_url : string;
  grant_type : string;
  content_type : string;
  client_credential_location : string;
  client_id : pyval;
  client_secret : pyval
}.

Record WhiteLabel : Type := mkWhiteLabel {
  source_short_name : string;
  redirect_url : string;
  wl_client_id : pyval;
  wl_client_secret : pyval
}.

(** What [client.post] gives: a failure to get any response, or a status,
    the text of the body and, when the text is JSON, its decoding. *)
Inductive post_result : Type :=
| PostFails (msg : string)
| PostResponse (status_code : Z) (text : string) (body : option json).

(** What a call raises: an exception of the body, or the [TypeError] of a
    call that leaves out the required keyword-only argument [missing]. *)
Inductive error : Type :=
| TypeError (missing : string)
| Raised (e : exn).

Inductive result (A : Type) : Type :=
| Ok (a : A)
| Err (e : error).
Arguments Ok {A} a.
Arguments Err {A} e.

Section WithProvider.
(** [settings.app_url], [base64.b64encode] of the ASCII bytes, the token
    endpoint, and the constructor of [OAuth2TokenResponse] applied to keyword
    arguments (the class is not part of the sources). *)
Variable app_url : string.
Variable b64encode : string -> string.
Variable post : OAuth2Service.TokenRequest -> post_result.
Variable OAuth2TokenResponse : Type.
Variable OAuth2TokenResponse_init : list (string * json) -> outcome OAuth2TokenResponse.

(** [_get_redirect_url] *)
Definition _get_redirect_url (integration_short_name : string) : string :=
  app_url +:+ "/auth/callback/" +:+ integration_short_name.

(** [data.get(k) or (data.get("authed_user") or {}).get(k)] (lines 613-621):
    the right operand is evaluated only when the left one is falsy; a truthy
    [authed_user] that is no object has no [get]. *)
Definition normalized (data : list (string * json)) (k : string) : outcome json :=
  let top := obj_get k data in
  if json_truthy top then Return top
  else
    let authed_user := obj_get "authed_user" data in
    match (if json_truthy authed_user then authed_user else JObj []) with
    | JObj fields => Return (obj_get k fields)
    | _ => Raise AttributeError
    end.

(** Lines 610-637: from the decoded body to the token response. *)
Definition token_response_of (data : json) : outcome OAuth2TokenResponse :=
  match data with
  | JObj data =>
      match normalized data "access_token" with
      | Raise e => Raise e
      | Return access_token =>
      match normalized data "refresh_token" with
      | Raise e => Raise e
      | Return refresh_token =>
      match normalized data "token_type" with
      | Raise e => Raise e
      | Return token_type =>
      match normalized data "expires_in" with
      | Raise e => Raise e
      | Return expires_in =>
      match normalized data "scope" with
      | Raise e => Raise e
      | Return scope =>
          if json_truthy access_token then
            OAuth2TokenResponse_init
              [("access_token", access_token); ("token_type", token_type);
               ("expires_in", expires_in); ("refresh_token", refresh_token);
               ("scope", scope); ("extra_fields", JObj data)]
          else
            (* Fallback: attempt direct parsing *)
            OAuth2TokenResponse_init data
      end end end end end
  | _ => Raise AttributeError
  end.

(** The request of [_exchange_code] (lines 563-578), built before the
    [try]: encoding the credentials for the header raises on a character
    outside ASCII. *)
Definition exchange_request (code redirect_uri : string)
    (client_id client_secret : pyval) (integration_config : OAuth2Settings)
  : outcome OAuth2Service.TokenRequest :=
  let headers : gmap string string :=
    {[ "Content-Type" := content_type integration_config ]} in
  let payload : dict :=
    <["redirect_uri" := PyStr redirect_uri]>
      (<["code" := PyStr code]>
         {[ "grant_type" := PyStr (grant_type integration_config) ]}) in
  if String.eqb (client_credential_location integration_config) "header" then
    match OAuth2Service._encode_client_credentials b64encode client_id client_secret with
    | Raise e => Raise e
    | Return encoded_credentials =>
        Return (OAuth2Service.mkTokenRequest (backend_url integration_config)
                  (<["Authorization" := "Basic " +:+ encoded_credentials]> headers)
                  payload)
    end
  else
    Return (OAuth2Service.mkTokenRequest (backend_url integration_config) headers
              (<["client_secret" := client_secret]>
                 (<["client_id" := client_id]> payload))).

(** [_exchange_code] (lines 535-637): the result and the requests sent.
    [logger] is keyword-only and has no default: [None] stands for a call
    that does not pass it.  [raise_for_status] refuses every status outside
    2xx; both handlers raise [HTTPException] with status 400. *)
Definition _exchange_code (logger : option unit) (code redirect_uri : string)
    (client_id client_secret : pyval) (integration_config : OAuth2Settings)
  : result OAuth2TokenResponse * list OAuth2Service.TokenRequest :=
  match logger with
  | None => (Err (TypeError "logger"), [])
  | Some _ =>
      match exchange_request code redirect_uri client_id client_secret
              integration_config with
      | Raise e => (Err (Raised e), [])
      | Return request =>
          match post request with
          | PostFails msg =>
              (Err (Raised (HTTPException 400 "Failed to exchange authorization code")),
               [request])
          | PostResponse status_code text body =>
              if ((200 <=? status_code) && (status_code <? 300))%Z then
                match body with
                | None => (Err (Raised ValueError), [request])
                | Some data =>
                    match token_response_of data with
                    | Return response => (Ok response, [request])
                    | Raise e => (Err (Raised e), [request])
                    end
                end
              else (Err (Raised (HTTPException 400 text)), [request])
          end
      end
  end.

(** [exchange_authorization_code_for_token] (lines 71-116) *)
Definition exchange_authorization_code_for_token
    (integration_settings : gmap string OAuth2Settings)
    (source_short_name code : string) (client_id client_secret : pyval)
  : result OAuth2TokenResponse * list OAuth2Service.TokenRequest :=
  match integration_settings !! source_short_name with
  | None =>
      (Err (Raised (HTTPException 404
                      ("Settings not found for source: " +:+ source_short_name))),
       [])
  | Some oauth2_settings =>
      let redirect_uri := _get_redirect_url source_short_name in
      let '(client_id, client_secret) :=
        if negb (truthy client_id) && negb (truthy client_secret)
        then (OAuth2Exchange.client_id oauth2_settings,
              OAuth2Exchange.client_secret oauth2_settings)
        else (client_id, client_secret) in
      _exchange_code (Some tt) code redirect_uri client_id client_secret oauth2_settings
  end.

(** [exchange_code_for_whitelabel] (lines 497-532): the call of
    [_exchange_code] passes no [logger]. *)
Definition exchange_code_for_whitelabel
    (integration_settings : gmap string OAuth2Settings)
    (code : string) (white_label : WhiteLabel)
  : result OAuth2TokenResponse * list OAuth2Service.TokenRequest :=
  match integration_settings !! source_short_name white_label with
  | None =>
      (Err (Raised (NotFoundException
                      ("Integration " +:+ source_short_name white_label
                       +:+ " not found."))),
       [])
  | Some integration_config =>
      _exchange_code None code (redirect_url white_label)
        (wl_client_id white_label) (wl_client_secret white_label) integration_config
  end.

End WithProvider.

End OAuth2Exchange.

(** ** [airweave/analytics/search_analytics.py] *)

Module SearchAnalytics.

Record Organization : Type := mkOrganization {
  org_id : Uuid.UUID;
  org_name : option string              (* [None]: the object has no [name] *)
}.

Record User : Type := mkUser {
  user_id : Uuid.UUID
}.

Record ApiContext : Type := mkApiContext {
  organization : Organization;
  user : option User
}.

Section WithFloat.
(** Python floats; the module only passes them on. *)
Variable float : Type.

(** The values the property dictionaries hold. *)
Inductive value : Type :=
| VBool (b : bool)
| VInt (n : Z)
| VFloat (x : float)
| VStr (s : string).

(** The arguments of one call of [analytics.track_event]. *)
Record Event : Type := mkEvent {
  event_name : string;
  distinct_id : string;
  properties : gmap string value;
  groups : gmap string string
}.

(** [len(query)] *)
Definition len (query : string) : value := VInt (Z.of_nat (String.length query)).

(** [getattr(ctx.organization, "name", "unknown")] *)
Definition organization_name (ctx : ApiContext) : value :=
  VStr (default "unknown" (org_name (organization ctx))).

(** [if response_type: properties["response_type"] = response_type] *)
Definition add_response_type (response_type : option string)
    (properties : gmap string value) : gmap string value :=
  match response_type with
  | Some r =>
      if negb (String.eqb r EmptyString)
      then <["response_type" := VStr r]> properties
      else properties
  | None => properties
  end.

(** [if flag is not None: properties[key] = flag] *)
Definition add_flag (key : string) (flag : option bool)
    (properties : gmap string value) : gmap string value :=
  match flag with
  | Some b => <[key := VBool b]> properties
  | None => properties
  end.

(** [build_search_properties] (lines 9-51) *)
Definition build_search_properties {A : Type} (ctx : ApiContext)
    (query collection_slug : string) (duration_ms : float) (search_type : string)
    (results : option (list A)) (response_type : option string) (status : string)
  : gmap string value :=
  let properties : gmap string value :=
    <["status" := VStr status]>
      (<["organization_name" := organization_name ctx]>
         (<["search_type" := VStr search_type]>
            (<["duration_ms" := VFloat duration_ms]>
               (<["collection_slug" := VStr collection_slug]>
                  {[ "query_length" := len query ]})))) in
  (* Add response type if provided *)
  let properties := add_response_type response_type properties in
  (* Add results count if results are provided *)
  match results with
  | Some results =>
      match results with
      | [] => properties
      | _ :: _ => <["results_count" := VInt (Z.of_nat (length results))]> properties
      end
  | None => properties
  end.

(** [build_search_persistence_properties] (lines 102-153) *)
Definition build_search_persistence_properties (ctx : ApiContext)
    (query collection_slug : string) (duration_ms : float) (results_count : Z)
    (status search_type : string) (response_type : option string)
    (query_expansion_enabled reranking_enabled query_interpretation_enabled
       : option bool)
  : gmap string value :=
  let properties : gmap string value :=
    <["organization_name" := organization_name ctx]>
      (<["status" := VStr status]>
         (<["search_type" := VStr search_type]>
            (<["results_count" := VInt results_count]>
               (<["duration_ms" := VFloat duration_ms]>
                  (<["collection_slug" := VStr collection_slug]>
                     {[ "query_length" := len query ]}))))) in
  (* Add optional properties *)
  let properties := add_response_type response_type properties in
  let properties := add_flag "query_expansion_enabled" query_expansion_enabled properties in
  let properties := add_flag "reranking_enabled" reranking_enabled properties in
  add_flag "query_interpretation_enabled" query_interpretation_enabled properties.

(** [track_search_event] (lines 82-99): the event handed to
    [analytics.track_event]. *)
Definition track_search_event (ctx : ApiContext) (properties : gmap string value)
    (event_name : string) : Event :=
  mkEvent event_name
    (match user ctx with
     | Some u => Uuid.str (user_id u)
     | None => "api_key_" +:+ Uuid.str (org_id (organization ctx))
     end)
    properties
    {[ "organization" := Uuid.str (org_id (organization ctx)) ]}.

(** [track_search_persisted] (lines 156-198) *)
Definition track_search_persisted (ctx : ApiContext)
    (query collection_slug : string) (duration_ms : float) (results_count : Z)
    (status search_type : string) (response_type : option string)
    (query_expansion_enabled reranking_enabled query_interpretation_enabled
       : option bool)
  : Event :=
  let properties :=
    build_search_persistence_properties ctx query collection_slug duration_ms
      results_count status search_type response_type query_expansion_enabled
      reranking_enabled query_interpretation_enabled in
  track_search_event ctx properties "search_persisted".

End WithFloat.

End SearchAnalytics.

(** * Properties *)

(** ** UUID rendering *)

Section UuidFacts.
Import Uuid.

Lemma hex_char_inj (d e : N) :
  (d < 16)%N -> (e < 16)%N -> hex_char d = hex_char e -> d = e.
Proof.
  intros Hd He.
  assert (Hd' : In d (map N.of_nat (seq 0 16))).
  { apply in_map_iff. exists (N.to_nat d). split; [lia|]. apply in_seq. lia. }
  assert (He' : In e (map N.of_nat (seq 0 16))).
  { apply in_map_iff. exists (N.to_nat e). split; [lia|]. apply in_seq. lia. }
  cbn in Hd', He'.
  repeat (destruct Hd' as [<-|Hd']; [
    repeat (destruct He' as [<-|He']; [first [reflexivity | discriminate] |]);
    contradiction |]).
  contradiction.
Qed.

Lemma hex_char_not_dash (d : N) : hex_char d <> "-"%char.
Proof.
  unfold hex_char.
  destruct d as [|p]; [discriminate|].
  do 4 (destruct p as [p|p|]; try discriminate).
Qed.

Lemma hex_digits_bound k n : Forall (fun d => (d < 16)%N) (hex_digits k n).
Proof.
  revert n. induction k as [|k IH]; intros n; cbn; [constructor|].
  apply Forall_app. split; [apply IH|].
  constructor; [|constructor]. apply N.mod_lt. lia.
Qed.

Lemma hex_digits_inj k n m :
  hex_digits k n = hex_digits k m -> (n mod 16 ^ N.of_nat k = m mod 16 ^ N.of_nat k)%N.
Proof.
  revert n m. induction k as [|k IH]; intros n m H.
  - cbn. now rewrite !N.mod_1_r.
  - cbn [hex_digits] in H.
    apply app_inj_tail in H. destruct H as [H1 H2].
    apply IH in H1.
    replace (N.of_nat (S k)) with (N.succ (N.of_nat k)) by lia.
    rewrite N.pow_succ_r'.
    rewrite !(N.Div0.mod_mul_r _ 16 (16 ^ N.of_nat k)).
    now rewrite H1, H2.
Qed.

Lemma map_hex_char_inj (l1 l2 : list N) :
  Forall (fun d => (d < 16)%N) l1 -> Forall (fun d => (d < 16)%N) l2 ->
  map hex_char l1 = map hex_char l2 -> l1 = l2.
Proof.
  intros H1. revert l2.
  induction H1 as [|d l1 Hd _ IH]; intros l2 H2 H.
  - destruct l2; [reflexivity|discriminate].
  - destruct H2 as [|e l2 He H2]; [discriminate|].
    cbn in H. injection H as Hh Ht.
    f_equal; [now apply hex_char_inj | now apply IH].
Qed.

Lemma hex_no_dash (u : UUID) : Forall (fun c => c <> "-"%char) (hex u).
Proof.
  unfold hex. apply Forall_map. apply Forall_forall. intros d _.
  apply hex_char_not_dash.
Qed.

(** Removing the hyphens from [str] gives back the 32 hexadecimal digits. *)
Definition undash (l : list ascii) : list ascii :=
  List.filter (fun c => negb (Ascii.eqb c "-"%char)) l.

Lemma undash_id (l : list ascii) :
  Forall (fun c => c <> "-"%char) l -> undash l = l.
Proof.
  unfold undash.
  induction 1 as [|c l Hc _ IH]; cbn; [reflexivity|].
  destruct (Ascii.eqb_spec c "-"%char) as [->|_]; [contradiction|].
  cbn. now rewrite IH.
Qed.

Lemma undash_app l1 l2 : undash (l1 ++ l2) = undash l1 ++ undash l2.
Proof. apply List.filter_app. Qed.

Lemma undash_str_chars (u : UUID) : undash (str_chars u) = hex u.
Proof.
  unfold str_chars.
  pose proof (hex_no_dash u) as Hn.
  set (h := hex u) in *.
  assert (Hsplit : h = take 8 h ++ take 4 (drop 8 h) ++ take 4 (drop 12 h)
                         ++ take 4 (drop 16 h) ++ drop 20 h).
  { replace (drop 20 h) with (drop 4 (drop 16 h)) by (now rewrite drop_drop).
    rewrite take_drop. reflexivity. }
  rewrite <- (undash_id h Hn) at 6.
  rewrite Hsplit at 6.
  repeat (rewrite undash_app; cbn [undash List.filter Ascii.eqb negb]).
  change (List.filter (fun c => negb (Ascii.eqb c "-"%char))) with undash.
  reflexivity.
Qed.

Lemma str_inj (u v : UUID) : str u = str v -> int u = int v.
Proof.
  intros H. unfold str in H.
  apply (f_equal list_ascii_of_string) in H.
  rewrite !list_ascii_of_string_of_list_ascii in H.
  apply (f_equal undash) in H. rewrite !undash_str_chars in H.
  unfold hex in H.
  apply map_hex_char_inj in H; try apply hex_digits_bound.
  apply hex_digits_inj in H.
  pose proof (int_128 u) as Hu. pose proof (int_128 v) as Hv.
  apply N.ltb_lt in Hu, Hv.
  change (16 ^ N.of_nat 32)%N with (2 ^ 128)%N in H.
  now rewrite !N.mod_small in H.
Qed.

End UuidFacts.

(** ** Workflow identifiers ([temporal_service.py]) *)

Section WorkflowIds.
Import TemporalService.

Lemma sync_prefix_inj (s t : string) : "sync-" +:+ s = "sync-" +:+ t -> s = t.
Proof. cbn. intros H. now injection H. Qed.

Lemma str_of_int (u v : Uuid.UUID) : Uuid.int u = Uuid.int v -> Uuid.str u = Uuid.str v.
Proof. intros H. unfold Uuid.str, Uuid.str_chars, Uuid.hex. now rewrite H. Qed.

Lemma cancel_after_start (job : SyncJob) (e e' : engine) (h : string) :
  run_source_connection_workflow job e = (Return h, e') ->
  h = run_workflow_id job /\
  workflows e' !! run_workflow_id job = Some WfRunning /\
  cancel_sync_job_workflow (Uuid.str (id job)) e'
    = (true, mkEngine (reachable e')
               (<[run_workflow_id job := WfCancelRequested]> (workflows e'))).
Proof.
  unfold run_source_connection_workflow, start_workflow.
  destruct (reachable e) eqn:Hr; [|discriminate].
  destruct (workflows e !! run_workflow_id job) eqn:Hl; [discriminate|].
  intros [= <- <-]. cbn [workflows reachable].
  split; [reflexivity|]. split; [apply lookup_insert_eq|].
  unfold cancel_sync_job_workflow, handle_cancel. cbn [workflows reachable].
  change (cancel_workflow_id (Uuid.str (id job))) with (run_workflow_id job).
  rewrite ?Hr, lookup_insert_eq. reflexivity.
Qed.

End WorkflowIds.

(** C8. For every sync job, the identifier under which
    [run_source_connection_workflow] starts the run and the identifier
    [cancel_sync_job_workflow] computes from the job's id are the same string
    ["sync-<sync_job_id>"]; it depends on the job's id only and distinct jobs
    get distinct identifiers.  On a reachable engine that runs no workflow
    under that identifier the start succeeds and registers the workflow under
    exactly that identifier; a second start for the same job id is refused
    and changes nothing; a cancel request for the job id reaches exactly the
    workflow that was started for the job and touches no other workflow. *)
Theorem workflow_id_start_cancel_agree (job : TemporalService.SyncJob) :
  let workflow_id := "sync-" +:+ Uuid.str (TemporalService.id job) in
  TemporalService.run_workflow_id job = workflow_id /\
  TemporalService.cancel_workflow_id (Uuid.str (TemporalService.id job))
    = TemporalService.run_workflow_id job /\
  (forall job',
      Uuid.int (TemporalService.id job') = Uuid.int (TemporalService.id job) ->
      TemporalService.run_workflow_id job' = TemporalService.run_workflow_id job) /\
  (forall job',
      TemporalService.run_workflow_id job'
        = TemporalService.cancel_workflow_id (Uuid.str (TemporalService.id job)) ->
      Uuid.int (TemporalService.id job') = Uuid.int (TemporalService.id job)) /\
  (forall e e' h,
      TemporalService.run_source_connection_workflow job e = (Return h, e') ->
      h = TemporalService.run_workflow_id job /\
      TemporalService.cancel_sync_job_workflow (Uuid.str (TemporalService.id job)) e'
        = (true,
           TemporalService.mkEngine (TemporalService.reachable e')
             (<[TemporalService.run_workflow_id job := TemporalService.WfCancelRequested]>
                (TemporalService.workflows e')))) /\
  (forall e,
      TemporalService.reachable e = true ->
      TemporalService.workflows e !! workflow_id = None ->
      TemporalService.run_source_connection_workflow job e
      = (Return workflow_id,
         TemporalService.mkEngine true
           (<[workflow_id := TemporalService.WfRunning]> (TemporalService.workflows e)))) /\
  (forall e job',
      Uuid.int (TemporalService.id job') = Uuid.int (TemporalService.id job) ->
      TemporalService.reachable e = true ->
      is_Some (TemporalService.workflows e !! workflow_id) ->
      TemporalService.run_source_connection_workflow job' e
      = (Raise (RPCError "Workflow execution already started"), e)) /\
  (forall e,
      TemporalService.reachable e = true ->
      is_Some (TemporalService.workflows e !! workflow_id) ->
      TemporalService.cancel_sync_job_workflow (Uuid.str (TemporalService.id job)) e
      = (true,
         TemporalService.mkEngine true
           (<[workflow_id := TemporalService.WfCancelRequested]>
              (TemporalService.workflows e)))) /\
  (forall e other,
      other <> workflow_id ->
      TemporalService.workflows
        (snd (TemporalService.cancel_sync_job_workflow
                (Uuid.str (TemporalService.id job)) e)) !! other
      = TemporalService.workflows e !! other).
Proof.
  cbv zeta.
  split; [reflexivity|]. split; [reflexivity|]. split.
  { intros job' H. unfold TemporalService.run_workflow_id.
    f_equal. now apply str_of_int. }
  split.
  { intros job' H. unfold TemporalService.run_workflow_id,
      TemporalService.cancel_workflow_id in H.
    apply sync_prefix_inj in H. now apply str_inj. }
  split.
  { intros e e' h H. apply cancel_after_start in H.
    destruct H as (Hh & _ & Hc). split; assumption. }
  split.
  { intros e Hr Hfree.
    unfold TemporalService.run_source_connection_workflow,
      TemporalService.start_workflow, TemporalService.run_workflow_id.
    rewrite Hr, Hfree. reflexivity. }
  split.
  { intros e job' Hid Hr [w Hw].
    unfold TemporalService.run_source_connection_workflow,
      TemporalService.start_workflow, TemporalService.run_workflow_id.
    rewrite Hr, (str_of_int _ _ Hid), Hw. reflexivity. }
  split.
  { intros e Hr [w Hw].
    unfold TemporalService.cancel_sync_job_workflow, TemporalService.handle_cancel,
      TemporalService.cancel_workflow_id.
    rewrite Hr, Hw. reflexivity. }
  intros e other Hother.
  unfold TemporalService.cancel_sync_job_workflow, TemporalService.handle_cancel,
    TemporalService.cancel_workflow_id.
  destruct (TemporalService.reachable e); [|reflexivity].
  destruct (TemporalService.workflows e !! _); [|reflexivity].
  cbn [snd TemporalService.workflows]. now apply lookup_insert_ne.
Qed.

Definition job_7 : TemporalService.SyncJob :=
  TemporalService.mkSyncJob
    (Uuid.mkUUID 0x0123456789abcdef0123456789abcdef eq_refl)
    (Uuid.mkUUID 7 eq_refl).

(** A start on an engine that runs another job's workflow, the refused
    second start, and the cancel request that follows. *)
Lemma workflow_id_start_cancel_agree_witness :
  let workflow_id := "sync-01234567-89ab-cdef-0123-456789abcdef" in
  let other := "sync-00000000-0000-0000-0000-000000000009" in
  let e0 := TemporalService.mkEngine true {[ other := TemporalService.WfRunning ]} in
  let e1 :=
    TemporalService.mkEngine true
      (<[workflow_id := TemporalService.WfRunning]>
         {[ other := TemporalService.WfRunning ]}) in
  TemporalService.run_source_connection_workflow job_7 e0 = (Return workflow_id, e1) /\
  TemporalService.run_source_connection_workflow job_7 e1
  = (Raise (RPCError "Workflow execution already started"), e1) /\
  fst (TemporalService.cancel_sync_job_workflow "01234567-89ab-cdef-0123-456789abcdef"
         e1) = true /\
  TemporalService.workflows
    (snd (TemporalService.cancel_sync_job_workflow
            "01234567-89ab-cdef-0123-456789abcdef" e1)) !! other
  = Some TemporalService.WfRunning.
Proof.
  cbv zeta.
  destruct (workflow_id_start_cancel_agree job_7)
    as (_ & _ & _ & _ & _ & Hstart & Hagain & Hcancel & Hframe).
  cbv zeta in Hstart, Hagain, Hcancel, Hframe.
  change (Uuid.str (TemporalService.id job_7))
    with "01234567-89ab-cdef-0123-456789abcdef" in *.
  split; [|split; [|split]].
  - rewrite Hstart; [reflexivity|reflexivity|vm_compute; reflexivity].
  - apply Hagain; [reflexivity|reflexivity|].
    exists TemporalService.WfRunning. vm_compute. reflexivity.
  - rewrite Hcancel; [reflexivity|reflexivity|].
    exists TemporalService.WfRunning. vm_compute. reflexivity.
  - rewrite Hframe by discriminate. vm_compute. reflexivity.
Defined.

(** ** Client credentials and token refresh ([services.py]) *)

Section ClientCredentials.
Import OAuth2Service.

(** The value a key has in an optional dictionary, if any. *)
Definition opt_lookup (d : option dict) (k : string) : option pyval :=
  match d with
  | Some m => m !! k
  | None => None
  end.

Lemma dict_truthy_lookup (d : option dict) (k : string) (dflt : pyval) :
  (if dict_truthy d then dict_get (default ∅ d) k dflt else dflt)
  = default dflt (opt_lookup d k).
Proof.
  destruct d as [m|]; cbn; [|reflexivity].
  case_bool_decide as Hm; cbn; [|reflexivity].
  subst m. now rewrite lookup_empty.
Qed.

Lemma get_client_credentials_chain cfg (auth_fields decrypted_credential : option dict) :
  _get_client_credentials cfg auth_fields decrypted_credential
  = (default (default (client_id cfg) (opt_lookup decrypted_credential "client_id"))
             (opt_lookup auth_fields "client_id"),
     default (default (client_secret cfg) (opt_lookup decrypted_credential "client_secret"))
             (opt_lookup auth_fields "client_secret")).
Proof.
  unfold _get_client_credentials.
  rewrite <- !dict_truthy_lookup.
  destruct (dict_truthy decrypted_credential), (dict_truthy auth_fields); reflexivity.
Qed.

End ClientCredentials.

(** C10. [_get_client_credentials] resolves the client id and the client
    secret with [auth_fields] first, then [decrypted_credential], then the
    integration config: a key present in [auth_fields] is answered from there
    whatever [decrypted_credential] holds, a key present only in
    [decrypted_credential] is answered from it, and a key absent from both
    falls back to the integration config. *)
Theorem get_client_credentials_precedence
    (cfg : OAuth2Service.IntegrationConfig)
    (auth_fields decrypted_credential : option dict) :
  let r := OAuth2Service._get_client_credentials cfg auth_fields decrypted_credential in
  (forall v, opt_lookup auth_fields "client_id" = Some v -> fst r = v) /\
  (forall v, opt_lookup auth_fields "client_secret" = Some v -> snd r = v) /\
  (forall v, opt_lookup auth_fields "client_id" = None ->
             opt_lookup decrypted_credential "client_id" = Some v -> fst r = v) /\
  (forall v, opt_lookup auth_fields "client_secret" = None ->
             opt_lookup decrypted_credential "client_secret" = Some v -> snd r = v) /\
  (opt_lookup auth_fields "client_id" = None ->
   opt_lookup decrypted_credential "client_id" = None ->
   fst r = OAuth2Service.client_id cfg) /\
  (opt_lookup auth_fields "client_secret" = None ->
   opt_lookup decrypted_credential "client_secret" = None ->
   snd r = OAuth2Service.client_secret cfg).
Proof.
  cbv zeta. rewrite get_client_credentials_chain. cbn [fst snd].
  repeat split.
  - intros v ->. reflexivity.
  - intros v ->. reflexivity.
  - intros v -> ->. reflexivity.
  - intros v -> ->. reflexivity.
  - intros -> ->. reflexivity.
  - intros -> ->. reflexivity.
Qed.

Definition cfg_asana : OAuth2Service.IntegrationConfig :=
  OAuth2Service.mkIntegrationConfig "asana" oauth2_with_refresh_rotating
    "https://app.asana.com/-/oauth_token" "application/x-www-form-urlencoded" "body"
    (PyStr "cfg-id") (PyStr "cfg-secret").

Lemma get_client_credentials_precedence_witness :
  OAuth2Service._get_client_credentials cfg_asana
    (Some {[ "client_id" := PyStr "af-id" ]})
    (Some (<["client_secret" := PyStr "dc-secret"]> {[ "client_id" := PyStr "dc-id" ]}))
  = (PyStr "af-id", PyStr "dc-secret")
  /\ OAuth2Service._get_client_credentials cfg_asana None (Some ∅)
     = (PyStr "cfg-id", PyStr "cfg-secret").
Proof.
  split.
  - destruct (get_client_credentials_precedence cfg_asana
                (Some {[ "client_id" := PyStr "af-id" ]})
                (Some (<["client_secret" := PyStr "dc-secret"]>
                         {[ "client_id" := PyStr "dc-id" ]})))
      as (H1 & _ & _ & H4 & _).
    apply injective_projections.
    + apply H1. reflexivity.
    + apply H4; reflexivity.
  - destruct (get_client_credentials_precedence cfg_asana None (Some ∅))
      as (_ & _ & _ & _ & H5 & H6).
    apply injective_projections.
    + apply H5; reflexivity.
    + apply H6; reflexivity.
Defined.

Section TokenRefresh.
Import OAuth2Service.
Context (b64encode : string -> string) {cipher : Type}
        (encrypt : dict -> cipher) (decrypt : cipher -> dict).

Lemma handle_token_response_rotating db json cfg connection_id resp db' :
  auth_type cfg = oauth2_with_refresh_rotating ->
  _handle_token_response cipher encrypt decrypt db json cfg connection_id
    = (Return resp, db') ->
  exists connection credential,
    connections cipher db !! connection_id = Some connection /\
    integration_credentials cipher db !! integration_credential_id connection
      = Some credential /\
    db' = crud_integration_credential_update cipher
            (integration_credential_id connection)
            (encrypt (<["refresh_token" := refresh_token resp]>
                        (decrypt (encrypted_credentials cipher credential))))
            db.
Proof.
  intros Hrot. unfold _handle_token_response.
  destruct (parse_token_response json) as [r|e]; [|discriminate].
  destruct (decide _) as [_|Hn]; [|contradiction].
  destruct (connections cipher db !! connection_id) as [c|] eqn:Hc; [|discriminate].
  destruct (integration_credentials cipher db !! integration_credential_id c)
    as [ic|] eqn:Hic; [|discriminate].
  intros [= <- <-]. exists c, ic. auto.
Qed.

Lemma handle_token_response_static db json cfg connection_id :
  auth_type cfg <> oauth2_with_refresh_rotating ->
  snd (_handle_token_response cipher encrypt decrypt db json cfg connection_id) = db.
Proof.
  intros Hn. unfold _handle_token_response.
  destruct (parse_token_response json) as [r|e]; [|reflexivity].
  destruct (decide _) as [Heq|_]; [contradiction|reflexivity].
Qed.

(** Whatever [refresh_access_token] answers, it went through
    [_handle_token_response] on the unchanged database, or left the
    database alone. *)
Lemma refresh_access_token_cases settings post db name connection_id dc wl :
  let r := refresh_access_token b64encode cipher encrypt decrypt
             settings post db name connection_id dc wl in
  (exists e, r = (Raise e, db)) \/
  (exists cfg json,
      settings !! name = Some cfg /\
      r = _handle_token_response cipher encrypt decrypt db json cfg connection_id).
Proof.
  cbv zeta. unfold refresh_access_token, _get_integration_config.
  destruct (_get_refresh_token dc) as [rt|e]; [|left; eauto].
  destruct (settings !! name) as [cfg|] eqn:Hcfg; [|left; eauto].
  destruct (refresh_client_credentials cfg name dc wl) as [cid' csec'].
  destruct (_prepare_token_request b64encode cfg rt cid' csec') as [[hd pl]|e];
    [|left; eauto].
  destruct (_make_token_request post (backend_url cfg) hd pl) as [json|e];
    [|left; eauto].
  right. eauto.
Qed.

End TokenRefresh.

(** C2. Whenever [refresh_access_token] succeeds for an integration whose
    auth type is [oauth2_with_refresh_rotating], the database it hands back
    together with the token response already holds the stored credential
    re-encrypted with the newly issued refresh token (one credential update,
    issued before the response is returned); for an integration of any other
    auth type the refresh leaves the database untouched. *)
Theorem refresh_persists_rotated_token
    (b64encode : string -> string) (cipher : Type)
    (encrypt : dict -> cipher) (decrypt : cipher -> dict)
    (settings : gmap string OAuth2Service.IntegrationConfig)
    (post : OAuth2Service.TokenRequest -> OAuth2Service.http_result)
    (db : OAuth2Service.Db cipher) (name : string) (connection_id : N)
    (dc : dict) (wl : option OAuth2Service.WhiteLabel)
    (cfg : OAuth2Service.IntegrationConfig) :
  settings !! name = Some cfg ->
  let r := OAuth2Service.refresh_access_token b64encode cipher encrypt decrypt
             settings post db name connection_id dc wl in
  (OAuth2Service.auth_type cfg = oauth2_with_refresh_rotating ->
   forall resp db', r = (Return resp, db') ->
     exists connection credential,
       OAuth2Service.connections cipher db !! connection_id = Some connection /\
       OAuth2Service.integration_credentials cipher db
         !! OAuth2Service.integration_credential_id connection = Some credential /\
       let new_cipher :=
         encrypt (<["refresh_token" := OAuth2Service.refresh_token resp]>
                    (decrypt (OAuth2Service.encrypted_credentials cipher credential))) in
       OAuth2Service.integration_credentials cipher db'
         !! OAuth2Service.integration_credential_id connection
         = Some (OAuth2Service.mkIntegrationCredential cipher new_cipher) /\
       OAuth2Service.credential_updates cipher db'
         = OAuth2Service.credential_updates cipher db
             ++ [(OAuth2Service.integration_credential_id connection, new_cipher)]) /\
  (OAuth2Service.auth_type cfg <> oauth2_with_refresh_rotating -> snd r = db).
Proof.
  intros Hcfg r.
  destruct (refresh_access_token_cases b64encode encrypt decrypt
              settings post db name connection_id dc wl)
    as [[e He]|(cfg' & json & Hcfg' & Hr)]; fold r in He || fold r in Hr.
  - split; [|intros _; now rewrite He].
    intros _ resp db' H. congruence.
  - assert (cfg' = cfg) as -> by congruence.
    split.
    + intros Hrot resp db' H. rewrite Hr in H.
      destruct (handle_token_response_rotating encrypt decrypt _ _ _ _ _ _ Hrot H)
        as (c & ic & Hc & Hic & ->).
      exists c, ic. repeat split; try assumption.
      cbn. apply lookup_insert_eq.
    + intros Hn. rewrite Hr. now apply handle_token_response_static.
Qed.

Definition db_asana : OAuth2Service.Db dict :=
  OAuth2Service.mkDb dict
    {[ 1%N := OAuth2Service.mkConnection 5 ]}
    {[ 5%N := OAuth2Service.mkIntegrationCredential dict
                (<["access_token" := PyStr "A1"]> {[ "refresh_token" := PyStr "R1" ]}) ]}
    [].

Definition post_ok (_ : OAuth2Service.TokenRequest) : OAuth2Service.http_result :=
  OAuth2Service.HttpResponse 200
    (<["refresh_token" := PyStr "R2"]> {[ "access_token" := PyStr "A2" ]}).

Lemma refresh_persists_rotated_token_witness :
  exists connection credential,
    OAuth2Service.connections dict db_asana !! 1%N = Some connection /\
    OAuth2Service.integration_credentials dict db_asana
      !! OAuth2Service.integration_credential_id connection = Some credential /\
    let new_cipher :=
      <["refresh_token" := PyStr "R2"]>
        (OAuth2Service.encrypted_credentials dict credential) in
    OAuth2Service.integration_credentials dict
      (snd (OAuth2Service.refresh_access_token id dict id id {[ "asana" := cfg_asana ]}
              post_ok db_asana "asana" 1 {[ "refresh_token" := PyStr "R1" ]} None))
      !! OAuth2Service.integration_credential_id connection
      = Some (OAuth2Service.mkIntegrationCredential dict new_cipher) /\
    OAuth2Service.credential_updates dict
      (snd (OAuth2Service.refresh_access_token id dict id id {[ "asana" := cfg_asana ]}
              post_ok db_asana "asana" 1 {[ "refresh_token" := PyStr "R1" ]} None))
      = [(OAuth2Service.integration_credential_id connection, new_cipher)].
Proof.
  assert (Hs : ({[ "asana" := cfg_asana ]} : gmap string _) !! "asana" = Some cfg_asana)
    by (vm_compute; reflexivity).
  destruct (refresh_persists_rotated_token id dict id id {[ "asana" := cfg_asana ]}
              post_ok db_asana "asana" 1 {[ "refresh_token" := PyStr "R1" ]} None
              cfg_asana Hs) as [H _].
  apply (H eq_refl (OAuth2Service.mkOAuth2TokenResponse "A2" (PyStr "R2"))).
  vm_compute. reflexivity.
Defined.

(** ** The supervising loop and cancellation ([activities.py]) *)

Section Supervision.
Import Activities.

Definition heartbeats (n : nat) : list effect := repeat (Heartbeat SyncInProgress) n.

Lemma emit_trace e w : trace (emit e w) = trace w ++ [e].
Proof. reflexivity. Qed.

(** The loop only ever appends heartbeats to the trace, one for each
    [TimeoutError] it catches, and touches neither the table nor the clock. *)
Lemma supervise_frame events task w :
  let '(_, _, w') := supervise events task w in
  jobs w' = jobs w /\ clock w' = clock w /\
  exists n, (n <= length events)%nat /\ trace w' = trace w ++ heartbeats n.
Proof.
  revert task w. induction events as [|ev events IH]; intros task w; cbn.
  - repeat split. exists 0%nat. cbn. split; [lia|]. now rewrite app_nil_r.
  - destruct (wait_for_shielded 1 task ev) as [[u|e] task'].
    + repeat split. exists 0%nat. cbn. split; [lia|]. now rewrite app_nil_r.
    + destruct e;
        try (repeat split; exists 0%nat; cbn; split; [lia|]; now rewrite app_nil_r).
      specialize (IH task' (emit (Heartbeat SyncInProgress) w)).
      destruct (supervise events task' (emit (Heartbeat SyncInProgress) w))
        as [[x t] w'].
      destruct IH as (Hj & Hc & n & Hn & Ht).
      repeat split; [assumption..|].
      exists (S n). split; [lia|].
      rewrite Ht, emit_trace, <- app_assoc. reflexivity.
Qed.

(** While the task runs and only timeouts occur, the loop keeps going with
    one heartbeat for each of them. *)
Lemma supervise_ticks n events w :
  supervise (repeat Tick n ++ events) Running w
  = supervise events Running
      (mkWorld (jobs w) (clock w) (trace w ++ heartbeats n)).
Proof.
  revert w. induction n as [|n IH]; intros w; cbn.
  - rewrite app_nil_r. now destruct w.
  - rewrite IH. cbn. now rewrite <- app_assoc.
Qed.

(** The intended exits: after [n] timeouts the task returns, or fails with
    anything but [TimeoutError], or the activity is cancelled; the loop
    stops there with exactly [n] heartbeats, whatever follows. *)
Lemma supervise_exit n ev rest w :
  ev <> Tick -> ev <> TaskEnds (Raise TimeoutError) ->
  exists x task,
    supervise (repeat Tick n ++ ev :: rest) Running w
    = (x, task, mkWorld (jobs w) (clock w) (trace w ++ heartbeats n))
    /\ x <> LoopWaiting.
Proof.
  intros H1 H2. rewrite supervise_ticks. cbn.
  destruct ev as [|[u|e]|]; try contradiction; cbn.
  - eexists _, _. split; [reflexivity|discriminate].
  - destruct e; try contradiction;
      (eexists _, _; split; [reflexivity|discriminate]).
  - eexists _, _. split; [reflexivity|discriminate].
Qed.

(** A cancellation request that arrives after [n] timeouts ([n] may be 0:
    the task has not done anything yet) leaves the loop at once. *)
Lemma supervise_cancel_request n rest w :
  supervise (repeat Tick n ++ CancelRequested :: rest) Running w
  = (LoopRaised CancelledError, Running,
     mkWorld (jobs w) (clock w) (trace w ++ heartbeats n)).
Proof. rewrite supervise_ticks. reflexivity. Qed.

(** Once the task has ended with [TimeoutError] the loop cannot leave. *)
Lemma supervise_stuck events w :
  supervise events (Ended (Raise TimeoutError)) w
  = (LoopWaiting, Ended (Raise TimeoutError),
     mkWorld (jobs w) (clock w) (trace w ++ heartbeats (length events))).
Proof.
  revert w. induction events as [|ev events IH]; intros w; cbn.
  - rewrite app_nil_r. now destruct w.
  - rewrite IH. cbn. now rewrite <- app_assoc.
Qed.

(** When cancellation leaves the loop, the task is still running or was
    itself cancelled. *)
Lemma supervise_cancelled_task events task w task' w' :
  supervise events task w = (LoopRaised CancelledError, task', w') ->
  (task = Running \/ task = Ended (Raise CancelledError)
   \/ task = Ended (Raise TimeoutError)) ->
  task' = Running \/ task' = Ended (Raise CancelledError).
Proof.
  revert task w. induction events as [|ev events IH]; intros task w; cbn.
  - discriminate.
  - intros H [->|[->| ->]].
    + destruct ev as [|[u|e]|]; cbn in H.
      * apply IH in H; auto.
      * discriminate.
      * destruct e; try discriminate.
        -- injection H as <- _. auto.
        -- apply IH in H; auto.
      * injection H as <- _. auto.
    + cbn in H. injection H as <- _. auto.
    + cbn in H. apply IH in H; auto.
Qed.

End Supervision.

(** C3, at the input where the code departs from it: the sync task ends by
    raising [asyncio.TimeoutError].  [wait_for] hands the task's exception to
    the [except asyncio.TimeoutError] clause, which takes it for an elapsed
    timeout: although the task has completed, the loop heartbeats once more
    for the task's end and once for every further turn, and has still not
    terminated after any number [n] of them. *)
Theorem supervise_task_timeout_error_never_exits
    (n : nat) (job : Activities.SyncJob) (w : Activities.world)
    (teardown : outcome unit) (update_failure : option exn)
    (utc_now_naive : Z) (fromisoformat : string -> option Z)
    (table_after : Z -> gmap N Activities.SyncJob) (next_job_id : N) :
  Activities.run_sync_activity
    (Activities.mkEnvironment
       (Activities.TaskEnds (Raise TimeoutError) :: repeat Activities.Tick n)
       teardown update_failure utc_now_naive fromisoformat table_after next_job_id)
    job w
  = (None,
     Activities.mkWorld (Activities.jobs w) (Activities.clock w)
       (Activities.trace w ++ Activities.TaskCreated :: heartbeats (S n))).
Proof.
  unfold Activities.run_sync_activity. cbn [Activities.wait_events].
  cbn [Activities.supervise Activities.wait_for_shielded].
  rewrite supervise_stuck. cbn.
  rewrite repeat_length, <- !app_assoc. reflexivity.
Qed.

Section Cancellation.
Import Activities.

Definition cancelled_row (env : environment) (j : SyncJob) : SyncJob :=
  mkSyncJob (id j) (sync_id j) CANCELLED
    (Some "Workflow was cancelled") (Some (utc_now_naive env)).

Lemma update_status_ok env job_id s err fa w :
  update_failure env = None ->
  update_status env job_id s err fa w
  = (Return tt,
     mkWorld (alter (fun j => mkSyncJob (id j) (sync_id j) s err fa) job_id (jobs w))
             (clock w) (trace w ++ [StatusUpdate job_id s err fa])).
Proof. intros H. unfold update_status. now rewrite H. Qed.

Lemma update_status_fails env job_id s err fa w e :
  update_failure env = Some e ->
  update_status env job_id s err fa w
  = (Raise e, mkWorld (jobs w) (clock w) (trace w ++ [StatusUpdate job_id s err fa])).
Proof. intros H. unfold update_status. now rewrite H. Qed.

(** In the handler, a task that is awaited after [cancel()] and ends by
    cancellation or by returning lets the handler go on to the update. *)
Lemma on_cancelled_ok env job task w :
  (cancel_and_await env task = Return tt
   \/ cancel_and_await env task = Raise CancelledError) ->
  update_failure env = None ->
  on_cancelled env job task w
  = (Raise CancelledError,
     mkWorld
       (alter (fun j => cancelled_row env j) (id job) (jobs w)) (clock w)
       (trace w ++ [TaskCancel; TaskAwaited;
                    StatusUpdate (id job) CANCELLED (Some "Workflow was cancelled")
                                 (Some (utc_now_naive env))])).
Proof.
  intros Hc Hu. unfold on_cancelled, try_mark_cancelled.
  rewrite (update_status_ok _ _ _ _ _ _ Hu).
  destruct Hc as [-> | ->]; cbn; rewrite <- !app_assoc; reflexivity.
Qed.

Lemma on_cancelled_update_fails env job task w e :
  (cancel_and_await env task = Return tt
   \/ cancel_and_await env task = Raise CancelledError) ->
  update_failure env = Some e -> is_Exception e = true ->
  on_cancelled env job task w
  = (Raise CancelledError,
     mkWorld (jobs w) (clock w)
       (trace w ++ [TaskCancel; TaskAwaited;
                    StatusUpdate (id job) CANCELLED (Some "Workflow was cancelled")
                                 (Some (utc_now_naive env));
                    LogError "Failed to update job to CANCELLED"])).
Proof.
  intros Hc Hu He. unfold on_cancelled, try_mark_cancelled.
  rewrite (update_status_fails _ _ _ _ _ _ _ Hu), He.
  destruct Hc as [-> | ->]; unfold emit; cbn; rewrite <- !app_assoc; reflexivity.
Qed.

Lemma cancel_and_await_after_loop env events w task' w' :
  supervise events Running w = (LoopRaised CancelledError, task', w') ->
  (teardown env = Return tt \/ teardown env = Raise CancelledError) ->
  cancel_and_await env task' = Return tt
  \/ cancel_and_await env task' = Raise CancelledError.
Proof.
  intros H Ht. apply supervise_cancelled_task in H; [|auto].
  destruct H as [-> | ->]; cbn; auto.
Qed.

End Cancellation.

(** C1, as the code has it.  Whenever cancellation leaves the supervising
    loop of [run_sync_activity] and the awaited inner task ends by
    cancellation or by returning, the handler cancels the task, awaits it,
    then asks for the job to be marked CANCELLED, and re-raises
    [CancelledError]: the job's row is CANCELLED if that update succeeds; if
    the update fails with an [Exception] the failure is logged and dropped and
    the table is left as it was.  The pre-start activity
    [mark_sync_job_cancelled_activity] marks the job CANCELLED, when its
    update succeeds, and never creates the sync task. *)
Theorem cancellation_marks_job_cancelled
    (env : Activities.environment) (job j : Activities.SyncJob)
    (w w1 : Activities.world) (task : Activities.task_state) :
  Activities.jobs w !! Activities.id job = Some j ->
  Activities.supervise (Activities.wait_events env) Activities.Running
    (Activities.emit Activities.TaskCreated w)
    = (Activities.LoopRaised CancelledError, task, w1) ->
  (Activities.teardown env = Return tt
   \/ Activities.teardown env = Raise CancelledError) ->
  let update :=
    Activities.StatusUpdate (Activities.id job) Activities.CANCELLED
      (Some "Workflow was cancelled") (Some (Activities.utc_now_naive env)) in
  (Activities.update_failure env = None ->
   exists w',
     Activities.run_sync_activity env job w = (Some (Raise CancelledError), w') /\
     Activities.jobs w' !! Activities.id job = Some (cancelled_row env j) /\
     Activities.trace w'
       = Activities.trace w1 ++ [Activities.TaskCancel; Activities.TaskAwaited; update]) /\
  (forall e,
     Activities.update_failure env = Some e -> is_Exception e = true ->
     exists w',
       Activities.run_sync_activity env job w = (Some (Raise CancelledError), w') /\
       Activities.jobs w' = Activities.jobs w /\
       Activities.trace w'
         = Activities.trace w1
             ++ [Activities.TaskCancel; Activities.TaskAwaited; update;
                 Activities.LogError "Failed to update job to CANCELLED"]) /\
  (forall reason when_iso,
     Activities.update_failure env = None ->
     exists w' failed_at,
       Activities.mark_sync_job_cancelled_activity env (Activities.id job)
         reason when_iso w = (Return tt, w') /\
       Activities.jobs w' !! Activities.id job
         = Some (Activities.mkSyncJob (Activities.id j) (Activities.sync_id j)
                   Activities.CANCELLED reason failed_at) /\
       Activities.trace w'
         = Activities.trace w
             ++ [Activities.StatusUpdate (Activities.id job) Activities.CANCELLED
                   reason failed_at]).
Proof.
  intros Hj Hsup Ht update.
  pose proof (supervise_frame (Activities.wait_events env) Activities.Running
                (Activities.emit Activities.TaskCreated w)) as Hf.
  rewrite Hsup in Hf. destruct Hf as (Hjobs & _ & _).
  pose proof (cancel_and_await_after_loop env _ _ _ _ Hsup Ht) as Hc.
  repeat split.
  - intros Hu. unfold Activities.run_sync_activity. rewrite Hsup.
    rewrite (on_cancelled_ok env job task w1 Hc Hu).
    eexists. split; [reflexivity|]. cbn. split; [|reflexivity].
    rewrite lookup_alter_eq, Hjobs. cbn. now rewrite Hj.
  - intros e Hu He. unfold Activities.run_sync_activity. rewrite Hsup.
    rewrite (on_cancelled_update_fails env job task w1 e Hc Hu He).
    eexists. split; [reflexivity|]. cbn. split; [assumption|reflexivity].
  - intros reason when_iso Hu. unfold Activities.mark_sync_job_cancelled_activity.
    rewrite (update_status_ok _ _ _ _ _ _ Hu).
    eexists _, _. split; [reflexivity|]. cbn. split; [|reflexivity].
    rewrite lookup_alter_eq. now rewrite Hj.
Qed.

Definition job_9 : Activities.SyncJob :=
  Activities.mkSyncJob 9 3 Activities.IN_PROGRESS None None.

Definition world_9 : Activities.world :=
  Activities.mkWorld {[ 9%N := job_9 ]} 0 [].

(** After one timeout the engine cancels the activity; the task honours the
    cancellation; [update_failure] says whether the status update fails. *)
Definition env_cancel (update_failure : option exn) : Activities.environment :=
  Activities.mkEnvironment [Activities.Tick; Activities.CancelRequested]
    (Raise CancelledError) update_failure 1000 (fun _ => None) (fun _ => ∅) 10.

Lemma cancellation_marks_job_cancelled_witness :
  exists w',
    Activities.run_sync_activity (env_cancel None) job_9 world_9
      = (Some (Raise CancelledError), w') /\
    Activities.jobs w' !! 9%N
      = Some (Activities.mkSyncJob 9 3 Activities.CANCELLED
                (Some "Workflow was cancelled") (Some 1000%Z)) /\
    Activities.trace w'
      = [Activities.TaskCreated; Activities.Heartbeat Activities.SyncInProgress;
         Activities.TaskCancel; Activities.TaskAwaited;
         Activities.StatusUpdate 9 Activities.CANCELLED
           (Some "Workflow was cancelled") (Some 1000%Z)].
Proof.
  assert (Hj : Activities.jobs world_9 !! Activities.id job_9 = Some job_9)
    by (vm_compute; reflexivity).
  destruct (cancellation_marks_job_cancelled (env_cancel None) job_9 job_9 world_9
              (Activities.mkWorld {[ 9%N := job_9 ]} 0
                 [Activities.TaskCreated; Activities.Heartbeat Activities.SyncInProgress])
              Activities.Running Hj eq_refl (or_intror eq_refl)) as (H & _ & _).
  exact (H eq_refl).
Defined.

(** C1, as stated, fails: the activity is cancelled while the job is
    IN_PROGRESS and the status update raises; the handler logs the failure,
    re-raises the cancellation, and the job is still IN_PROGRESS. *)
Lemma cancellation_update_failure_leaves_in_progress :
  exists w',
    Activities.run_sync_activity (env_cancel (Some (Exception "connection lost")))
      job_9 world_9 = (Some (Raise CancelledError), w') /\
    Activities.status <$> Activities.jobs w' !! 9%N = Some Activities.IN_PROGRESS /\
    Activities.status <$> Activities.jobs w' !! 9%N <> Some Activities.CANCELLED.
Proof.
  eexists. split; [reflexivity|]. split; [vm_compute; reflexivity|].
  vm_compute. discriminate.
Qed.

(** ** Creating a job while others run ([create_sync_job_activity]) *)

Section CreateSyncJob.
Import Activities.
Local Open Scope Z_scope.

(** The PENDING and IN_PROGRESS jobs of a sync in a table. *)
Definition running_in (table : gmap N SyncJob) (sid : N) : list SyncJob :=
  get_all_by_sync_id table sid [PENDING; IN_PROGRESS].

(** What the waiting loop leaves in the trace over [n] rounds, the first of
    them entered with [total_waited] seconds waited so far. *)
Fixpoint waiting_trace (total_waited : Z) (n : nat) : list effect :=
  match n with
  | O => []
  | S n' =>
      Heartbeat (WaitingForRunningJobs total_waited) :: Sleep wait_interval
        :: waiting_trace (total_waited + wait_interval) n'
  end.

Variable env : environment.
Variable sid : N.

Lemma wait_loop_break (n : nat) :
  forall (fuel : nat) (total : Z) (w : world),
    (n < fuel)%nat ->
    total + 30 * Z.of_nat n < 3600 ->
    (forall i : nat, (1 <= i <= n)%nat ->
        running_in (table_after env (clock w + 30 * Z.of_nat i)) sid <> []) ->
    running_in (table_after env (clock w + 30 * Z.of_nat (S n))) sid = [] ->
    wait_for_running_jobs fuel env sid total w
    = (WaitBroke,
       mkWorld (table_after env (clock w + 30 * Z.of_nat (S n)))
               (clock w + 30 * Z.of_nat (S n))
               (trace w ++ waiting_trace total (S n))).
Proof.
  induction n as [|n IH]; intros fuel total w Hfuel Htot Hbusy Hfree;
    (destruct fuel as [|fuel]; [lia|]); cbn [wait_for_running_jobs];
    unfold max_wait_time;
    (destruct (Z.ltb_spec total (60 * 60)) as [_|?]; [|lia]).
  - unfold sleep, emit, wait_interval. cbn [jobs clock trace].
    replace (clock w + 30 * Z.of_nat 1) with (clock w + 30) in Hfree by lia.
    unfold running_in in Hfree. rewrite Hfree.
    replace (clock w + 30 * Z.of_nat 1) with (clock w + 30) by lia.
    cbn [waiting_trace]. unfold wait_interval. now rewrite <- app_assoc.
  - unfold sleep, emit, wait_interval. cbn [jobs clock trace].
    pose proof (Hbusy 1%nat ltac:(lia)) as H1.
    replace (clock w + 30 * Z.of_nat 1) with (clock w + 30) in H1 by lia.
    unfold running_in in H1.
    destruct (get_all_by_sync_id (table_after env (clock w + 30)) sid
                [PENDING; IN_PROGRESS]) as [|r rs] eqn:Hr; [contradiction|].
    rewrite (IH fuel (total + 30)
               (mkWorld (table_after env (clock w + 30)) (clock w + 30)
                  ((trace w ++ [Heartbeat (WaitingForRunningJobs total)])
                     ++ [Sleep 30]))).
    + cbn [clock trace].
      replace (clock w + 30 + 30 * Z.of_nat (S n))
        with (clock w + 30 * Z.of_nat (S (S n))) by lia.
      f_equal. f_equal. rewrite <- !app_assoc. reflexivity.
    + lia.
    + lia.
    + intros i Hi. cbn [clock].
      replace (clock w + 30 + 30 * Z.of_nat i)
        with (clock w + 30 * Z.of_nat (S i)) by lia.
      apply Hbusy. lia.
    + cbn [clock].
      replace (clock w + 30 + 30 * Z.of_nat (S n))
        with (clock w + 30 * Z.of_nat (S (S n))) by lia.
      exact Hfree.
Qed.

Lemma wait_loop_else (n : nat) :
  forall (fuel : nat) (total : Z) (w : world),
    (n < fuel)%nat ->
    3600 <= total + 30 * Z.of_nat n ->
    total + 30 * Z.of_nat n < 3600 + 30 ->
    (forall i : nat, (1 <= i <= n)%nat ->
        running_in (table_after env (clock w + 30 * Z.of_nat i)) sid <> []) ->
    exists w',
      wait_for_running_jobs fuel env sid total w = (WaitElse, w') /\
      clock w' = clock w + 30 * Z.of_nat n /\
      trace w' = trace w ++ waiting_trace total n /\
      (n = 0%nat -> w' = w) /\
      (n <> 0%nat -> jobs w' = table_after env (clock w + 30 * Z.of_nat n)).
Proof.
  induction n as [|n IH]; intros fuel total w Hfuel Hlo Hhi Hbusy;
    (destruct fuel as [|fuel]; [lia|]); cbn [wait_for_running_jobs];
    unfold max_wait_time.
  - destruct (Z.ltb_spec total (60 * 60)) as [?|_]; [lia|].
    exists w. repeat split; try easy.
    + cbn. lia.
    + cbn. now rewrite app_nil_r.
  - destruct (Z.ltb_spec total (60 * 60)) as [_|?]; [|lia].
    unfold sleep, emit, wait_interval. cbn [jobs clock trace].
    pose proof (Hbusy 1%nat ltac:(lia)) as H1.
    replace (clock w + 30 * Z.of_nat 1) with (clock w + 30) in H1 by lia.
    unfold running_in in H1.
    destruct (get_all_by_sync_id (table_after env (clock w + 30)) sid
                [PENDING; IN_PROGRESS]) as [|r rs] eqn:Hr; [contradiction|].
    destruct (IH fuel (total + 30)
                (mkWorld (table_after env (clock w + 30)) (clock w + 30)
                   ((trace w ++ [Heartbeat (WaitingForRunningJobs total)])
                      ++ [Sleep 30])))
      as (w' & Hloop & Hclock & Htrace & Hzero & Hnz).
    + lia.
    + lia.
    + lia.
    + intros i Hi. cbn [clock].
      replace (clock w + 30 + 30 * Z.of_nat i)
        with (clock w + 30 * Z.of_nat (S i)) by lia.
      apply Hbusy. lia.
    + exists w'. split; [exact Hloop|]. cbn [clock trace] in *.
      split; [lia|]. split.
      { rewrite Htrace. cbn [waiting_trace]. unfold wait_interval.
        rewrite <- !app_assoc. reflexivity. }
      split; [discriminate|]. intros _.
      destruct n as [|n].
      * rewrite (Hzero eq_refl). cbn [jobs]. f_equal; lia.
      * rewrite (Hnz ltac:(discriminate)). cbn [clock]. f_equal; lia.
Qed.

(** The loop leaves through [break] only on a table without running jobs. *)
Lemma wait_loop_break_clear (fuel : nat) :
  forall (total : Z) (w w' : world),
    wait_for_running_jobs fuel env sid total w = (WaitBroke, w') ->
    running_in (jobs w') sid = [].
Proof.
  induction fuel as [|fuel IH]; intros total w w'; cbn [wait_for_running_jobs].
  - discriminate.
  - destruct (total <? max_wait_time); [|discriminate].
    set (w1 := sleep env wait_interval
                 (emit (Heartbeat (WaitingForRunningJobs total)) w)).
    destruct (get_all_by_sync_id (jobs w1) sid [PENDING; IN_PROGRESS])
      as [|r rs] eqn:Hr.
    + intros [= <-]. exact Hr.
    + apply IH.
Qed.

(** The bound on the number of rounds is never what stops the loop. *)
Lemma wait_loop_finishes (fuel : nat) :
  forall (total : Z) (w : world),
    (1 <= fuel)%nat ->
    3600 <= total + 30 * (Z.of_nat fuel - 1) ->
    fst (wait_for_running_jobs fuel env sid total w) <> WaitUnfinished.
Proof.
  induction fuel as [|fuel IH]; intros total w Hf Hb; [lia|].
  cbn [wait_for_running_jobs]. unfold max_wait_time.
  destruct (Z.ltb_spec total (60 * 60)) as [Hlt|_]; [|discriminate].
  set (w1 := sleep env wait_interval
               (emit (Heartbeat (WaitingForRunningJobs total)) w)).
  destruct (get_all_by_sync_id (jobs w1) sid [PENDING; IN_PROGRESS])
    as [|r rs]; [discriminate|].
  apply IH; unfold wait_interval; lia.
Qed.

End CreateSyncJob.

(** C4. With a PENDING or IN_PROGRESS job of the sync in the table,
    [create_sync_job_activity] without [force_full_sync] raises and leaves the
    world as it was (no job is created); with [force_full_sync] it heartbeats,
    sleeps 30 seconds and looks again, round after round: if the [k]-th look
    (1 <= k <= 120) is the first to find no such job it creates the job then,
    and if all 120 looks, the last of them 3600 seconds in, still find one it
    raises the timeout without creating a job.  A job is only ever created on
    a table without PENDING or IN_PROGRESS jobs of the sync, and the activity
    always comes to an end. *)
Theorem create_sync_job_waits_for_running_jobs
    (env : Activities.environment) (sid : N) (force_full_sync : bool)
    (w : Activities.world) :
  let running0 := running_in (Activities.jobs w) sid in
  let running (i : nat) :=
    running_in (Activities.table_after env (Activities.clock w + 30 * Z.of_nat i)%Z) sid in
  let new_job :=
    Activities.mkSyncJob (Activities.next_job_id env) sid Activities.PENDING None None in
  let result := Activities.create_sync_job_activity env sid force_full_sync w in
  (running0 <> [] -> force_full_sync = false ->
   exists msg, result = (Some (Raise (Exception msg)), w)) /\
  (running0 <> [] -> force_full_sync = true ->
   forall k : nat, (1 <= k <= 120)%nat ->
     (forall i : nat, (1 <= i < k)%nat -> running i <> []) ->
     running k = [] ->
     result
     = (Some (Return new_job),
        Activities.mkWorld
          (<[Activities.next_job_id env := new_job]>
             (Activities.table_after env (Activities.clock w + 30 * Z.of_nat k)%Z))
          (Activities.clock w + 30 * Z.of_nat k)%Z
          ((Activities.trace w ++ waiting_trace 0 k)
             ++ [Activities.JobCreated (Activities.next_job_id env)]))) /\
  (running0 <> [] -> force_full_sync = true ->
   (forall i : nat, (1 <= i <= 120)%nat -> running i <> []) ->
   exists w',
     result
     = (Some (Raise (Exception
          "Timeout waiting for running jobs to complete after 3600s")), w') /\
     Activities.clock w' = (Activities.clock w + 3600)%Z /\
     Activities.trace w' = Activities.trace w ++ waiting_trace 0 120 /\
     Activities.jobs w' = Activities.table_after env (Activities.clock w + 3600)%Z) /\
  (forall j w',
     result = (Some (Return j), w') ->
     exists w0,
       running_in (Activities.jobs w0) sid = [] /\
       Activities.create_job env sid w0 = (j, w')) /\
  fst result <> None.
Proof.
  cbv zeta. unfold Activities.create_sync_job_activity.
  change (S (Z.to_nat (Activities.max_wait_time / Activities.wait_interval)))
    with 121%nat.
  fold (running_in (Activities.jobs w) sid).
  destruct (running_in (Activities.jobs w) sid) as [|r rs] eqn:Hr0.
  - (* nothing is running: the job is created at once *)
    repeat split; try contradiction; try discriminate.
    intros j w' [= <- <-]. exists w. split; [exact Hr0|reflexivity].
  - repeat split.
    + intros _ ->. eexists. reflexivity.
    + intros _ -> k Hk Hbusy Hfree.
      destruct k as [|n]; [lia|].
      rewrite (wait_loop_break env sid n 121 0 w); try lia.
      * reflexivity.
      * intros i Hi. apply Hbusy. lia.
      * exact Hfree.
    + intros _ -> Hbusy.
      destruct (wait_loop_else env sid 120 121 0 w) as (w' & Hl & Hc & Ht & _ & Hj);
        try lia; [exact Hbusy|].
      rewrite Hl. exists w'. repeat split.
      * rewrite Hc. reflexivity.
      * exact Ht.
      * rewrite Hj by discriminate. reflexivity.
    + destruct force_full_sync; [|discriminate].
      destruct (Activities.wait_for_running_jobs 121 env sid 0 w)
        as [[| |] w1] eqn:Hl; try discriminate.
      intros j w' [= <- <-]. exists w1. split; [|reflexivity].
      exact (wait_loop_break_clear env sid _ _ _ _ Hl).
    + destruct force_full_sync; [|discriminate].
      pose proof (wait_loop_finishes env sid 121 0 w ltac:(lia) ltac:(lia)) as Hfin.
      destruct (Activities.wait_for_running_jobs 121 env sid 0 w)
        as [[| |] w1]; try discriminate.
      now contradiction Hfin.
Qed.

(** A job of sync 3 is in progress when the activity starts and for the first
    look; it is gone at the second look, 60 seconds in. *)
Definition env_busy_60 : Activities.environment :=
  Activities.mkEnvironment [] (Raise CancelledError) None 1000 (fun _ => None)
    (fun t => if (t <? 60)%Z then {[ 9%N := job_9 ]} else ∅) 10.

Lemma create_sync_job_waits_for_running_jobs_witness :
  Activities.create_sync_job_activity env_busy_60 3 true world_9
  = (Some (Return (Activities.mkSyncJob 10 3 Activities.PENDING None None)),
     Activities.mkWorld
       {[ 10%N := Activities.mkSyncJob 10 3 Activities.PENDING None None ]} 60
       [Activities.Heartbeat (Activities.WaitingForRunningJobs 0); Activities.Sleep 30;
        Activities.Heartbeat (Activities.WaitingForRunningJobs 30); Activities.Sleep 30;
        Activities.JobCreated 10])
  /\ exists msg,
       Activities.create_sync_job_activity env_busy_60 3 false world_9
       = (Some (Raise (Exception msg)), world_9).
Proof.
  destruct (create_sync_job_waits_for_running_jobs env_busy_60 3 true world_9)
    as (_ & H2 & _).
  destruct (create_sync_job_waits_for_running_jobs env_busy_60 3 false world_9)
    as (H1 & _).
  split.
  - rewrite (H2 ltac:(vm_compute; discriminate) eq_refl 2%nat ltac:(lia)).
    + vm_compute. reflexivity.
    + intros i Hi. assert (i = 1%nat) as -> by lia. vm_compute. discriminate.
    + vm_compute. reflexivity.
  - apply H1; [vm_compute; discriminate|reflexivity].
Defined.

(** ** The sync factory ([factory.py]) *)

Section Factory.
Import SyncFactory.

Definition is_not_found {A : Type} (o : outcome A) : Prop :=
  exists msg, o = Raise (NotFoundException msg).

Lemma token_provider_needed (source_model : Source) (source_connection : Connection)
    (decrypted_credential : dict) (white_label : option OAuth2Service.WhiteLabel) :
  let tp := _create_token_provider_if_needed source_model source_connection
              decrypted_credential white_label in
  (auth_type source_model = oauth2_with_refresh
   \/ auth_type source_model = oauth2_with_refresh_rotating ->
   tp = Some (mkTokenProvider (source_short_name source_model)
                (connection_id source_connection) decrypted_credential white_label)) /\
  (auth_type source_model <> oauth2_with_refresh ->
   auth_type source_model <> oauth2_with_refresh_rotating -> tp = None).
Proof.
  cbv zeta. unfold _create_token_provider_if_needed.
  repeat case_bool_decide; cbn; split; intros; try reflexivity;
    try contradiction; intuition congruence.
Qed.

(** The source-side lookups: each missing row ends [_create_sync_context]
    with [NotFoundException]. *)
Lemma missing_source_rows_not_found (pf : platform) (db : Db) (sync : Sync)
    (collection : Collection) (sc : SourceConnection) (access_token : option string) :
  let r := _create_sync_context pf db sync collection sc access_token in
  (connections db !! source_connection_id sync = None -> is_not_found r) /\
  (source_connections db !! sync_id sync = None -> is_not_found r) /\
  (forall c, connections db !! source_connection_id sync = Some c ->
             sources db !! short_name c = None -> is_not_found r) /\
  (forall c cid, connections db !! source_connection_id sync = Some c ->
                 access_token = None ->
                 integration_credential_id c = Some cid ->
                 integration_credentials db !! cid = None -> is_not_found r).
Proof.
  cbv zeta. unfold _create_sync_context, _create_source_instance, _get_source_config.
  repeat split.
  - intros ->. eexists. reflexivity.
  - intros ->. destruct (connections db !! _); eexists; reflexivity.
  - intros c -> ->. destruct (source_connections db !! _); eexists; reflexivity.
  - intros c cid -> -> Hc Hn.
    destruct (source_connections db !! _); [|eexists; reflexivity].
    destruct (sources db !! _); [|eexists; reflexivity].
    unfold _create_source_with_credentials, _get_integration_credential.
    rewrite Hc, Hn. eexists. reflexivity.
Qed.

Lemma missing_destination_connection_not_found (db : Db) (sync : Sync)
    (collection : Collection) (cid : N) (rest : list N) :
  destination_connection_ids sync = cid :: rest ->
  connections db !! cid = None ->
  is_not_found (_create_destination_instances db sync collection).
Proof.
  intros Hd Hc. unfold _create_destination_instances. rewrite Hd, Hc.
  eexists. reflexivity.
Qed.

End Factory.

(** C5, at the input where the code departs from it: the destination
    connection is there but no destination model goes with its short name.
    [schemas.Destination.model_validate] is applied to the missing model
    before the [if not destination_model] test is reached, so the factory
    ends with a validation error, not with [NotFoundException]. *)
Theorem missing_destination_model_raises_validation_error
    (pf : SyncFactory.platform) (db : SyncFactory.Db) (sync : SyncFactory.Sync)
    (collection : SyncFactory.Collection) (sc : SyncFactory.SourceConnection)
    (access_token : option string) (SYNC_MAX_WORKERS : N) (workers : option N)
    (cid : N) (rest : list N) (destination_connection : SyncFactory.Connection) :
  SyncFactory.destination_connection_ids sync = cid :: rest ->
  SyncFactory.connections db !! cid = Some destination_connection ->
  SyncFactory.destinations db !! SyncFactory.short_name destination_connection = None ->
  SyncFactory._create_destination_instances db sync collection = Raise ValidationError /\
  (forall src,
      SyncFactory._create_source_instance pf db sync
        (match SyncFactory.white_label_id sc with
         | Some wid => SyncFactory.white_labels db !! wid
         | None => None
         end) access_token = Return src ->
      SyncFactory.create_orchestrator pf SYNC_MAX_WORKERS db sync collection sc
        access_token workers
      = Raise ValidationError).
Proof.
  intros Hd Hc Hm.
  assert (H : SyncFactory._create_destination_instances db sync collection
              = Raise ValidationError).
  { unfold SyncFactory._create_destination_instances. now rewrite Hd, Hc, Hm. }
  split; [exact H|].
  intros src Hs.
  unfold SyncFactory.create_orchestrator, SyncFactory._create_sync_context.
  now rewrite Hs, H.
Qed.

Definition asana_source : SyncFactory.Source :=
  SyncFactory.mkSource "asana" oauth2_with_refresh None.

Definition factory_db : SyncFactory.Db :=
  SyncFactory.mkDb
    (<[2%N := SyncFactory.mkConnection 2 "qdrant" None]>
       {[ 1%N := SyncFactory.mkConnection 1 "asana" (Some 5%N) ]})
    {[ 7%N := SyncFactory.mkSourceConnection None None ]}
    {[ "asana" := asana_source ]}
    {[ 5%N := SyncFactory.mkIntegrationCredential "blob" ]}
    ∅ ∅.

Definition factory_sync : SyncFactory.Sync := SyncFactory.mkSync 7 1 [2%N].

Definition factory_platform : SyncFactory.platform :=
  SyncFactory.mkPlatform
    (fun _ => {[ "refresh_token" := PyStr "R1" ]})
    (fun _ => SyncFactory.mkSourceClass true true)
    (fun _ d => Return d)
    (fun _ => Return "fresh-token")
    None.

Lemma missing_destination_model_raises_validation_error_witness :
  SyncFactory.create_orchestrator factory_platform 100 factory_db factory_sync
    (SyncFactory.mkCollection 4) (SyncFactory.mkSourceConnection None None) None None
  = Raise ValidationError.
Proof.
  destruct (missing_destination_model_raises_validation_error factory_platform
              factory_db factory_sync (SyncFactory.mkCollection 4)
              (SyncFactory.mkSourceConnection None None) None 100%N None
              2%N [] (SyncFactory.mkConnection 2 "qdrant" None))
    as [_ H]; [reflexivity | vm_compute; reflexivity | vm_compute; reflexivity |].
  eapply H. vm_compute. reflexivity.
Defined.

(** The source built from its stored credential. *)
Lemma stored_credential_source
    (pf : SyncFactory.platform) (db : SyncFactory.Db) (sync : SyncFactory.Sync)
    (white_label : option OAuth2Service.WhiteLabel)
    (source_connection : SyncFactory.Connection) (config_fields : dict)
    (source_model : SyncFactory.Source) (inst : SyncFactory.SourceInstance) :
  SyncFactory._get_source_config db sync
    = Return (source_connection, config_fields, source_model) ->
  SyncFactory._create_source_instance pf db sync white_label None = Return inst ->
  exists cid credential,
    SyncFactory.integration_credential_id source_connection = Some cid /\
    SyncFactory.integration_credentials db !! cid = Some credential /\
    let decrypted_credential :=
      SyncFactory.decrypt pf (SyncFactory.encrypted_credentials credential) in
    let provider :=
      SyncFactory._create_token_provider_if_needed source_model source_connection
        decrypted_credential white_label in
    (is_Some provider <->
       SyncFactory.auth_type source_model = oauth2_with_refresh
       \/ SyncFactory.auth_type source_model = oauth2_with_refresh_rotating) /\
    (forall tp, provider = Some tp ->
       tp = SyncFactory.mkTokenProvider (SyncFactory.source_short_name source_model)
              (SyncFactory.connection_id source_connection)
              decrypted_credential white_label /\
       (exists token,
           SyncFactory.get_valid_token pf tp = Return token /\
           SyncFactory.credentials inst = SyncFactory.CredToken token) /\
       SyncFactory.token_provider inst
         = if SyncFactory.has_set_token_provider (SyncFactory.get_source pf source_model)
           then Some tp else None) /\
    (provider = None ->
       SyncFactory.token_provider inst = None /\
       (SyncFactory.credentials inst = SyncFactory.CredDict decrypted_credential
        \/ exists cls fields,
             SyncFactory.auth_config_class source_model = Some cls /\
             SyncFactory.validate_auth_config pf cls decrypted_credential
               = Return fields /\
             SyncFactory.credentials inst = SyncFactory.CredAuthConfig cls fields)).
Proof.
  intros Hcfg. unfold SyncFactory._create_source_instance. rewrite Hcfg.
  unfold SyncFactory._create_source_with_credentials,
    SyncFactory._get_integration_credential.
  destruct (SyncFactory.integration_credential_id source_connection) as [cid|];
    [|discriminate].
  destruct (SyncFactory.integration_credentials db !! cid) as [credential|] eqn:Hcred;
    [|discriminate].
  intros H. exists cid, credential. split; [reflexivity|]. split; [exact Hcred|].
  cbv zeta.
  set (dc := SyncFactory.decrypt pf (SyncFactory.encrypted_credentials credential)) in *.
  pose proof (token_provider_needed source_model source_connection dc white_label)
    as [Hyes Hno]. cbv zeta in Hyes, Hno.
  assert (Hdec : (SyncFactory.auth_type source_model = oauth2_with_refresh
                  \/ SyncFactory.auth_type source_model = oauth2_with_refresh_rotating)
                 \/ (SyncFactory.auth_type source_model <> oauth2_with_refresh
                     /\ SyncFactory.auth_type source_model
                        <> oauth2_with_refresh_rotating)).
  { destruct (decide (SyncFactory.auth_type source_model = oauth2_with_refresh));
      [auto|].
    destruct (decide (SyncFactory.auth_type source_model
                      = oauth2_with_refresh_rotating)); auto. }
  destruct Hdec as [Hrefresh|[Hn1 Hn2]].
  - rewrite (Hyes Hrefresh) in *.
    split; [split; [auto|eauto]|]. split; [|discriminate].
    intros tp [= <-]. split; [reflexivity|].
    cbn [SyncFactory._get_source_credentials] in H.
    destruct (SyncFactory.get_valid_token pf _) as [token|e]; [|discriminate].
    injection H as <-. cbn. eauto.
  - rewrite (Hno Hn1 Hn2) in *.
    split; [|split; [discriminate|]].
    + split; [intros [? [=]]|]. intros [?|?]; contradiction.
    + intros _. cbn [SyncFactory._get_source_credentials] in H.
      destruct (SyncFactory.auth_config_class source_model) as [cls|] eqn:Hcls.
      * destruct (String.eqb cls EmptyString).
        -- injection H as <-. cbn. destruct (SyncFactory.has_set_token_provider _); auto.
        -- destruct (SyncFactory.validate_auth_config pf cls dc) as [fields|e] eqn:Hv;
             [|discriminate].
           injection H as <-. cbn. destruct (SyncFactory.has_set_token_provider _);
             (split; [reflexivity|]); right; eauto.
      * injection H as <-. cbn. destruct (SyncFactory.has_set_token_provider _); auto.
Qed.

(** C9, as the code has it.  When no direct access token is supplied and the
    source is built from its stored credential, the factory constructs a
    TokenProvider exactly when the source's auth type is [oauth2_with_refresh]
    or [oauth2_with_refresh_rotating]: the source is then created from the
    provider's token, and the provider is injected into it when the source
    class has a [set_token_provider] method (when it has none, the provider
    serves for that first token only).  For every other auth type
    [_create_token_provider_if_needed] returns [None], and the source is
    created from the validated auth config or from the decrypted credential
    itself, with no provider injected.  With a direct access token that is
    not empty, whatever the auth type, the source is created from that token
    with no provider; an empty token counts as none. *)
Theorem stored_credentials_token_provider
    (pf : SyncFactory.platform) (db : SyncFactory.Db) (sync : SyncFactory.Sync)
    (white_label : option OAuth2Service.WhiteLabel)
    (source_connection : SyncFactory.Connection) (config_fields : dict)
    (source_model : SyncFactory.Source) :
  SyncFactory._get_source_config db sync
    = Return (source_connection, config_fields, source_model) ->
  (forall inst,
     SyncFactory._create_source_instance pf db sync white_label None = Return inst ->
     exists cid credential,
       SyncFactory.integration_credential_id source_connection = Some cid /\
       SyncFactory.integration_credentials db !! cid = Some credential /\
       let decrypted_credential :=
         SyncFactory.decrypt pf (SyncFactory.encrypted_credentials credential) in
       let provider :=
         SyncFactory._create_token_provider_if_needed source_model source_connection
           decrypted_credential white_label in
       (is_Some provider <->
          SyncFactory.auth_type source_model = oauth2_with_refresh
          \/ SyncFactory.auth_type source_model = oauth2_with_refresh_rotating) /\
       (forall tp, provider = Some tp ->
          tp = SyncFactory.mkTokenProvider (SyncFactory.source_short_name source_model)
                 (SyncFactory.connection_id source_connection)
                 decrypted_credential white_label /\
          (exists token,
              SyncFactory.get_valid_token pf tp = Return token /\
              SyncFactory.credentials inst = SyncFactory.CredToken token) /\
          SyncFactory.token_provider inst
            = if SyncFactory.has_set_token_provider
                   (SyncFactory.get_source pf source_model)
              then Some tp else None) /\
       (provider = None ->
          SyncFactory.token_provider inst = None /\
          (SyncFactory.credentials inst = SyncFactory.CredDict decrypted_credential
           \/ exists cls fields,
                SyncFactory.auth_config_class source_model = Some cls /\
                SyncFactory.validate_auth_config pf cls decrypted_credential
                  = Return fields /\
                SyncFactory.credentials inst = SyncFactory.CredAuthConfig cls fields))) /\
  (forall token,
     token <> EmptyString ->
     SyncFactory._create_source_instance pf db sync white_label (Some token)
     = Return (SyncFactory.mkSourceInstance (SyncFactory.get_source pf source_model)
                 (SyncFactory.CredToken token) config_fields None
                 (SyncFactory.has_set_logger (SyncFactory.get_source pf source_model)))) /\
  SyncFactory._create_source_instance pf db sync white_label (Some EmptyString)
  = SyncFactory._create_source_instance pf db sync white_label None.
Proof.
  intros Hcfg. split; [|split].
  - intros inst.
    exact (stored_credential_source pf db sync white_label source_connection
             config_fields source_model inst Hcfg).
  - intros token Hne. unfold SyncFactory._create_source_instance. rewrite Hcfg.
    destruct (String.eqb_spec token EmptyString) as [->|_]; [contradiction|].
    reflexivity.
  - unfold SyncFactory._create_source_instance. rewrite Hcfg. reflexivity.
Qed.

(** A platform whose source classes take no token provider. *)
Definition plain_platform : SyncFactory.platform :=
  SyncFactory.mkPlatform
    (fun _ => {[ "refresh_token" := PyStr "R1" ]})
    (fun _ => SyncFactory.mkSourceClass false true)
    (fun _ d => Return d)
    (fun _ => Return "fresh-token")
    None.

Lemma stored_credentials_token_provider_witness :
  let tp := SyncFactory.mkTokenProvider "asana" 1 {[ "refresh_token" := PyStr "R1" ]}
              None in
  SyncFactory._create_source_instance factory_platform factory_db factory_sync None None
  = Return (SyncFactory.mkSourceInstance (SyncFactory.mkSourceClass true true)
              (SyncFactory.CredToken "fresh-token") ∅ (Some tp) true) /\
  SyncFactory._create_source_instance plain_platform factory_db factory_sync None None
  = Return (SyncFactory.mkSourceInstance (SyncFactory.mkSourceClass false true)
              (SyncFactory.CredToken "fresh-token") ∅ None true) /\
  SyncFactory._create_source_instance factory_platform factory_db factory_sync None
    (Some "direct-token")
  = Return (SyncFactory.mkSourceInstance (SyncFactory.mkSourceClass true true)
              (SyncFactory.CredToken "direct-token") ∅ None true).
Proof.
  cbv zeta.
  assert (Hcfg : SyncFactory._get_source_config factory_db factory_sync
                 = Return (SyncFactory.mkConnection 1 "asana" (Some 5%N), ∅,
                           asana_source))
    by (vm_compute; reflexivity).
  split; [|split].
  - destruct (SyncFactory._create_source_instance factory_platform factory_db
                factory_sync None None) as [inst|e] eqn:Hrun;
      [|vm_compute in Hrun; discriminate].
    destruct (stored_credentials_token_provider factory_platform factory_db
                factory_sync None _ _ _ Hcfg) as (Hstored & _ & _).
    destruct (Hstored inst Hrun) as (cid & credential & _ & _ & _ & Hyes & _).
    destruct (Hyes (SyncFactory.mkTokenProvider "asana" 1
                      (SyncFactory.decrypt factory_platform
                         (SyncFactory.encrypted_credentials credential)) None)
                eq_refl) as (_ & _ & Hinjected).
    vm_compute in Hrun. injection Hrun as <-. reflexivity.
  - destruct (SyncFactory._create_source_instance plain_platform factory_db
                factory_sync None None) as [inst|e] eqn:Hrun;
      [|vm_compute in Hrun; discriminate].
    destruct (stored_credentials_token_provider plain_platform factory_db
                factory_sync None _ _ _ Hcfg) as (Hstored & _ & _).
    destruct (Hstored inst Hrun) as (cid & credential & _ & _ & _ & Hyes & _).
    vm_compute in Hrun. injection Hrun as <-. reflexivity.
  - destruct (stored_credentials_token_provider factory_platform factory_db
                factory_sync None _ _ _ Hcfg) as (_ & Hdirect & _).
    rewrite (Hdirect "direct-token") by discriminate. reflexivity.
Defined.

(** C9, as stated, fails: the source's auth type is [oauth2_with_refresh],
    but the run is given a direct access token; the factory creates the source
    from that token and constructs no TokenProvider. *)
Lemma direct_token_skips_token_provider :
  SyncFactory.auth_type asana_source = oauth2_with_refresh /\
  SyncFactory._get_source_config factory_db factory_sync
    = Return (SyncFactory.mkConnection 1 "asana" (Some 5%N), ∅, asana_source) /\
  SyncFactory._create_source_instance factory_platform factory_db factory_sync
    None (Some "direct-token")
  = Return (SyncFactory.mkSourceInstance (SyncFactory.mkSourceClass true true)
              (SyncFactory.CredToken "direct-token") ∅ None true).
Proof.
  split; [reflexivity|]. split; vm_compute; reflexivity.
Qed.

(** ** Saving a file stream ([file_manager.py]) *)

Section FileSaving.
Import FileManager.
Local Open Scope Z_scope.

(** The number of bytes a sequence of chunks carries. *)
Definition total_bytes (chunks : list (list Byte.byte)) : Z :=
  Z.of_nat (length (concat chunks)).

Lemma total_bytes_cons c chunks :
  total_bytes (c :: chunks) = Z.of_nat (length c) + total_bytes chunks.
Proof. unfold total_bytes. cbn. rewrite length_app. lia. Qed.

Lemma total_bytes_nonneg chunks : 0 <= total_bytes chunks.
Proof. unfold total_bytes. lia. Qed.

Variable temp_path : string.
Variable max_size : Z.



End FileSaving.


Definition report_pdf : FileManager.FileEntity :=
  FileManager.mkFileEntity (Some "report.pdf") (Some "https://files.example/report.pdf")
    false None None None None None.

Definition uuid_1 : Uuid.UUID := Uuid.mkUUID 1 eq_refl.

(** A host on which every file can be opened. *)
Definition opens (_ : string) : option exn := None.



(** ** The initial DAG ([dag_service.py]) *)

Section InitialDag.
Import DagService.

(** Paths along the edges of a DAG, between node ids. *)
Inductive path (E : list DagEdgeCreate) : N -> N -> Prop :=
| path_here (a : N) : path E a a
| path_edge (a b c : N) : In (mkDagEdgeCreate a b) E -> path E b c -> path E a c.

Lemma add_entity_nodes_appends uuid4 source_node_id defs :
  forall k nodes edges,
    exists k' new,
      add_entity_nodes uuid4 source_node_id defs k nodes edges
      = (k', nodes ++ new,
         edges ++ map (fun n => mkDagEdgeCreate source_node_id (id n)) new)
      /\ Forall (fun n => type n = entity) new.
Proof.
  induction defs as [|d defs IH]; intros k nodes edges; cbn [add_entity_nodes].
  - exists k, []. cbn. rewrite !app_nil_r. split; [reflexivity|constructor].
  - destruct (contains "Workspace" (entity_definition_name d)
              || contains "Comment" (entity_definition_name d)).
    + apply IH.
    + destruct (IH (S k)
                  (nodes ++ [mkDagNodeCreate (uuid4 k) entity (entity_definition_name d)
                               None (Some (entity_definition_id d)) None])
                  (edges ++ [mkDagEdgeCreate source_node_id (uuid4 k)]))
        as (k' & new & Heq & Hall).
      exists k', (mkDagNodeCreate (uuid4 k) entity (entity_definition_name d)
                    None (Some (entity_definition_id d)) None :: new).
      rewrite Heq. split.
      * cbn. rewrite <- !app_assoc. reflexivity.
      * constructor; [reflexivity|assumption].
Qed.

(** The shape of every DAG [create_initial_dag] returns. *)
Lemma create_initial_dag_shape db uuid4 sync_id d :
  create_initial_dag db uuid4 sync_id = Return d ->
  exists src new file dst,
    type src = source /\ type dst = destination /\
    Forall (fun n => type n = entity) new /\
    type file = entity /\ name file = "AsanaPDF" /\
    nodes d = src :: new ++ [file; dst] /\
    edges d
    = map (fun n => mkDagEdgeCreate (id src) (id n)) (new ++ [file])
        ++ map (fun n => mkDagEdgeCreate (id n) (id dst)) (new ++ [file]).
Proof.
  unfold create_initial_dag.
  destruct (syncs db !! sync_id) as [sync|]; [|discriminate].
  destruct (connections db !! source_connection_id sync) as [sc|]; [|discriminate].
  destruct (sources db !! short_name sc) as [s|]; [|discriminate].
  set (source_node := mkDagNodeCreate (uuid4 0%nat) source (source_name s)
                        (Some (connection_id sc)) None None).
  destruct (add_entity_nodes_appends uuid4 (uuid4 0%nat)
              (get_multi_by_ids db (output_entity_definition_ids s))
              1%nat [source_node] []) as (k & new & -> & Hall).
  set (file := mkDagNodeCreate (uuid4 k) entity "AsanaPDF" None None
                 (Some {[ "type" := "file" ]})).
  match goal with
  | |- match ?o with Return _ => _ | Raise _ => _ end = _ -> _ =>
      destruct o as [dst|e] eqn:Hdst; [|discriminate]
  end.
  intros [= <-].
  assert (Htype : type dst = destination).
  { destruct (destination_connection_id sync) as [did|].
    - destruct (connections db !! did) as [dc|]; [|discriminate].
      destruct (destinations db !! short_name dc); [|discriminate].
      now injection Hdst as <-.
    - now injection Hdst as <-. }
  assert (Hid : id dst = uuid4 (S k)).
  { destruct (destination_connection_id sync) as [did|].
    - destruct (connections db !! did) as [dc|]; [|discriminate].
      destruct (destinations db !! short_name dc); [|discriminate].
      now injection Hdst as <-.
    - now injection Hdst as <-. }
  exists source_node, new, file, dst.
  repeat split; try assumption; cbn [nodes edges].
  - cbn. rewrite <- !app_assoc. reflexivity.
  - unfold inner_nodes. cbn [app tl].
    rewrite removelast_last, Hid.
    rewrite !map_app. cbn [map app]. rewrite <- !app_assoc. reflexivity.
Qed.

End InitialDag.

(** C7. In every DAG that [create_initial_dag] returns, the first node is the
    source node, the last one the destination node, the synthetic file entity
    node is among the nodes, and every entity node has an edge from the source
    node and an edge to the destination node: it is reachable from the source
    and has a path to a destination node, so no entity node is dead. *)
Theorem initial_dag_entities_connected
    (db : DagService.Db) (uuid4 : nat -> N) (sync_id : N)
    (d : DagService.SyncDagDefinitionCreate) :
  DagService.create_initial_dag db uuid4 sync_id = Return d ->
  exists src dst file,
    head (DagService.nodes d) = Some src /\ DagService.type src = DagService.source /\
    last (DagService.nodes d) = Some dst /\
    DagService.type dst = DagService.destination /\
    In file (DagService.nodes d) /\ DagService.type file = DagService.entity /\
    DagService.name file = "AsanaPDF" /\
    forall n,
      In n (DagService.nodes d) -> DagService.type n = DagService.entity ->
      In (DagService.mkDagEdgeCreate (DagService.id src) (DagService.id n))
         (DagService.edges d) /\
      In (DagService.mkDagEdgeCreate (DagService.id n) (DagService.id dst))
         (DagService.edges d) /\
      path (DagService.edges d) (DagService.id src) (DagService.id n) /\
      exists t,
        In t (DagService.nodes d) /\ DagService.type t = DagService.destination /\
        path (DagService.edges d) (DagService.id n) (DagService.id t).
Proof.
  intros H. apply create_initial_dag_shape in H.
  destruct H as (src & new & file & dst & Hs & Hd & Hall & Hf & Hname & Hn & He).
  exists src, dst, file. rewrite Hn.
  assert (Hdst : In dst (src :: new ++ [file; dst])).
  { right. apply in_or_app. right. right. now left. }
  split; [reflexivity|]. split; [exact Hs|]. split.
  { change [file; dst] with ([file] ++ [dst]).
    rewrite app_assoc, app_comm_cons. apply last_snoc. }
  split; [exact Hd|]. split.
  { right. apply in_or_app. right. now left. }
  split; [exact Hf|]. split; [exact Hname|].
  - intros n Hin Hty.
    assert (Hinner : In n (new ++ [file])).
    { destruct Hin as [<-|Hin]; [congruence|].
      change [file; dst] with ([file] ++ [dst]) in Hin. rewrite app_assoc in Hin.
      apply in_app_or in Hin. destruct Hin as [Hin|[<-|[]]]; [assumption|congruence]. }
    assert (H1 : In (DagService.mkDagEdgeCreate (DagService.id src) (DagService.id n))
                   (DagService.edges d)).
    { rewrite He. apply in_or_app. left.
      apply (in_map (fun n => DagService.mkDagEdgeCreate (DagService.id src)
                                (DagService.id n))). exact Hinner. }
    assert (H2 : In (DagService.mkDagEdgeCreate (DagService.id n) (DagService.id dst))
                   (DagService.edges d)).
    { rewrite He. apply in_or_app. right.
      apply (in_map (fun n => DagService.mkDagEdgeCreate (DagService.id n)
                                (DagService.id dst))). exact Hinner. }
    split; [exact H1|]. split; [exact H2|]. split.
    + eapply path_edge; [exact H1|apply path_here].
    + exists dst. split; [exact Hdst|]. split; [exact Hd|].
      eapply path_edge; [exact H2|apply path_here].
Qed.

(** A sync of an Asana connection into the native destination; of the three
    entity definitions of the source, the workspace and the comment are
    skipped. *)
Definition dag_db : DagService.Db :=
  DagService.mkDb
    {[ 1%N := DagService.mkSync "asana sync" 1 None ]}
    {[ 1%N := DagService.mkConnection 1 "asana" ]}
    {[ "asana" := DagService.mkSource "Asana" [10%N; 11%N; 12%N] ]}
    (<[12%N := DagService.mkEntityDefinition 12 "AsanaCommentEntity"]>
       (<[11%N := DagService.mkEntityDefinition 11 "AsanaWorkspaceEntity"]>
          {[ 10%N := DagService.mkEntityDefinition 10 "AsanaTaskEntity" ]}))
    ∅.

Lemma initial_dag_entities_connected_witness :
  exists d src dst,
    DagService.create_initial_dag dag_db N.of_nat 1 = Return d /\
    map DagService.id (DagService.nodes d) = [0%N; 1%N; 4%N; 5%N] /\
    head (DagService.nodes d) = Some src /\
    last (DagService.nodes d) = Some dst /\
    forall n,
      In n (DagService.nodes d) -> DagService.type n = DagService.entity ->
      In (DagService.mkDagEdgeCreate (DagService.id src) (DagService.id n))
         (DagService.edges d) /\
      In (DagService.mkDagEdgeCreate (DagService.id n) (DagService.id dst))
         (DagService.edges d).
Proof.
  destruct (DagService.create_initial_dag dag_db N.of_nat 1) as [d|e] eqn:H;
    [|vm_compute in H; discriminate].
  destruct (initial_dag_entities_connected dag_db N.of_nat 1 d H)
    as (src & dst & file & Hhead & _ & Hlast & _ & _ & _ & _ & Hall).
  exists d, src, dst. split; [reflexivity|]. split.
  - vm_compute in H. injection H as <-. reflexivity.
  - split; [exact Hhead|]. split; [exact Hlast|].
    intros n Hin Hty. destruct (Hall n Hin Hty) as (A & B & _). auto.
Defined.

(** * Further properties of the modelled code *)

(** ** [run_sync_activity]: the other ways out *)

(** X1. When the sync task returns after [n] timeouts, [run_sync_activity]
    returns normally: it has sent exactly [n] heartbeats, all of them before
    the task ended, it has not touched the job table, and nothing that the
    event loop would have delivered later is looked at. *)
Theorem run_sync_activity_completes
    (n : nat) (rest : list Activities.wait_event)
    (job : Activities.SyncJob) (w : Activities.world)
    (teardown : outcome unit) (update_failure : option exn)
    (utc_now_naive : Z) (fromisoformat : string -> option Z)
    (table_after : Z -> gmap N Activities.SyncJob) (next_job_id : N) :
  Activities.run_sync_activity
    (Activities.mkEnvironment
       (repeat Activities.Tick n ++ Activities.TaskEnds (Return tt) :: rest)
       teardown update_failure utc_now_naive fromisoformat table_after next_job_id)
    job w
  = (Some (Return tt),
     Activities.mkWorld (Activities.jobs w) (Activities.clock w)
       (Activities.trace w ++ Activities.TaskCreated :: heartbeats n)).
Proof.
  unfold Activities.run_sync_activity. cbn [Activities.wait_events].
  rewrite supervise_ticks. cbn. now rewrite <- app_assoc.
Qed.

(** X2. When the sync task fails after [n] timeouts with an exception other
    than [TimeoutError] and [CancelledError], the activity logs the failure
    and raises the same exception; it asks for no status update, so the job
    table is as it was (the job is not marked CANCELLED or FAILED here). *)
Theorem run_sync_activity_failure_propagates
    (n : nat) (rest : list Activities.wait_event) (e : exn)
    (job : Activities.SyncJob) (w : Activities.world)
    (teardown : outcome unit) (update_failure : option exn)
    (utc_now_naive : Z) (fromisoformat : string -> option Z)
    (table_after : Z -> gmap N Activities.SyncJob) (next_job_id : N) :
  e <> TimeoutError -> e <> CancelledError ->
  Activities.run_sync_activity
    (Activities.mkEnvironment
       (repeat Activities.Tick n ++ Activities.TaskEnds (Raise e) :: rest)
       teardown update_failure utc_now_naive fromisoformat table_after next_job_id)
    job w
  = (Some (Raise e),
     Activities.mkWorld (Activities.jobs w) (Activities.clock w)
       (Activities.trace w
          ++ Activities.TaskCreated :: heartbeats n
          ++ [Activities.LogError "Failed sync activity"])).
Proof.
  intros Ht Hc. unfold Activities.run_sync_activity. cbn [Activities.wait_events].
  rewrite supervise_ticks. cbn [Activities.supervise Activities.wait_for_shielded].
  destruct e; try contradiction; cbn; unfold Activities.emit; cbn;
    rewrite <- !app_assoc; reflexivity.
Qed.

Lemma run_sync_activity_failure_propagates_witness :
  Activities.run_sync_activity
    (Activities.mkEnvironment
       [Activities.Tick; Activities.Tick;
        Activities.TaskEnds (Raise (TokenRefreshError "expired")); Activities.Tick]
       (Raise CancelledError) None 1000 (fun _ => None) (fun _ => ∅) 10)
    job_9 world_9
  = (Some (Raise (TokenRefreshError "expired")),
     Activities.mkWorld {[ 9%N := job_9 ]} 0
       [Activities.TaskCreated; Activities.Heartbeat Activities.SyncInProgress;
        Activities.Heartbeat Activities.SyncInProgress;
        Activities.LogError "Failed sync activity"]).
Proof.
  exact (run_sync_activity_failure_propagates 2 [Activities.Tick]
           (TokenRefreshError "expired") job_9 world_9 (Raise CancelledError) None
           1000 (fun _ => None) (fun _ => ∅) 10
           ltac:(discriminate) ltac:(discriminate)).
Defined.

(** X3. When the activity is cancelled and the awaited sync task then ends
    with an exception other than [CancelledError], that exception leaves the
    handler: the activity raises it in place of the cancellation and never
    asks for the job to be marked CANCELLED, so the job table is as it was. *)
Theorem cancellation_teardown_failure_skips_update
    (n : nat) (rest : list Activities.wait_event) (e : exn)
    (job : Activities.SyncJob) (w : Activities.world)
    (update_failure : option exn)
    (utc_now_naive : Z) (fromisoformat : string -> option Z)
    (table_after : Z -> gmap N Activities.SyncJob) (next_job_id : N) :
  e <> CancelledError ->
  Activities.run_sync_activity
    (Activities.mkEnvironment
       (repeat Activities.Tick n ++ Activities.CancelRequested :: rest)
       (Raise e) update_failure utc_now_naive fromisoformat table_after next_job_id)
    job w
  = (Some (Raise e),
     Activities.mkWorld (Activities.jobs w) (Activities.clock w)
       (Activities.trace w
          ++ Activities.TaskCreated :: heartbeats n
          ++ [Activities.TaskCancel; Activities.TaskAwaited])).
Proof.
  intros Hc. unfold Activities.run_sync_activity. cbn [Activities.wait_events].
  rewrite supervise_cancel_request. unfold Activities.on_cancelled.
  cbn [Activities.cancel_and_await Activities.teardown].
  destruct e; try contradiction; unfold Activities.emit; cbn;
    rewrite <- !app_assoc; reflexivity.
Qed.

Lemma cancellation_teardown_failure_skips_update_witness :
  exists w',
    Activities.run_sync_activity
      (Activities.mkEnvironment [Activities.CancelRequested]
         (Raise (Exception "destination closed")) None 1000 (fun _ => None)
         (fun _ => ∅) 10)
      job_9 world_9
    = (Some (Raise (Exception "destination closed")), w') /\
    Activities.status <$> Activities.jobs w' !! 9%N = Some Activities.IN_PROGRESS.
Proof.
  eexists. split.
  - exact (cancellation_teardown_failure_skips_update 0 [] (Exception "destination closed")
             job_9 world_9 None 1000 (fun _ => None) (fun _ => ∅) 10
             ltac:(discriminate)).
  - vm_compute. reflexivity.
Defined.

(** ** The pre-start cancellation path *)

(** X4. [mark_sync_job_cancelled_activity] has no handler around the status
    update: when the update fails, the activity fails with the same exception
    and the job table is as it was.  When [when_iso] is missing, empty or not
    an ISO date, the job is still marked CANCELLED, with the given reason and
    without a failure time. *)
Theorem mark_cancelled_update_failure_and_bad_date
    (env : Activities.environment) (sync_job_id : N) (j : Activities.SyncJob)
    (reason : option string) (when_iso : option string) (w : Activities.world) :
  (forall e,
      Activities.update_failure env = Some e ->
      exists w',
        Activities.mark_sync_job_cancelled_activity env sync_job_id reason when_iso w
          = (Raise e, w') /\
        Activities.jobs w' = Activities.jobs w) /\
  (Activities.update_failure env = None ->
   Activities.jobs w !! sync_job_id = Some j ->
   (when_iso = None \/ when_iso = Some EmptyString
    \/ exists s, when_iso = Some s /\ Activities.fromisoformat env s = None) ->
   exists w',
     Activities.mark_sync_job_cancelled_activity env sync_job_id reason when_iso w
       = (Return tt, w') /\
     Activities.jobs w' !! sync_job_id
       = Some (Activities.mkSyncJob (Activities.id j) (Activities.sync_id j)
                 Activities.CANCELLED reason None) /\
     Activities.trace w'
       = Activities.trace w
           ++ [Activities.StatusUpdate sync_job_id Activities.CANCELLED reason None]).
Proof.
  split.
  - intros e He. unfold Activities.mark_sync_job_cancelled_activity.
    rewrite (update_status_fails _ _ _ _ _ _ _ He). eexists. split; reflexivity.
  - intros Hu Hj Hw. unfold Activities.mark_sync_job_cancelled_activity.
    assert (Hfa : match when_iso with
                  | Some s => if String.eqb s EmptyString then None
                              else Activities.fromisoformat env s
                  | None => None
                  end = None).
    { destruct Hw as [->|[->|(s & -> & Hs)]]; [reflexivity..|].
      destruct (String.eqb s EmptyString); [reflexivity|exact Hs]. }
    rewrite Hfa, (update_status_ok _ _ _ _ _ _ Hu).
    eexists. split; [reflexivity|]. cbn. split; [|reflexivity].
    rewrite lookup_alter_eq, Hj. reflexivity.
Qed.

Lemma mark_cancelled_update_failure_and_bad_date_witness :
  exists w',
    Activities.mark_sync_job_cancelled_activity (env_cancel None) 9
      (Some "user request") (Some "yesterday") world_9 = (Return tt, w') /\
    Activities.jobs w' !! 9%N
      = Some (Activities.mkSyncJob 9 3 Activities.CANCELLED (Some "user request") None).
Proof.
  destruct (mark_cancelled_update_failure_and_bad_date (env_cancel None) 9 job_9
              (Some "user request") (Some "yesterday") world_9) as [_ H].
  destruct H as (w' & Hrun & Hrow & _).
  - reflexivity.
  - vm_compute. reflexivity.
  - right. right. exists "yesterday". split; reflexivity.
  - exists w'. split; [exact Hrun|exact Hrow].
Defined.

(** ** [create_sync_job_activity]: how long it waits *)

Section WaitingBound.
Import Activities.
Local Open Scope Z_scope.
Variable env : environment.
Variable sid : N.

Lemma wait_loop_shape (fuel : nat) :
  forall (total : Z) (w w' : world) (x : wait_exit),
    wait_for_running_jobs fuel env sid total w = (x, w') ->
    exists k : nat,
      clock w' = clock w + 30 * Z.of_nat k /\
      trace w' = trace w ++ waiting_trace total k /\
      (k = 0%nat \/ total + 30 * (Z.of_nat k - 1) < 3600) /\
      (x = WaitBroke -> k <> 0%nat).
Proof.
  assert (Hstay : forall (total : Z) (w : world) (x : wait_exit),
             x <> WaitBroke ->
             exists k : nat,
               clock w = clock w + 30 * Z.of_nat k /\
               trace w = trace w ++ waiting_trace total k /\
               (k = 0%nat \/ total + 30 * (Z.of_nat k - 1) < 3600) /\
               (x = WaitBroke -> k <> 0%nat)).
  { intros total w x Hx. exists 0%nat. cbn. rewrite app_nil_r.
    split; [lia|]. split; [reflexivity|]. split; [now left|]. intros; contradiction. }
  induction fuel as [|fuel IH]; intros total w w' x; cbn [wait_for_running_jobs].
  - intros [= <- <-]. now apply Hstay.
  - unfold max_wait_time.
    destruct (Z.ltb_spec total (60 * 60)) as [Hlt|_].
    + set (w1 := sleep env wait_interval
                   (emit (Heartbeat (WaitingForRunningJobs total)) w)).
      assert (Hc1 : clock w1 = clock w + 30) by reflexivity.
      assert (Ht1 : trace w1 = trace w ++ waiting_trace total 1).
      { cbn. unfold wait_interval. now rewrite <- app_assoc. }
      destruct (get_all_by_sync_id (jobs w1) sid [PENDING; IN_PROGRESS]) as [|r rs].
      * intros [= <- <-]. exists 1%nat.
        split; [lia|]. split; [exact Ht1|]. split; [right; lia|]. intros _. discriminate.
      * intros H. apply IH in H. destruct H as (k & Hc & Ht & Hb & Hx).
        exists (S k). split; [rewrite Hc, Hc1; lia|]. split.
        { rewrite Ht, Ht1. cbn [waiting_trace]. unfold wait_interval.
          rewrite <- !app_assoc. reflexivity. }
        split; [|intros _; discriminate].
        right. unfold wait_interval in Hb. destruct Hb as [->|Hb]; lia.
    + intros [= <- <-]. now apply Hstay.
Qed.

End WaitingBound.

(** X5. However the other jobs behave, [create_sync_job_activity] goes through
    at most 120 rounds of heartbeat and 30-second sleep, so it is over within
    3600 seconds; beyond those rounds it leaves nothing in the trace but the
    creation of the job, which happens exactly when it returns a job; without
    [force_full_sync] it never waits at all. *)
Theorem create_sync_job_activity_bounded
    (env : Activities.environment) (sid : N) (force_full_sync : bool)
    (w : Activities.world) :
  exists (k : nat) (tail : list Activities.effect),
    (k <= 120)%nat /\
    Activities.clock (snd (Activities.create_sync_job_activity env sid force_full_sync w))
      = (Activities.clock w + 30 * Z.of_nat k)%Z /\
    Activities.trace (snd (Activities.create_sync_job_activity env sid force_full_sync w))
      = Activities.trace w ++ waiting_trace 0 k ++ tail /\
    ((tail = [] /\
      forall j, fst (Activities.create_sync_job_activity env sid force_full_sync w)
                <> Some (Return j))
     \/ (tail = [Activities.JobCreated (Activities.next_job_id env)] /\
         exists j, fst (Activities.create_sync_job_activity env sid force_full_sync w)
                   = Some (Return j))) /\
    (force_full_sync = false -> k = 0%nat).
Proof.
  unfold Activities.create_sync_job_activity.
  change (S (Z.to_nat (Activities.max_wait_time / Activities.wait_interval)))
    with 121%nat.
  assert (Hnone : forall w0 : Activities.world,
             @app Activities.effect (Activities.trace w0) [] = Activities.trace w0)
    by (intros; apply app_nil_r).
  destruct (Activities.get_all_by_sync_id (Activities.jobs w) sid _) as [|r rs].
  - exists 0%nat, [Activities.JobCreated (Activities.next_job_id env)]. cbn.
    split; [lia|]. split; [lia|]. split; [reflexivity|]. split; [|reflexivity].
    right. split; [reflexivity|]. eexists. reflexivity.
  - destruct force_full_sync.
    + destruct (Activities.wait_for_running_jobs 121 env sid 0 w) as [x w'] eqn:Hl.
      destruct (wait_loop_shape env sid 121 0 w w' x Hl) as (k & Hc & Ht & Hb & Hx).
      assert (Hk : (k <= 120)%nat) by (destruct Hb; lia).
      destruct x.
      * exists k, [Activities.JobCreated (Activities.next_job_id env)]. cbn.
        split; [exact Hk|]. split; [exact Hc|].
        split; [now rewrite Ht, <- app_assoc|]. split; [|discriminate].
        right. split; [reflexivity|]. eexists. reflexivity.
      * exists k, []. cbn. rewrite app_nil_r.
        split; [exact Hk|]. split; [exact Hc|]. split; [exact Ht|].
        split; [|discriminate].
        left. split; [reflexivity|]. intros j. discriminate.
      * exists k, []. cbn. rewrite app_nil_r.
        split; [exact Hk|]. split; [exact Hc|]. split; [exact Ht|].
        split; [|discriminate].
        left. split; [reflexivity|]. intros j. discriminate.
    + exists 0%nat, []. cbn.
      split; [lia|]. split; [lia|]. split; [now rewrite app_nil_r|].
      split; [|reflexivity].
      left. split; [reflexivity|]. intros j. discriminate.
Qed.

(** ** Token refresh: failures, the request, and what is stored *)

Section RefreshFacts.
Import OAuth2Service.
Context (b64encode : string -> string) {cipher : Type}
        (encrypt : dict -> cipher) (decrypt : cipher -> dict).

Lemma handle_token_response_failure db json cfg connection_id e db' :
  _handle_token_response cipher encrypt decrypt db json cfg connection_id
    = (Raise e, db') -> db' = db.
Proof.
  unfold _handle_token_response.
  destruct (parse_token_response json) as [r|e0]; [|now intros [= _ <-]].
  destruct (decide _); [|discriminate].
  destruct (connections cipher db !! connection_id) as [c|]; [|now intros [= _ <-]].
  destruct (integration_credentials cipher db !! integration_credential_id c);
    [discriminate|now intros [= _ <-]].
Qed.

Lemma get_refresh_token_present dc :
  truthy (dict_get dc "refresh_token" PyNone) = true ->
  _get_refresh_token dc = Return (dict_get dc "refresh_token" PyNone).
Proof. intros H. unfold _get_refresh_token. now rewrite H. Qed.

End RefreshFacts.

(** X6. A refresh that fails, for whatever reason (no refresh token, unknown
    integration, transport or status error, a response without access token,
    a missing connection or credential row), hands back the database exactly
    as it was: no credential is rewritten on a failed refresh. *)
Theorem refresh_failure_keeps_database
    (b64encode : string -> string) (cipher : Type)
    (encrypt : dict -> cipher) (decrypt : cipher -> dict)
    (settings : gmap string OAuth2Service.IntegrationConfig)
    (post : OAuth2Service.TokenRequest -> OAuth2Service.http_result)
    (db db' : OAuth2Service.Db cipher) (name : string) (connection_id : N)
    (dc : dict) (wl : option OAuth2Service.WhiteLabel) (e : exn) :
  OAuth2Service.refresh_access_token b64encode cipher encrypt decrypt
    settings post db name connection_id dc wl = (Raise e, db') ->
  db' = db.
Proof.
  intros H.
  destruct (refresh_access_token_cases b64encode encrypt decrypt
              settings post db name connection_id dc wl)
    as [[e0 He]|(cfg & json & _ & Hr)]; cbv zeta in *.
  - rewrite He in H. now injection H as _ <-.
  - rewrite Hr in H. now apply handle_token_response_failure in H.
Qed.

Definition post_unauthorized (_ : OAuth2Service.TokenRequest)
  : OAuth2Service.http_result :=
  OAuth2Service.HttpResponse 401 {[ "error" := PyStr "invalid_grant" ]}.

Lemma refresh_failure_keeps_database_witness :
  OAuth2Service.refresh_access_token id dict id id {[ "asana" := cfg_asana ]}
    post_unauthorized db_asana "asana" 1 {[ "refresh_token" := PyStr "R1" ]} None
  = (Raise (HTTPStatusError 401), db_asana).
Proof.
  assert (H : exists e db',
             OAuth2Service.refresh_access_token id dict id id {[ "asana" := cfg_asana ]}
               post_unauthorized db_asana "asana" 1
               {[ "refresh_token" := PyStr "R1" ]} None = (Raise e, db')
             /\ e = HTTPStatusError 401)
    by (eexists _, _; split; vm_compute; reflexivity).
  destruct H as (e & db' & Hr & ->).
  rewrite Hr. f_equal.
  exact (refresh_failure_keeps_database id dict id id _ _ _ _ _ _ _ _ _ Hr).
Defined.

(** X7. Without a usable refresh token in the decrypted credential (the key is
    missing, or holds [None] or the empty string) the refresh fails with
    [TokenRefreshError] before anything else is looked at, whatever the
    settings and the token endpoint are; with a refresh token but an unknown
    integration it fails with [NotFoundException]. *)
Theorem refresh_requires_token_and_integration
    (b64encode : string -> string) (cipher : Type)
    (encrypt : dict -> cipher) (decrypt : cipher -> dict)
    (settings : gmap string OAuth2Service.IntegrationConfig)
    (post : OAuth2Service.TokenRequest -> OAuth2Service.http_result)
    (db : OAuth2Service.Db cipher) (name : string) (connection_id : N)
    (dc : dict) (wl : option OAuth2Service.WhiteLabel) :
  let r := OAuth2Service.refresh_access_token b64encode cipher encrypt decrypt
             settings post db name connection_id dc wl in
  (truthy (dict_get dc "refresh_token" PyNone) = false ->
   r = (Raise (TokenRefreshError "No refresh token found"), db)) /\
  (truthy (dict_get dc "refresh_token" PyNone) = true ->
   settings !! name = None ->
   r = (Raise (NotFoundException ("Configuration for " +:+ name +:+ " not found")), db)).
Proof.
  cbv zeta. unfold OAuth2Service.refresh_access_token, OAuth2Service._get_refresh_token,
    OAuth2Service._get_integration_config.
  split.
  - intros ->. reflexivity.
  - intros -> ->. reflexivity.
Qed.

Lemma refresh_requires_token_and_integration_witness :
  OAuth2Service.refresh_access_token id dict id id {[ "asana" := cfg_asana ]}
    post_ok db_asana "asana" 1 {[ "refresh_token" := PyStr EmptyString ]} None
  = (Raise (TokenRefreshError "No refresh token found"), db_asana)
  /\ OAuth2Service.refresh_access_token id dict id id {[ "asana" := cfg_asana ]}
       post_ok db_asana "jira" 1 {[ "refresh_token" := PyStr "R1" ]} None
     = (Raise (NotFoundException "Configuration for jira not found"), db_asana).
Proof.
  split.
  - apply (refresh_requires_token_and_integration id dict id id
             {[ "asana" := cfg_asana ]} post_ok db_asana "asana" 1
             {[ "refresh_token" := PyStr EmptyString ]} None).
    vm_compute. reflexivity.
  - apply (refresh_requires_token_and_integration id dict id id
             {[ "asana" := cfg_asana ]} post_ok db_asana "jira" 1
             {[ "refresh_token" := PyStr "R1" ]} None);
      vm_compute; reflexivity.
Defined.

Section TokenRequests.
Import OAuth2Service.
Context (b64encode : string -> string).

(** What [_prepare_token_request] gives, case by case. *)
Lemma prepare_token_request_spec (cfg : IntegrationConfig)
    (refresh_token client_id client_secret : pyval) :
  let credentials := py_str client_id +:+ ":" +:+ py_str client_secret in
  let in_header := String.eqb (client_credential_location cfg) "header" in
  match _prepare_token_request b64encode cfg refresh_token client_id client_secret with
  | Raise e =>
      (e = UnicodeEncodeError /\ in_header = true /\ isascii credentials = false)
      \/ (e = TypeError "object of type 'NoneType' has no len()"
          /\ refresh_token = PyNone
          /\ (in_header = true -> isascii credentials = true))
  | Return (headers, payload) =>
      refresh_token <> PyNone /\
      payload !! "grant_type" = Some (PyStr "refresh_token") /\
      payload !! "refresh_token" = Some refresh_token /\
      headers !! "Content-Type" = Some (content_type cfg) /\
      if in_header then
        isascii credentials = true /\
        headers !! "Authorization" = Some ("Basic " +:+ b64encode credentials) /\
        payload !! "client_id" = None /\ payload !! "client_secret" = None
      else
        headers !! "Authorization" = None /\
        payload !! "client_id" = Some client_id /\
        payload !! "client_secret" = Some client_secret
  end.
Proof.
  cbv zeta. unfold _prepare_token_request, _encode_client_credentials.
  destruct (String.eqb (client_credential_location cfg) "header").
  - destruct (isascii (py_str client_id +:+ ":" +:+ py_str client_secret)) eqn:Hascii.
    + destruct refresh_token as [|rt].
      * right. split; [reflexivity|]. split; [reflexivity|]. intros _. reflexivity.
      * split; [discriminate|]. split; [now simplify_map_eq|].
        split; [now simplify_map_eq|]. split; [now simplify_map_eq|].
        split; [reflexivity|]. split; [now simplify_map_eq|].
        split; now simplify_map_eq.
    + left. split; [reflexivity|]. split; reflexivity.
  - destruct refresh_token as [|rt].
    + right. split; [reflexivity|]. split; [reflexivity|]. discriminate.
    + split; [discriminate|]. split; [now simplify_map_eq|].
      split; [now simplify_map_eq|]. split; [now simplify_map_eq|].
      split; [now simplify_map_eq|]. split; now simplify_map_eq.
Qed.

(** A refresh token that passed [_get_refresh_token] is a string. *)
Lemma get_refresh_token_string dc rt :
  _get_refresh_token dc = Return rt -> exists s, rt = PyStr s.
Proof.
  unfold _get_refresh_token.
  destruct (dict_get dc "refresh_token" PyNone) as [|s] eqn:Hrt; cbn; [discriminate|].
  destruct (negb _); [discriminate|]. intros [= <-]. eauto.
Qed.

(** With a refresh token that is a string, preparing the request fails only
    on credentials that cannot be encoded for the header. *)
Lemma prepare_token_request_string (cfg : IntegrationConfig) (rt : string)
    (client_id client_secret : pyval) :
  let credentials := py_str client_id +:+ ":" +:+ py_str client_secret in
  _prepare_token_request b64encode cfg (PyStr rt) client_id client_secret
  = if String.eqb (client_credential_location cfg) "header" then
      if isascii credentials then
        Return (<["Authorization" := "Basic " +:+ b64encode credentials]>
                  {[ "Content-Type" := content_type cfg ]},
                <["refresh_token" := PyStr rt]> {[ "grant_type" := PyStr "refresh_token" ]})
      else Raise UnicodeEncodeError
    else
      Return ({[ "Content-Type" := content_type cfg ]},
              <["client_secret" := client_secret]>
                (<["client_id" := client_id]>
                   (<["refresh_token" := PyStr rt]>
                      {[ "grant_type" := PyStr "refresh_token" ]}))).
Proof.
  cbv zeta. unfold _prepare_token_request, _encode_client_credentials.
  destruct (String.eqb (client_credential_location cfg) "header"); [|reflexivity].
  destruct (isascii _); reflexivity.
Qed.

Context {cipher : Type} (encrypt : dict -> cipher) (decrypt : cipher -> dict).

(** The refresh, once the refresh token and the settings are there. *)
Lemma refresh_access_token_request settings post db name connection_id dc wl rt cfg :
  _get_refresh_token dc = Return rt ->
  settings !! name = Some cfg ->
  refresh_access_token b64encode cipher encrypt decrypt settings post db name
    connection_id dc wl
  = match _prepare_token_request b64encode cfg rt
            (fst (refresh_client_credentials cfg name dc wl))
            (snd (refresh_client_credentials cfg name dc wl)) with
    | Raise e => (Raise e, db)
    | Return (headers, payload) =>
        match _make_token_request post (backend_url cfg) headers payload with
        | Raise e => (Raise e, db)
        | Return response =>
            _handle_token_response cipher encrypt decrypt db response cfg connection_id
        end
    end.
Proof.
  intros Hrt Hcfg. unfold refresh_access_token, _get_integration_config.
  rewrite Hrt, Hcfg.
  destruct (refresh_client_credentials cfg name dc wl) as [cid csec]. reflexivity.
Qed.

End TokenRequests.

(** X8. [_prepare_token_request] fails in two cases only: with
    [UnicodeEncodeError] when the credentials go in the header and the client
    id or secret holds a character outside ASCII, and with [TypeError] when
    the refresh token is [None].  Otherwise the request names the grant type
    and the refresh token in its body and carries the client credentials in
    exactly one place: with [client_credential_location] equal to ["header"]
    they are in the Basic [Authorization] header only, and the body holds
    neither client id nor client secret; with any other location they are in
    the body only, and no [Authorization] header is sent. *)
Theorem token_request_credentials_in_one_place
    (b64encode : string -> string) (cfg : OAuth2Service.IntegrationConfig)
    (refresh_token client_id client_secret : pyval) :
  let credentials := py_str client_id +:+ ":" +:+ py_str client_secret in
  let in_header := String.eqb (OAuth2Service.client_credential_location cfg) "header" in
  match OAuth2Service._prepare_token_request b64encode cfg refresh_token client_id
          client_secret with
  | Raise e =>
      (e = UnicodeEncodeError /\ in_header = true /\ isascii credentials = false)
      \/ (e = TypeError "object of type 'NoneType' has no len()"
          /\ refresh_token = PyNone
          /\ (in_header = true -> isascii credentials = true))
  | Return (headers, payload) =>
      refresh_token <> PyNone /\
      payload !! "grant_type" = Some (PyStr "refresh_token") /\
      payload !! "refresh_token" = Some refresh_token /\
      headers !! "Content-Type" = Some (OAuth2Service.content_type cfg) /\
      if in_header then
        isascii credentials = true /\
        headers !! "Authorization" = Some ("Basic " +:+ b64encode credentials) /\
        payload !! "client_id" = None /\ payload !! "client_secret" = None
      else
        headers !! "Authorization" = None /\
        payload !! "client_id" = Some client_id /\
        payload !! "client_secret" = Some client_secret
  end.
Proof. apply prepare_token_request_spec. Qed.

(** The settings of an integration that takes the client credentials in the
    [Authorization] header. *)
Definition cfg_header : OAuth2Service.IntegrationConfig :=
  OAuth2Service.mkIntegrationConfig "dropbox" oauth2_with_refresh
    "https://api.dropboxapi.com/oauth2/token" "application/x-www-form-urlencoded"
    "header" (PyStr "cfg-id") (PyStr "cfg-secret").

(** A client secret with a character outside ASCII (code 233). *)
Definition secret_latin1 : pyval :=
  PyStr (String (ascii_of_N 233) "secret").

Lemma token_request_credentials_in_one_place_witness :
  (exists headers payload,
      OAuth2Service._prepare_token_request id cfg_asana (PyStr "R1")
        (PyStr "cfg-id") (PyStr "cfg-secret") = Return (headers, payload) /\
      headers !! "Authorization" = None /\
      payload !! "client_id" = Some (PyStr "cfg-id") /\
      payload !! "client_secret" = Some (PyStr "cfg-secret")) /\
  (exists headers payload,
      OAuth2Service._prepare_token_request id cfg_header (PyStr "R1")
        (PyStr "cfg-id") (PyStr "cfg-secret") = Return (headers, payload) /\
      headers !! "Authorization" = Some "Basic cfg-id:cfg-secret" /\
      payload !! "client_id" = None) /\
  OAuth2Service._prepare_token_request id cfg_header (PyStr "R1")
    (PyStr "cfg-id") secret_latin1 = Raise UnicodeEncodeError.
Proof.
  split; [|split].
  - pose proof (token_request_credentials_in_one_place id cfg_asana (PyStr "R1")
                  (PyStr "cfg-id") (PyStr "cfg-secret")) as H. cbv zeta in H.
    destruct (OAuth2Service._prepare_token_request id cfg_asana (PyStr "R1")
                (PyStr "cfg-id") (PyStr "cfg-secret")) as [[headers payload]|e] eqn:Hp;
      [|vm_compute in Hp; discriminate].
    change (String.eqb (OAuth2Service.client_credential_location cfg_asana) "header")
      with false in H.
    destruct H as (_ & _ & _ & _ & Hauth & Hid & Hsecret).
    exists headers, payload. auto.
  - pose proof (token_request_credentials_in_one_place id cfg_header (PyStr "R1")
                  (PyStr "cfg-id") (PyStr "cfg-secret")) as H. cbv zeta in H.
    destruct (OAuth2Service._prepare_token_request id cfg_header (PyStr "R1")
                (PyStr "cfg-id") (PyStr "cfg-secret")) as [[headers payload]|e] eqn:Hp;
      [|vm_compute in Hp; discriminate].
    change (String.eqb (OAuth2Service.client_credential_location cfg_header) "header")
      with true in H.
    destruct H as (_ & _ & _ & _ & _ & Hauth & Hid & _).
    exists headers, payload. auto.
  - pose proof (token_request_credentials_in_one_place id cfg_header (PyStr "R1")
                  (PyStr "cfg-id") secret_latin1) as H. cbv zeta in H.
    destruct (OAuth2Service._prepare_token_request id cfg_header (PyStr "R1")
                (PyStr "cfg-id") secret_latin1) as [[headers payload]|e] eqn:Hp;
      [vm_compute in Hp; discriminate|].
    destruct H as [(-> & _)|(_ & Hnone & _)]; [reflexivity|discriminate Hnone].
Defined.

(** X9. When the token endpoint answers every request with a status outside
    2xx, a refresh that has a refresh token and settings raises the status
    error for that status, even when the body of the answer carries tokens
    and the integration rotates its refresh tokens.  The one exception is an
    integration that takes the client credentials in the header while the
    client id or secret in force holds a character outside ASCII: there the
    refresh raises [UnicodeEncodeError] while preparing the request.  Either
    way nothing is stored. *)
Theorem refresh_rejects_error_status
    (b64encode : string -> string) (cipher : Type)
    (encrypt : dict -> cipher) (decrypt : cipher -> dict)
    (settings : gmap string OAuth2Service.IntegrationConfig)
    (post : OAuth2Service.TokenRequest -> OAuth2Service.http_result)
    (db : OAuth2Service.Db cipher) (name : string) (connection_id : N)
    (dc : dict) (wl : option OAuth2Service.WhiteLabel)
    (cfg : OAuth2Service.IntegrationConfig) (status_code : Z) (json : dict) :
  truthy (dict_get dc "refresh_token" PyNone) = true ->
  settings !! name = Some cfg ->
  (forall req, post req = OAuth2Service.HttpResponse status_code json) ->
  (status_code < 200 \/ 300 <= status_code)%Z ->
  let client := OAuth2Service.refresh_client_credentials cfg name dc wl in
  let credentials := py_str (fst client) +:+ ":" +:+ py_str (snd client) in
  OAuth2Service.refresh_access_token b64encode cipher encrypt decrypt
    settings post db name connection_id dc wl
  = (Raise (if String.eqb (OAuth2Service.client_credential_location cfg) "header"
               && negb (isascii credentials)
            then UnicodeEncodeError
            else HTTPStatusError status_code),
     db).
Proof.
  intros Hrt Hcfg Hpost Hstatus. cbv zeta.
  pose proof (get_refresh_token_present dc Hrt) as Hget.
  destruct (get_refresh_token_string _ _ Hget) as [rt Hstr].
  rewrite (refresh_access_token_request b64encode encrypt decrypt _ _ _ _ _ _ _ _ _
             Hget Hcfg).
  rewrite Hstr, prepare_token_request_string.
  assert (Hmake : forall headers payload,
             OAuth2Service._make_token_request post (OAuth2Service.backend_url cfg)
               headers payload = Raise (HTTPStatusError status_code)).
  { intros headers payload. unfold OAuth2Service._make_token_request. rewrite Hpost.
    destruct (Z.leb_spec 200 status_code), (Z.ltb_spec status_code 300);
      cbn; try reflexivity; lia. }
  destruct (String.eqb (OAuth2Service.client_credential_location cfg) "header");
    [destruct (isascii _)|]; cbn [andb negb]; rewrite ?Hmake; reflexivity.
Qed.

Lemma refresh_rejects_error_status_witness :
  OAuth2Service.refresh_access_token id dict id id {[ "asana" := cfg_asana ]}
    (fun _ => OAuth2Service.HttpResponse 500
                (<["refresh_token" := PyStr "R2"]> {[ "access_token" := PyStr "A2" ]}))
    db_asana "asana" 1 {[ "refresh_token" := PyStr "R1" ]} None
  = (Raise (HTTPStatusError 500), db_asana).
Proof.
  apply (refresh_rejects_error_status id dict id id {[ "asana" := cfg_asana ]} _
           db_asana "asana" 1 {[ "refresh_token" := PyStr "R1" ]} None cfg_asana 500
           (<["refresh_token" := PyStr "R2"]> {[ "access_token" := PyStr "A2" ]})).
  - vm_compute. reflexivity.
  - vm_compute. reflexivity.
  - intros req. reflexivity.
  - right. lia.
Defined.

(** X10. With a cipher that decrypts what it encrypts, a successful refresh of
    a rotating integration changes one thing in the store: the credential of
    the connection decrypts to its former content with ["refresh_token"]
    replaced by the one just issued.  Every other key of that credential (the
    stored access token among them), every other credential and every
    connection are as before. *)
Theorem rotation_replaces_only_the_refresh_token
    (b64encode : string -> string) (cipher : Type)
    (encrypt : dict -> cipher) (decrypt : cipher -> dict)
    (settings : gmap string OAuth2Service.IntegrationConfig)
    (post : OAuth2Service.TokenRequest -> OAuth2Service.http_result)
    (db db' : OAuth2Service.Db cipher) (name : string) (connection_id : N)
    (dc : dict) (wl : option OAuth2Service.WhiteLabel)
    (cfg : OAuth2Service.IntegrationConfig)
    (resp : OAuth2Service.OAuth2TokenResponse) :
  (forall d, decrypt (encrypt d) = d) ->
  settings !! name = Some cfg ->
  OAuth2Service.auth_type cfg = oauth2_with_refresh_rotating ->
  OAuth2Service.refresh_access_token b64encode cipher encrypt decrypt
    settings post db name connection_id dc wl = (Return resp, db') ->
  exists connection credential credential',
    OAuth2Service.connections cipher db !! connection_id = Some connection /\
    let cred_id := OAuth2Service.integration_credential_id connection in
    OAuth2Service.integration_credentials cipher db !! cred_id = Some credential /\
    OAuth2Service.integration_credentials cipher db' !! cred_id = Some credential' /\
    decrypt (OAuth2Service.encrypted_credentials cipher credential')
      !! "refresh_token" = Some (OAuth2Service.refresh_token resp) /\
    (forall k, k <> "refresh_token" ->
       decrypt (OAuth2Service.encrypted_credentials cipher credential') !! k
       = decrypt (OAuth2Service.encrypted_credentials cipher credential) !! k) /\
    (forall other, other <> cred_id ->
       OAuth2Service.integration_credentials cipher db' !! other
       = OAuth2Service.integration_credentials cipher db !! other) /\
    OAuth2Service.connections cipher db' = OAuth2Service.connections cipher db.
Proof.
  intros Hround Hcfg Hrot H.
  destruct (refresh_access_token_cases b64encode encrypt decrypt
              settings post db name connection_id dc wl)
    as [[e He]|(cfg' & json & Hcfg' & Hr)]; cbv zeta in *; [congruence|].
  assert (cfg' = cfg) as -> by congruence.
  rewrite Hr in H.
  destruct (handle_token_response_rotating encrypt decrypt _ _ _ _ _ _ Hrot H)
    as (c & ic & Hc & Hic & ->).
  exists c, ic, (OAuth2Service.mkIntegrationCredential cipher
                   (encrypt (<["refresh_token" := OAuth2Service.refresh_token resp]>
                               (decrypt (OAuth2Service.encrypted_credentials cipher ic))))).
  cbn. split; [exact Hc|]. split; [exact Hic|].
  split; [apply lookup_insert_eq|]. rewrite Hround.
  split; [apply lookup_insert_eq|].
  split; [intros k Hk; now apply lookup_insert_ne|].
  split; [intros other Ho; now apply lookup_insert_ne|reflexivity].
Qed.

Lemma rotation_replaces_only_the_refresh_token_witness :
  exists credential',
    OAuth2Service.integration_credentials dict
      (snd (OAuth2Service.refresh_access_token id dict id id {[ "asana" := cfg_asana ]}
              post_ok db_asana "asana" 1 {[ "refresh_token" := PyStr "R1" ]} None))
      !! 5%N = Some credential' /\
    OAuth2Service.encrypted_credentials dict credential' !! "refresh_token"
      = Some (PyStr "R2") /\
    OAuth2Service.encrypted_credentials dict credential' !! "access_token"
      = Some (PyStr "A1").
Proof.
  assert (Hs : ({[ "asana" := cfg_asana ]} : gmap string _) !! "asana" = Some cfg_asana)
    by (vm_compute; reflexivity).
  destruct (rotation_replaces_only_the_refresh_token id dict id id
              {[ "asana" := cfg_asana ]} post_ok db_asana
              (snd (OAuth2Service.refresh_access_token id dict id id
                      {[ "asana" := cfg_asana ]} post_ok db_asana "asana" 1
                      {[ "refresh_token" := PyStr "R1" ]} None))
              "asana" 1 {[ "refresh_token" := PyStr "R1" ]} None cfg_asana
              (OAuth2Service.mkOAuth2TokenResponse "A2" (PyStr "R2"))
              (fun d => eq_refl) Hs eq_refl)
    as (c & ic & ic' & Hc & Hic & Hic' & Hrt & Hother & _).
  - vm_compute. reflexivity.
  - assert (c = OAuth2Service.mkConnection 5) as ->
      by (vm_compute in Hc; congruence).
    assert (ic = OAuth2Service.mkIntegrationCredential dict
                   (<["access_token" := PyStr "A1"]> {[ "refresh_token" := PyStr "R1" ]}))
      as -> by (vm_compute in Hic; vm_compute; congruence).
    exists ic'. split; [exact Hic'|]. split; [exact Hrt|].
    rewrite Hother by discriminate. vm_compute. reflexivity.
Defined.

(** X11. A white label made for the integration being refreshed takes the
    place of every stored client credential.  The client id and secret in
    force are the white label's; the request that is prepared and posted to
    the integration's token endpoint is the one built from them, so it
    carries the white label's id and secret (in the body, or encoded in the
    [Authorization] header), and the refresh is what the endpoint's answer to
    that request makes it; two decrypted credentials with the same refresh
    token give the same refresh, whatever client id and secret they hold.  A
    white label made for another source is ignored. *)
Theorem white_label_overrides_stored_client
    (b64encode : string -> string) (cipher : Type)
    (encrypt : dict -> cipher) (decrypt : cipher -> dict)
    (settings : gmap string OAuth2Service.IntegrationConfig)
    (post : OAuth2Service.TokenRequest -> OAuth2Service.http_result)
    (db : OAuth2Service.Db cipher) (name : string) (connection_id : N)
    (dc dc' : dict) (wl : OAuth2Service.WhiteLabel) :
  (OAuth2Service.source_short_name wl = name ->
   (forall cfg,
      OAuth2Service.refresh_client_credentials cfg name dc (Some wl)
      = (OAuth2Service.wl_client_id wl, OAuth2Service.wl_client_secret wl)) /\
   (forall cfg rt headers payload,
      OAuth2Service._get_refresh_token dc = Return rt ->
      settings !! name = Some cfg ->
      OAuth2Service._prepare_token_request b64encode cfg rt
        (OAuth2Service.wl_client_id wl) (OAuth2Service.wl_client_secret wl)
      = Return (headers, payload) ->
      (if String.eqb (OAuth2Service.client_credential_location cfg) "header" then
         headers !! "Authorization"
         = Some ("Basic " +:+ b64encode (py_str (OAuth2Service.wl_client_id wl) +:+ ":"
                                         +:+ py_str (OAuth2Service.wl_client_secret wl)))
       else
         payload !! "client_id" = Some (OAuth2Service.wl_client_id wl) /\
         payload !! "client_secret" = Some (OAuth2Service.wl_client_secret wl)) /\
      OAuth2Service.refresh_access_token b64encode cipher encrypt decrypt
        settings post db name connection_id dc (Some wl)
      = match post (OAuth2Service.mkTokenRequest (OAuth2Service.backend_url cfg)
                      headers payload) with
        | OAuth2Service.HttpError msg => (Raise (Exception msg), db)
        | OAuth2Service.HttpResponse status_code json =>
            if ((200 <=? status_code) && (status_code <? 300))%Z
            then OAuth2Service._handle_token_response cipher encrypt decrypt db json
                   cfg connection_id
            else (Raise (HTTPStatusError status_code), db)
        end) /\
   (dict_get dc "refresh_token" PyNone = dict_get dc' "refresh_token" PyNone ->
    OAuth2Service.refresh_access_token b64encode cipher encrypt decrypt
      settings post db name connection_id dc (Some wl)
    = OAuth2Service.refresh_access_token b64encode cipher encrypt decrypt
        settings post db name connection_id dc' (Some wl))) /\
  (OAuth2Service.source_short_name wl <> name ->
   OAuth2Service.refresh_access_token b64encode cipher encrypt decrypt
     settings post db name connection_id dc (Some wl)
   = OAuth2Service.refresh_access_token b64encode cipher encrypt decrypt
       settings post db name connection_id dc None).
Proof.
  assert (Hforce : OAuth2Service.source_short_name wl = name ->
                   forall cfg d,
                     OAuth2Service.refresh_client_credentials cfg name d (Some wl)
                     = (OAuth2Service.wl_client_id wl, OAuth2Service.wl_client_secret wl)).
  { intros Hwl cfg d. unfold OAuth2Service.refresh_client_credentials.
    destruct (OAuth2Service._get_client_credentials cfg None (Some d)) as [c1 s1].
    destruct (String.eqb_spec (OAuth2Service.source_short_name wl) name);
      [reflexivity|contradiction]. }
  split.
  - intros Hwl. split; [intros cfg; now apply Hforce|]. split.
    + intros cfg rt headers payload Hrt Hcfg Hprep.
      split.
      * pose proof (prepare_token_request_spec b64encode cfg rt
                      (OAuth2Service.wl_client_id wl)
                      (OAuth2Service.wl_client_secret wl)) as Hspec.
        cbv zeta in Hspec. rewrite Hprep in Hspec.
        destruct Hspec as (_ & _ & _ & _ & Hplace).
        destruct (String.eqb (OAuth2Service.client_credential_location cfg) "header").
        -- now destruct Hplace as (_ & Hauth & _).
        -- now destruct Hplace as (_ & Hid & Hsecret).
      * rewrite (refresh_access_token_request b64encode encrypt decrypt _ _ _ _ _ _ _
                   _ _ Hrt Hcfg).
        rewrite (Hforce Hwl cfg dc). cbn [fst snd]. rewrite Hprep.
        unfold OAuth2Service._make_token_request.
        destruct (post _) as [msg|status_code json]; [reflexivity|].
        destruct ((200 <=? status_code) && (status_code <? 300))%Z; reflexivity.
    + intros Hrt. unfold OAuth2Service.refresh_access_token,
        OAuth2Service._get_refresh_token. rewrite Hrt.
      destruct (negb (truthy (dict_get dc' "refresh_token" PyNone))); [reflexivity|].
      destruct (OAuth2Service._get_integration_config settings name) as [cfg|e];
        [|reflexivity].
      rewrite (Hforce Hwl cfg dc), (Hforce Hwl cfg dc'). reflexivity.
  - intros Hwl. unfold OAuth2Service.refresh_access_token.
    destruct (OAuth2Service._get_refresh_token dc) as [rt|e]; [|reflexivity].
    destruct (OAuth2Service._get_integration_config settings name) as [cfg|e];
      [|reflexivity].
    unfold OAuth2Service.refresh_client_credentials.
    destruct (OAuth2Service._get_client_credentials cfg None (Some dc)) as [c1 s1].
    destruct (String.eqb_spec (OAuth2Service.source_short_name wl) name);
      [contradiction|reflexivity].
Qed.

(** A token endpoint that accepts the white label's client only. *)
Definition post_white_label (request : OAuth2Service.TokenRequest)
  : OAuth2Service.http_result :=
  if bool_decide (OAuth2Service.payload request !! "client_id" = Some (PyStr "wl-id"))
  then OAuth2Service.HttpResponse 200
         (<["refresh_token" := PyStr "R2"]> {[ "access_token" := PyStr "A2" ]})
  else OAuth2Service.HttpResponse 401 {[ "error" := PyStr "invalid_client" ]}.

Lemma white_label_overrides_stored_client_witness :
  let wl := OAuth2Service.mkWhiteLabel "asana" (PyStr "wl-id") (PyStr "wl-secret") in
  let stored :=
    <["client_id" := PyStr "stored-id"]> {[ "refresh_token" := PyStr "R1" ]} in
  fst (OAuth2Service.refresh_access_token id dict id id {[ "asana" := cfg_asana ]}
         post_white_label db_asana "asana" 1 stored (Some wl))
  = Return (OAuth2Service.mkOAuth2TokenResponse "A2" (PyStr "R2")) /\
  fst (OAuth2Service.refresh_access_token id dict id id {[ "asana" := cfg_asana ]}
         post_white_label db_asana "asana" 1 stored None)
  = Raise (HTTPStatusError 401).
Proof.
  cbv zeta.
  destruct (white_label_overrides_stored_client id dict id id
              {[ "asana" := cfg_asana ]} post_white_label db_asana "asana" 1
              (<["client_id" := PyStr "stored-id"]> {[ "refresh_token" := PyStr "R1" ]})
              {[ "refresh_token" := PyStr "R1" ]}
              (OAuth2Service.mkWhiteLabel "asana" (PyStr "wl-id") (PyStr "wl-secret")))
    as [Hmatch _].
  destruct (Hmatch eq_refl) as (_ & Hsent & _).
  split.
  - destruct (Hsent cfg_asana (PyStr "R1")
                {[ "Content-Type" := "application/x-www-form-urlencoded" ]}
                (<["client_secret" := PyStr "wl-secret"]>
                   (<["client_id" := PyStr "wl-id"]>
                      (<["refresh_token" := PyStr "R1"]>
                         {[ "grant_type" := PyStr "refresh_token" ]}))))
      as [_ Hrun]; [vm_compute; reflexivity..|].
    rewrite Hrun. vm_compute. reflexivity.
  - vm_compute. reflexivity.
Defined.

(** ** File names and the temporary directory *)

Section SafeNames.
Import FileManager.

Definition blank : ascii := " "%char.

Lemma list_ascii_of_string_app (s t : string) :
  list_ascii_of_string (s +:+ t) = list_ascii_of_string s ++ list_ascii_of_string t.
Proof. induction s as [|c s IH]; simpl; [reflexivity|now rewrite IH]. Qed.

(** [strip_left] removes a run of blanks and stops at the first other
    character. *)
Lemma strip_left_split (l : list ascii) :
  exists n, l = repeat blank n ++ strip_left l.
Proof.
  induction l as [|c l IH]; cbn.
  - exists 0%nat. reflexivity.
  - destruct (Ascii.eqb_spec c " "%char) as [->|_].
    + destruct IH as [n Hn]. exists (S n). cbn. unfold blank in *. now rewrite <- Hn.
    + exists 0%nat. reflexivity.
Qed.

Lemma strip_left_head (l : list ascii) : head (strip_left l) <> Some blank.
Proof.
  induction l as [|c l IH]; cbn; [discriminate|].
  destruct (Ascii.eqb_spec c " "%char) as [->|Hc]; [exact IH|].
  cbn. unfold blank. congruence.
Qed.

Lemma strip_left_fixed (l : list ascii) : head l <> Some blank -> strip_left l = l.
Proof.
  destruct l as [|c l]; cbn; [reflexivity|].
  intros H. destruct (Ascii.eqb_spec c " "%char) as [->|_]; [|reflexivity].
  now contradiction H.
Qed.

Lemma head_app_nonempty {A : Type} (l1 l2 : list A) :
  l1 <> [] -> head (l1 ++ l2) = head l1.
Proof. destruct l1; [contradiction|reflexivity]. Qed.

(** What [strip] returns neither starts nor ends with a blank, and is the
    middle of what it was given. *)
Lemma strip_spec (l : list ascii) :
  head (strip l) <> Some blank /\ head (rev (strip l)) <> Some blank /\
  exists n m, l = repeat blank n ++ strip l ++ repeat blank m.
Proof.
  unfold strip. set (a := strip_left l). set (b := strip_left (rev a)).
  destruct (strip_left_split l) as [n Hn]. fold a in Hn.
  destruct (strip_left_split (rev a)) as [m Hm]. fold b in Hm.
  assert (Ha : a = rev b ++ repeat blank m).
  { rewrite <- (rev_involutive a), Hm, rev_app_distr.
    f_equal. clear. induction m as [|m IH]; [reflexivity|].
    cbn. rewrite IH. clear. induction m; cbn; [reflexivity|]. now f_equal. }
  rewrite rev_involutive. split; [|split].
  - destruct (rev b) as [|c t] eqn:Hb; [discriminate|].
    pose proof (strip_left_head l) as Hh. fold a in Hh. rewrite Ha in Hh.
    exact Hh.
  - apply strip_left_head.
  - exists n, m. now rewrite <- Ha.
Qed.

Lemma strip_fixed (l : list ascii) :
  head l <> Some blank -> head (rev l) <> Some blank -> strip l = l.
Proof.
  intros H1 H2. unfold strip.
  rewrite (strip_left_fixed l H1), (strip_left_fixed (rev l) H2).
  apply rev_involutive.
Qed.

Lemma Forall_strip (P : ascii -> Prop) (l : list ascii) :
  Forall P l -> Forall P (strip l).
Proof.
  intros H. destruct (strip_spec l) as (_ & _ & n & m & Hl).
  rewrite Hl in H. apply Forall_app in H. destruct H as [_ H].
  apply Forall_app in H. tauto.
Qed.

Variable isalnum : ascii -> bool.

Definition allowed (c : ascii) : bool :=
  isalnum c || existsb (Ascii.eqb c) (list_ascii_of_string "._- ").

Lemma safe_filename_chars (filename : string) :
  list_ascii_of_string (_safe_filename isalnum filename)
  = strip (List.filter allowed (list_ascii_of_string filename)).
Proof. unfold _safe_filename. apply list_ascii_of_string_of_list_ascii. Qed.

Lemma filter_fixed {A : Type} (p : A -> bool) (l : list A) :
  Forall (fun x => p x = true) l -> List.filter p l = l.
Proof.
  induction 1 as [|x l Hx _ IH]; cbn; [reflexivity|]. now rewrite Hx, IH.
Qed.

Lemma Forall_filter_true {A : Type} (p : A -> bool) (l : list A) :
  Forall (fun x => p x = true) (List.filter p l).
Proof.
  apply List.Forall_forall. intros x Hx. apply List.filter_In in Hx. tauto.
Qed.

Lemma safe_filename_allowed (filename : string) :
  Forall (fun c => allowed c = true)
         (list_ascii_of_string (_safe_filename isalnum filename)).
Proof. rewrite safe_filename_chars. apply Forall_strip, Forall_filter_true. Qed.

End SafeNames.

(** X12. [_safe_filename] keeps only alphanumeric characters and the
    characters of ["._- "], and what it returns neither starts nor ends with a
    blank; sanitising a name twice gives what sanitising it once gives. *)
Theorem safe_filename_sanitises (isalnum : ascii -> bool) (filename : string) :
  let safe := FileManager._safe_filename isalnum filename in
  Forall (fun c => allowed isalnum c = true) (list_ascii_of_string safe) /\
  head (list_ascii_of_string safe) <> Some blank /\
  last (list_ascii_of_string safe) <> Some blank /\
  FileManager._safe_filename isalnum safe = safe.
Proof.
  cbv zeta. rewrite safe_filename_chars.
  set (f := List.filter (allowed isalnum) (list_ascii_of_string filename)).
  assert (Hf : Forall (fun c => allowed isalnum c = true) (FileManager.strip f))
    by (apply Forall_strip, Forall_filter_true).
  destruct (strip_spec f) as (Hh & Hl & _).
  split; [exact Hf|]. split; [exact Hh|]. split.
  - rewrite <- head_reverse. unfold reverse. rewrite <- rev_alt. exact Hl.
  - unfold FileManager._safe_filename at 1. fold (allowed isalnum).
    rewrite safe_filename_chars. fold f.
    rewrite (filter_fixed _ _ Hf), (strip_fixed _ Hh Hl).
    unfold FileManager._safe_filename. reflexivity.
Qed.

Section TempPaths.
Import Uuid.

Lemma hex_char_not_slash (d : N) : hex_char d <> "/"%char.
Proof.
  unfold hex_char.
  destruct d as [|p]; [discriminate|].
  do 4 (destruct p as [p|p|]; try discriminate).
Qed.

Lemma str_chars_no_slash (u : UUID) : Forall (fun c => c <> "/"%char) (str_chars u).
Proof.
  assert (Hh : Forall (fun c => c <> "/"%char) (hex u)).
  { unfold hex. apply Forall_map. apply List.Forall_forall. intros d _.
    apply hex_char_not_slash. }
  unfold str_chars.
  repeat first [ apply Forall_app; split
               | apply Forall_cons; split; [discriminate|]
               | apply Forall_take | apply Forall_drop | exact Hh ].
Qed.

End TempPaths.

(** [str.isalnum] on the ASCII characters. *)
Definition ascii_isalnum (c : ascii) : bool :=
  let n := N_of_ascii c in
  ((48 <=? n) && (n <=? 57) || (65 <=? n) && (n <=? 90) || (97 <=? n) && (n <=? 122))%N.

(** X13. As long as ["/"] does not count as alphanumeric, the temporary file
    of an entity is a direct child of ["/tmp/airweave"], whatever the entity
    is called: its path is the directory, one separator, and a leaf that
    begins with the drawn UUID and contains no separator. *)
Theorem temp_path_stays_in_temp_dir
    (isalnum : ascii -> bool) (file_uuid : Uuid.UUID) (filename : string) :
  isalnum "/"%char = false ->
  exists leaf,
    FileManager.temp_path_of isalnum file_uuid filename = "/tmp/airweave/" +:+ leaf /\
    leaf = Uuid.str file_uuid +:+ "-" +:+ FileManager._safe_filename isalnum filename /\
    ~ In "/"%char (list_ascii_of_string leaf).
Proof.
  intros Hslash. eexists. split; [reflexivity|]. split; [reflexivity|].
  rewrite !list_ascii_of_string_app. unfold Uuid.str.
  rewrite list_ascii_of_string_of_list_ascii. intros Hin.
  apply in_app_or in Hin. destruct Hin as [Hin|Hin].
  - pose proof (str_chars_no_slash file_uuid) as Hu.
    rewrite List.Forall_forall in Hu. now apply (Hu _ Hin).
  - apply in_app_or in Hin. destruct Hin as [[Hin|[]]|Hin]; [discriminate|].
    pose proof (safe_filename_allowed isalnum filename) as Ha.
    rewrite List.Forall_forall in Ha. specialize (Ha _ Hin).
    unfold allowed in Ha. rewrite Hslash in Ha. discriminate.
Qed.

Lemma temp_path_stays_in_temp_dir_witness :
  FileManager.temp_path_of ascii_isalnum uuid_1 "../../etc/passwd"
  = "/tmp/airweave/00000000-0000-0000-0000-000000000001-....etcpasswd".
Proof.
  destruct (temp_path_stays_in_temp_dir ascii_isalnum uuid_1 "../../etc/passwd"
              eq_refl) as (leaf & Hp & Hl & _).
  rewrite Hp, Hl. vm_compute. reflexivity.
Defined.

(** ** [handle_file_entity]: other files and failing streams *)

Section FileFrame.
Import FileManager.
Local Open Scope Z_scope.
Variable temp_path : string.
Variable max_size : Z.

Lemma save_stream_other_paths (stream : list stream_item) :
  forall (size : Z) (fs fs' : filesystem) (r : save_result) (p : string),
    save_stream stream size temp_path max_size fs = (r, fs') ->
    p <> temp_path -> fs' !! p = fs !! p.
Proof.
  induction stream as [|item stream IH]; intros size fs fs' r p; cbn [save_stream].
  - now intros [= _ <-].
  - destruct item as [chunk|e]; [|now intros [= _ <-]].
    destruct (_ >? _); [now intros [= _ <-]|].
    intros H Hp. rewrite (IH _ _ _ _ _ H Hp). now apply lookup_alter_ne.
Qed.

(** A stream that raises within the limit stops the loop with its exception,
    the chunks before it written to the file. *)
Lemma save_stream_raises (chunks : list (list Byte.byte)) (e : exn)
    (rest : list stream_item) :
  forall (size : Z) (content : list Byte.byte) (fs : filesystem),
    fs !! temp_path = Some content ->
    size + total_bytes chunks <= max_size ->
    exists fs',
      save_stream (map Chunk chunks ++ StreamError e :: rest) size temp_path max_size fs
      = (Failed e, fs') /\
      fs' !! temp_path = Some (content ++ concat chunks).
Proof.
  induction chunks as [|c chunks IH]; intros size content fs Hfs Hle;
    cbn [map app save_stream].
  - eexists. split; [reflexivity|]. cbn. now rewrite app_nil_r.
  - rewrite total_bytes_cons in Hle. pose proof (total_bytes_nonneg chunks).
    destruct (Z.gtb_spec (size + Z.of_nat (length c)) max_size) as [?|_]; [lia|].
    destruct (IH (size + Z.of_nat (length c)) (content ++ c)
                (alter (fun content => content ++ c) temp_path fs))
      as (fs' & Hs & Hl).
    + rewrite lookup_alter_eq, Hfs. reflexivity.
    + lia.
    + exists fs'. split; [exact Hs|]. rewrite Hl. cbn. now rewrite <- app_assoc.
Qed.

(** The handler removes the file it is given, or nothing. *)
Lemma on_error_other_paths (e : exn) (fs : filesystem) (p : string) :
  p <> temp_path -> snd (on_error e temp_path fs) !! p = fs !! p.
Proof.
  intros Hp. unfold on_error. destruct (is_Exception e); cbn [snd]; [|reflexivity].
  now apply lookup_delete_ne.
Qed.

End FileFrame.

(** X14. Whatever the stream yields and however the call ends,
    [handle_file_entity] changes no file other than its own temporary file:
    every other path holds afterwards what it held before. *)
Theorem handle_file_entity_other_files_untouched
    (isalnum : ascii -> bool) (sha256_hexdigest : list Byte.byte -> string)
    (format_gb : Z -> string) (open_error : string -> option exn)
    (fs : FileManager.filesystem) (file_uuid : Uuid.UUID)
    (stream : list FileManager.stream_item)
    (entity : FileManager.FileEntity) (max_size : Z) (p : string) :
  (forall filename,
      FileManager.name entity = Some filename ->
      p <> FileManager.temp_path_of isalnum file_uuid filename) ->
  snd (FileManager.handle_file_entity isalnum sha256_hexdigest format_gb open_error
         fs file_uuid stream entity max_size) !! p
  = fs !! p.
Proof.
  intros Hp. unfold FileManager.handle_file_entity.
  destruct (FileManager.download_url entity) as [url|]; [|reflexivity].
  destruct (String.eqb url EmptyString); [reflexivity|].
  cbn [FileManager.name].
  destruct (FileManager.name entity) as [filename|]; [|reflexivity].
  specialize (Hp filename eq_refl).
  set (tp := FileManager.temp_path_of isalnum file_uuid filename) in *.
  destruct (open_error tp) as [e|]; [now apply on_error_other_paths|].
  destruct (FileManager.save_stream stream 0 tp max_size (<[tp := []]> fs))
    as [r fs'] eqn:Hs.
  pose proof (save_stream_other_paths tp max_size stream 0 _ _ r p Hs Hp) as Hf.
  rewrite lookup_insert_ne in Hf by congruence.
  destruct r as [d|d|e].
  - destruct (fs' !! tp); exact Hf.
  - cbn [snd]. rewrite lookup_delete_ne by congruence. exact Hf.
  - rewrite on_error_other_paths by exact Hp. exact Hf.
Qed.

Lemma handle_file_entity_other_files_untouched_witness :
  snd (FileManager.handle_file_entity ascii_isalnum (fun _ => "digest")
         (fun _ => "0.0") opens {[ "/tmp/airweave/other" := [Byte.x2a] ]} uuid_1
         [FileManager.Chunk [Byte.x01; Byte.x02]; FileManager.StreamError TimeoutError]
         report_pdf 1) !! "/tmp/airweave/other"
  = Some [Byte.x2a].
Proof.
  rewrite (handle_file_entity_other_files_untouched ascii_isalnum (fun _ => "digest")
             (fun _ => "0.0") opens {[ "/tmp/airweave/other" := [Byte.x2a] ]} uuid_1
             [FileManager.Chunk [Byte.x01; Byte.x02]; FileManager.StreamError TimeoutError]
             report_pdf 1 "/tmp/airweave/other").
  - vm_compute. reflexivity.
  - intros filename [= <-]. vm_compute. discriminate.
Defined.

(** X15. When the stream of an entity with a download URL and a name, whose
    temporary file could be opened, raises before the size limit is passed,
    [handle_file_entity] raises the same exception.  If it is an [Exception],
    the handler removes the temporary file; a cancellation
    ([asyncio.CancelledError], which [except Exception] does not catch)
    leaves the partial file behind, holding the chunks written so far. *)
Theorem handle_file_entity_stream_error_cleans_up
    (isalnum : ascii -> bool) (sha256_hexdigest : list Byte.byte -> string)
    (format_gb : Z -> string) (open_error : string -> option exn)
    (fs : FileManager.filesystem) (file_uuid : Uuid.UUID)
    (chunks : list (list Byte.byte)) (e : exn) (rest : list FileManager.stream_item)
    (entity : FileManager.FileEntity) (max_size : Z) (url filename : string) :
  FileManager.download_url entity = Some url -> url <> EmptyString ->
  FileManager.name entity = Some filename ->
  let temp_path := FileManager.temp_path_of isalnum file_uuid filename in
  open_error temp_path = None ->
  (total_bytes chunks <= max_size)%Z ->
  exists fs',
    FileManager.handle_file_entity isalnum sha256_hexdigest format_gb open_error
      fs file_uuid
      (map FileManager.Chunk chunks ++ FileManager.StreamError e :: rest)
      entity max_size
    = (Raise e, fs') /\
    fs' !! temp_path = if is_Exception e then None else Some (concat chunks).
Proof.
  intros Hurl Hne Hname temp_path Hopen Hle.
  unfold FileManager.handle_file_entity. rewrite Hurl.
  destruct (String.eqb_spec url EmptyString) as [->|_]; [contradiction|].
  cbn [FileManager.name]. rewrite Hname. fold temp_path. rewrite Hopen.
  destruct (save_stream_raises temp_path max_size chunks e rest 0 []
              (<[temp_path := []]> fs)) as (fs' & Hs & Hl);
    [apply lookup_insert_eq | lia |].
  rewrite Hs. unfold FileManager.on_error.
  destruct (is_Exception e); eexists; (split; [reflexivity|]).
  - apply lookup_delete_eq.
  - exact Hl.
Qed.

Lemma handle_file_entity_stream_error_cleans_up_witness :
  let temp_path := FileManager.temp_path_of ascii_isalnum uuid_1 "report.pdf" in
  let run (e : exn) :=
    FileManager.handle_file_entity ascii_isalnum (fun _ => "digest") (fun _ => "0.0")
      opens ∅ uuid_1
      [FileManager.Chunk [Byte.x01; Byte.x02]; FileManager.StreamError e]
      report_pdf 10 in
  (exists fs', run TimeoutError = (Raise TimeoutError, fs') /\ fs' !! temp_path = None) /\
  (exists fs',
      run CancelledError = (Raise CancelledError, fs') /\
      fs' !! temp_path = Some [Byte.x01; Byte.x02]).
Proof.
  cbv zeta. split.
  - apply (handle_file_entity_stream_error_cleans_up ascii_isalnum (fun _ => "digest")
             (fun _ => "0.0") opens ∅ uuid_1 [[Byte.x01; Byte.x02]] TimeoutError []
             report_pdf 10 "https://files.example/report.pdf" "report.pdf").
    + reflexivity.
    + discriminate.
    + reflexivity.
    + reflexivity.
    + vm_compute. discriminate.
  - apply (handle_file_entity_stream_error_cleans_up ascii_isalnum (fun _ => "digest")
             (fun _ => "0.0") opens ∅ uuid_1 [[Byte.x01; Byte.x02]] CancelledError []
             report_pdf 10 "https://files.example/report.pdf" "report.pdf").
    + reflexivity.
    + discriminate.
    + reflexivity.
    + reflexivity.
    + vm_compute. discriminate.
Defined.

(** ** Downloading: request headers and failed downloads *)

(** X16. For a URL that carries S3 presigned authentication
    (["X-Amz-Algorithm"] occurs in it) the access token is never sent: the
    request headers are the caller's, whatever the token.  For any other URL a
    non-empty token is sent as [Authorization: Bearer <token>], in place of
    any [Authorization] header of the caller, and every other header of the
    caller is kept. *)
Theorem access_token_not_sent_to_presigned_urls
    (url : string) (access_token : option string)
    (headers : option (gmap string string)) :
  let sent := FileStreaming.request_headers url access_token headers in
  (DagService.contains "X-Amz-Algorithm" url = true -> sent = default ∅ headers) /\
  (forall token,
      DagService.contains "X-Amz-Algorithm" url = false ->
      access_token = Some token -> token <> EmptyString ->
      sent !! "Authorization" = Some ("Bearer " +:+ token) /\
      forall k, k <> "Authorization" -> sent !! k = default ∅ headers !! k).
Proof.
  cbv zeta. unfold FileStreaming.request_headers. split.
  - intros ->. destruct access_token as [token|]; [|reflexivity].
    now rewrite andb_false_r.
  - intros token -> -> Hne.
    destruct (String.eqb_spec token EmptyString) as [->|_]; [contradiction|].
    cbn. split; [apply lookup_insert_eq|].
    intros k Hk. now apply lookup_insert_ne.
Qed.

Lemma access_token_not_sent_to_presigned_urls_witness :
  FileStreaming.request_headers
    "https://bucket.s3.amazonaws.com/f.pdf?X-Amz-Algorithm=AWS4-HMAC-SHA256"
    (Some "secret-token") (Some {[ "Accept" := "*/*" ]})
  = {[ "Accept" := "*/*" ]}
  /\ FileStreaming.request_headers "https://www.googleapis.com/drive/v3/files/1"
       (Some "secret-token") (Some {[ "Authorization" := "Basic abc" ]})
       !! "Authorization" = Some "Bearer secret-token".
Proof.
  split.
  - destruct (access_token_not_sent_to_presigned_urls
                "https://bucket.s3.amazonaws.com/f.pdf?X-Amz-Algorithm=AWS4-HMAC-SHA256"
                (Some "secret-token") (Some {[ "Accept" := "*/*" ]})) as [H _].
    apply H. vm_compute. reflexivity.
  - destruct (access_token_not_sent_to_presigned_urls
                "https://www.googleapis.com/drive/v3/files/1"
                (Some "secret-token") (Some {[ "Authorization" := "Basic abc" ]}))
      as [_ H].
    destruct (H "secret-token") as [H1 _].
    + vm_compute. reflexivity.
    + reflexivity.
    + discriminate.
    + exact H1.
Defined.

(** X17. For an entity with a download URL and a name whose temporary file
    could be opened: a download that fails at the HTTP level, because no
    response comes or because the status is outside 2xx, makes
    [handle_file_entity] on the streamed file raise that very error (the
    status error names the status).  No temporary file is left, unless what
    came in place of a response is a cancellation
    ([asyncio.CancelledError]): the handler does not catch it, and the
    empty temporary file stays. *)
Theorem failed_download_raises_and_cleans_up
    (isalnum : ascii -> bool) (sha256_hexdigest : list Byte.byte -> string)
    (format_gb : Z -> string) (open_error : string -> option exn)
    (get : string -> gmap string string -> FileStreaming.http_stream)
    (fs : FileManager.filesystem) (file_uuid : Uuid.UUID)
    (entity : FileManager.FileEntity) (max_size : Z)
    (url : string) (access_token : option string)
    (headers : option (gmap string string)) (download_url filename : string) :
  FileManager.download_url entity = Some download_url ->
  download_url <> EmptyString ->
  FileManager.name entity = Some filename ->
  let temp_path := FileManager.temp_path_of isalnum file_uuid filename in
  open_error temp_path = None ->
  let stream := FileStreaming.stream_file_from_url get url access_token headers in
  let run := FileManager.handle_file_entity isalnum sha256_hexdigest format_gb
               open_error fs file_uuid stream entity max_size in
  (forall e,
      get url (FileStreaming.request_headers url access_token headers)
        = FileStreaming.ConnectFailed e ->
      fst run = Raise e /\
      snd run !! temp_path = if is_Exception e then None else Some []) /\
  (forall status_code body,
      get url (FileStreaming.request_headers url access_token headers)
        = FileStreaming.Streamed status_code body ->
      (status_code < 200 \/ 300 <= status_code)%Z ->
      fst run = Raise (HTTPStatusError status_code) /\ snd run !! temp_path = None).
Proof.
  intros Hurl Hne Hname temp_path Hopen. cbv zeta.
  assert (Hfail : forall e,
             FileStreaming.stream_file_from_url get url access_token headers
               = [FileManager.StreamError e] ->
             fst (FileManager.handle_file_entity isalnum sha256_hexdigest format_gb
                    open_error fs file_uuid
                    (FileStreaming.stream_file_from_url get url access_token headers)
                    entity max_size) = Raise e /\
             snd (FileManager.handle_file_entity isalnum sha256_hexdigest format_gb
                    open_error fs file_uuid
                    (FileStreaming.stream_file_from_url get url access_token headers)
                    entity max_size)
               !! temp_path = if is_Exception e then None else Some []).
  { intros e ->. unfold FileManager.handle_file_entity. rewrite Hurl.
    destruct (String.eqb_spec download_url EmptyString) as [->|_]; [contradiction|].
    cbn [FileManager.name]. rewrite Hname. fold temp_path. rewrite Hopen.
    cbn [FileManager.save_stream]. unfold FileManager.on_error.
    destruct (is_Exception e); cbn [fst snd]; (split; [reflexivity|]).
    - apply lookup_delete_eq.
    - apply lookup_insert_eq. }
  split.
  - intros e Hg. apply Hfail. unfold FileStreaming.stream_file_from_url.
    now rewrite Hg.
  - intros status_code body Hg Hs.
    apply (Hfail (HTTPStatusError status_code)).
    unfold FileStreaming.stream_file_from_url. rewrite Hg.
    destruct (Z.leb_spec 200 status_code), (Z.ltb_spec status_code 300);
      cbn; try reflexivity; lia.
Qed.

Lemma failed_download_raises_and_cleans_up_witness :
  FileManager.handle_file_entity ascii_isalnum (fun _ => "digest") (fun _ => "0.0")
    opens ∅ uuid_1
    (FileStreaming.stream_file_from_url
       (fun _ _ => FileStreaming.Streamed 404 [FileManager.Chunk [Byte.x01]])
       "https://files.example/report.pdf" None None)
    report_pdf 10
  = (Raise (HTTPStatusError 404), ∅).
Proof.
  destruct (failed_download_raises_and_cleans_up ascii_isalnum (fun _ => "digest")
              (fun _ => "0.0") opens
              (fun _ _ => FileStreaming.Streamed 404 [FileManager.Chunk [Byte.x01]])
              ∅ uuid_1 report_pdf 10 "https://files.example/report.pdf" None None
              "https://files.example/report.pdf" "report.pdf" eq_refl
              ltac:(discriminate) eq_refl eq_refl)
    as [_ H].
  destruct (H 404%Z [FileManager.Chunk [Byte.x01]] eq_refl ltac:(lia)) as [H1 _].
  rewrite (surjective_pairing (FileManager.handle_file_entity _ _ _ _ _ _ _ _ _)).
  rewrite H1. f_equal; vm_compute; reflexivity.
Defined.

(** ** The factory: destinations, direct tokens, failing providers *)



(** X19. With a direct access token the source is created from that token
    alone: no stored credential is read, nothing is decrypted, no token
    provider is asked or injected, and the white label plays no part.  Two
    runs that agree on the connection, source-connection and source tables
    and on the source class give the same source. *)
Theorem direct_token_ignores_stored_credentials
    (pf pf' : SyncFactory.platform) (db db' : SyncFactory.Db) (sync : SyncFactory.Sync)
    (wl wl' : option OAuth2Service.WhiteLabel) (token : string) :
  token <> EmptyString ->
  SyncFactory.connections db = SyncFactory.connections db' ->
  SyncFactory.source_connections db = SyncFactory.source_connections db' ->
  SyncFactory.sources db = SyncFactory.sources db' ->
  (forall s, SyncFactory.get_source pf s = SyncFactory.get_source pf' s) ->
  SyncFactory._create_source_instance pf db sync wl (Some token)
    = SyncFactory._create_source_instance pf' db' sync wl' (Some token) /\
  (forall inst,
      SyncFactory._create_source_instance pf db sync wl (Some token) = Return inst ->
      SyncFactory.credentials inst = SyncFactory.CredToken token /\
      SyncFactory.token_provider inst = None).
Proof.
  intros Hne Hc Hsc Hs Hcls.
  unfold SyncFactory._create_source_instance, SyncFactory._get_source_config.
  rewrite <- Hc, <- Hsc, <- Hs.
  destruct (SyncFactory.connections db !! _) as [c|]; [|split; [reflexivity|discriminate]].
  destruct (SyncFactory.source_connections db !! _) as [o|];
    [|split; [reflexivity|discriminate]].
  destruct (SyncFactory.sources db !! _) as [s|]; [|split; [reflexivity|discriminate]].
  destruct (String.eqb_spec token EmptyString) as [->|_]; [contradiction|].
  rewrite Hcls. split; [reflexivity|]. intros inst [= <-]. split; reflexivity.
Qed.

Lemma direct_token_ignores_stored_credentials_witness :
  SyncFactory._create_source_instance factory_platform factory_db factory_sync
    None (Some "direct-token")
  = SyncFactory._create_source_instance
      (SyncFactory.mkPlatform (fun _ => ∅) (fun _ => SyncFactory.mkSourceClass true true)
         (fun _ _ => Raise ValidationError)
         (fun _ => Raise (TokenRefreshError "revoked")) None)
      (SyncFactory.mkDb (SyncFactory.connections factory_db)
         (SyncFactory.source_connections factory_db) (SyncFactory.sources factory_db)
         ∅ ∅ ∅)
      factory_sync None (Some "direct-token").
Proof.
  apply (direct_token_ignores_stored_credentials factory_platform _ factory_db _
           factory_sync None None "direct-token");
    [discriminate | reflexivity..].
Defined.

(** X20. When the source needs a token provider and the provider cannot
    produce its first token, the factory ends with the provider's exception
    (a token refresh error, say): no source, no destination and no
    orchestrator are built. *)
Theorem provider_failure_stops_the_factory
    (pf : SyncFactory.platform) (SYNC_MAX_WORKERS : N) (db : SyncFactory.Db)
    (sync : SyncFactory.Sync) (collection : SyncFactory.Collection)
    (sc : SyncFactory.SourceConnection) (workers : option N)
    (source_connection : SyncFactory.Connection) (config_fields : dict)
    (source_model : SyncFactory.Source) (cid : N)
    (credential : SyncFactory.IntegrationCredential) (e : exn) :
  SyncFactory._get_source_config db sync
    = Return (source_connection, config_fields, source_model) ->
  (SyncFactory.auth_type source_model = oauth2_with_refresh
   \/ SyncFactory.auth_type source_model = oauth2_with_refresh_rotating) ->
  SyncFactory.integration_credential_id source_connection = Some cid ->
  SyncFactory.integration_credentials db !! cid = Some credential ->
  SyncFactory.get_valid_token pf
    (SyncFactory.mkTokenProvider (SyncFactory.source_short_name source_model)
       (SyncFactory.connection_id source_connection)
       (SyncFactory.decrypt pf (SyncFactory.encrypted_credentials credential))
       (match SyncFactory.white_label_id sc with
        | Some wid => SyncFactory.white_labels db !! wid
        | None => None
        end))
    = Raise e ->
  SyncFactory.create_orchestrator pf SYNC_MAX_WORKERS db sync collection sc None workers
  = Raise e.
Proof.
  intros Hcfg Hauth Hcid Hcred Htok.
  unfold SyncFactory.create_orchestrator, SyncFactory._create_sync_context,
    SyncFactory._create_source_instance.
  rewrite Hcfg. unfold SyncFactory._create_source_with_credentials,
    SyncFactory._get_integration_credential.
  rewrite Hcid, Hcred.
  destruct (token_provider_needed source_model source_connection
              (SyncFactory.decrypt pf (SyncFactory.encrypted_credentials credential))
              (match SyncFactory.white_label_id sc with
               | Some wid => SyncFactory.white_labels db !! wid
               | None => None
               end)) as [Hyes _].
  cbv zeta in Hyes. rewrite (Hyes Hauth).
  cbn [SyncFactory._get_source_credentials]. rewrite Htok. reflexivity.
Qed.

Lemma provider_failure_stops_the_factory_witness :
  SyncFactory.create_orchestrator
    (SyncFactory.mkPlatform (fun _ => {[ "refresh_token" := PyStr "R1" ]})
       (fun _ => SyncFactory.mkSourceClass true true) (fun _ d => Return d)
       (fun _ => Raise (TokenRefreshError "No refresh token found")) None)
    100 factory_db factory_sync (SyncFactory.mkCollection 4)
    (SyncFactory.mkSourceConnection None None) None None
  = Raise (TokenRefreshError "No refresh token found").
Proof.
  apply (provider_failure_stops_the_factory _ 100 factory_db factory_sync
           (SyncFactory.mkCollection 4) (SyncFactory.mkSourceConnection None None) None
           (SyncFactory.mkConnection 1 "asana" (Some 5%N)) ∅ asana_source 5
           (SyncFactory.mkIntegrationCredential "blob")
           (TokenRefreshError "No refresh token found"));
    [vm_compute; reflexivity | left; reflexivity | reflexivity
    | vm_compute; reflexivity | reflexivity].
Defined.

(** ** The initial DAG: shape, ids and skipped definitions *)

Section InitialDagFacts.
Import DagService.

(** Definitions the loop passes over (line 56). *)
Definition skipped (entity_definition : EntityDefinition) : bool :=
  contains "Workspace" (entity_definition_name entity_definition)
  || contains "Comment" (entity_definition_name entity_definition).

(** The entity nodes the loop appends, the first id drawn being [uuid4 k]. *)
Fixpoint entity_nodes (uuid4 : nat -> N) (k : nat) (defs : list EntityDefinition)
  : list DagNodeCreate :=
  match defs with
  | [] => []
  | d :: rest =>
      if skipped d then entity_nodes uuid4 (S k) rest
      else mkDagNodeCreate (uuid4 k) entity (entity_definition_name d) None
             (Some (entity_definition_id d)) None
           :: entity_nodes uuid4 (S k) rest
  end.

Lemma add_entity_nodes_eq uuid4 source_node_id defs :
  forall k nodes edges,
    add_entity_nodes uuid4 source_node_id defs k nodes edges
    = ((k + length defs)%nat, nodes ++ entity_nodes uuid4 k defs,
       edges ++ map (fun n => mkDagEdgeCreate source_node_id (id n))
                    (entity_nodes uuid4 k defs)).
Proof.
  induction defs as [|d defs IH]; intros k nodes edges;
    cbn [add_entity_nodes entity_nodes length].
  - rewrite !app_nil_r. do 2 f_equal. lia.
  - fold (skipped d). destruct (skipped d); rewrite IH.
    + do 2 f_equal. lia.
    + cbn [map id]. rewrite <- !app_assoc. do 2 f_equal. lia.
Qed.

Lemma entity_nodes_types uuid4 defs :
  forall k, Forall (fun n => type n = entity) (entity_nodes uuid4 k defs).
Proof.
  induction defs as [|d defs IH]; intros k; cbn [entity_nodes]; [constructor|].
  destruct (skipped d); [apply IH|]. constructor; [reflexivity|apply IH].
Qed.

(** Their ids are draws number [k] and later, each draw used at most once. *)
Lemma entity_nodes_ids uuid4 defs :
  forall k, exists idxs,
    map id (entity_nodes uuid4 k defs) = map uuid4 idxs /\
    Forall (fun i => (k <= i < k + length defs)%nat) idxs /\
    List.NoDup idxs.
Proof.
  induction defs as [|d defs IH]; intros k; cbn [entity_nodes length].
  - exists []. repeat split; constructor.
  - destruct (IH (S k)) as (idxs & Hm & Hr & Hn).
    assert (Hr' : Forall (fun i => (k <= i < k + S (length defs))%nat) idxs).
    { eapply Forall_impl; [exact Hr|]. cbn. intros; lia. }
    destruct (skipped d).
    + exists idxs. auto.
    + exists (k :: idxs). cbn [map id]. split; [now rewrite Hm|].
      split; [constructor; [lia|exact Hr']|].
      constructor; [|exact Hn]. intros Hin.
      rewrite List.Forall_forall in Hr. specialize (Hr _ Hin). lia.
Qed.

Lemma entity_nodes_origin uuid4 defs :
  forall k n,
    In n (entity_nodes uuid4 k defs) ->
    exists d i, In d defs /\ skipped d = false /\
      n = mkDagNodeCreate (uuid4 i) entity (entity_definition_name d) None
            (Some (entity_definition_id d)) None.
Proof.
  induction defs as [|d defs IH]; intros k n; cbn [entity_nodes]; [intros []|].
  destruct (skipped d) eqn:Hs.
  - intros H. destruct (IH _ _ H) as (d' & i & Hd & Hsk & Hn).
    exists d', i. split; [now right|auto].
  - intros [<-|H].
    + exists d, k. split; [now left|auto].
    + destruct (IH _ _ H) as (d' & i & Hd & Hsk & Hn).
      exists d', i. split; [now right|auto].
Qed.

Lemma entity_nodes_cover uuid4 defs :
  forall k d, In d defs -> skipped d = false ->
    exists n, In n (entity_nodes uuid4 k defs) /\
      name n = entity_definition_name d /\
      node_entity_definition_id n = Some (entity_definition_id d).
Proof.
  induction defs as [|d0 defs IH]; intros k d; cbn [entity_nodes]; [intros []|].
  intros [->|Hin] Hs.
  - rewrite Hs. eexists. split; [now left|]. split; reflexivity.
  - destruct (IH (S k) d Hin Hs) as (n & Hn & H1 & H2).
    exists n. split; [|auto]. destruct (skipped d0); [exact Hn|now right].
Qed.

(** Every DAG that [create_initial_dag] returns, in full. *)
Lemma create_initial_dag_full db uuid4 sync_id d :
  create_initial_dag db uuid4 sync_id = Return d ->
  exists sync sc s dst,
    syncs db !! sync_id = Some sync /\
    connections db !! source_connection_id sync = Some sc /\
    sources db !! short_name sc = Some s /\
    let defs := get_multi_by_ids db (output_entity_definition_ids s) in
    let src := mkDagNodeCreate (uuid4 0%nat) source (source_name s)
                 (Some (connection_id sc)) None None in
    let file := mkDagNodeCreate (uuid4 (1 + length defs)%nat) entity "AsanaPDF"
                  None None (Some {[ "type" := "file" ]}) in
    let inner := entity_nodes uuid4 1 defs ++ [file] in
    type dst = destination /\ id dst = uuid4 (2 + length defs)%nat /\
    nodes d = src :: inner ++ [dst] /\
    edges d = map (fun n => mkDagEdgeCreate (id src) (id n)) inner
                ++ map (fun n => mkDagEdgeCreate (id n) (id dst)) inner.
Proof.
  unfold create_initial_dag.
  destruct (syncs db !! sync_id) as [sync|] eqn:Hsync; [|discriminate].
  destruct (connections db !! source_connection_id sync) as [sc|] eqn:Hsc;
    [|discriminate].
  destruct (sources db !! short_name sc) as [s|] eqn:Hs; [|discriminate].
  rewrite add_entity_nodes_eq.
  set (defs := get_multi_by_ids db (output_entity_definition_ids s)).
  match goal with
  | |- match ?o with Return _ => _ | Raise _ => _ end = _ -> _ =>
      destruct o as [dst|e] eqn:Hdst; [|discriminate]
  end.
  intros [= <-].
  assert (Hd : type dst = destination /\ id dst = uuid4 (2 + length defs)%nat).
  { destruct (destination_connection_id sync) as [did|].
    - destruct (connections db !! did) as [dc|]; [|discriminate].
      destruct (destinations db !! short_name dc); [|discriminate].
      injection Hdst as <-. split; reflexivity.
    - injection Hdst as <-. split; reflexivity. }
  destruct Hd as [Hty Hid].
  exists sync, sc, s, dst. cbv zeta. cbn [nodes edges].
  split; [reflexivity|]. split; [exact Hsc|]. split; [exact Hs|].
  split; [exact Hty|]. split; [exact Hid|]. split.
  - cbn. rewrite <- !app_assoc. reflexivity.
  - unfold inner_nodes. cbn [app tl]. rewrite removelast_last, Hid.
    rewrite !map_app. cbn [map app id]. rewrite <- !app_assoc. reflexivity.
Qed.

End InitialDagFacts.

Section Layered.
Import DagService.

(** A graph whose edges lead from one node [s] to the nodes [inner], and from
    those to one node [t]. *)
Variables (s t : N) (inner : list N) (E : list DagEdgeCreate).
Hypothesis edges_layered :
  forall a b, In (mkDagEdgeCreate a b) E <->
              (a = s /\ In b inner) \/ (In a inner /\ b = t).
Hypothesis s_outside : ~ In s inner.
Hypothesis t_outside : ~ In t inner.
Hypothesis s_not_t : s <> t.

Lemma layered_path a b :
  path E a b -> a = b \/ (a = s /\ (In b inner \/ b = t)) \/ (In a inner /\ b = t).
Proof.
  induction 1 as [a|a b c Hedge _ IH]; [now left|].
  apply edges_layered in Hedge. right.
  destruct Hedge as [[-> Hb]|[Ha ->]].
  - left. split; [reflexivity|].
    destruct IH as [<-|[[-> _]|[_ ->]]]; [now left|contradiction|now right].
  - right. split; [exact Ha|].
    destruct IH as [<-|[[Hts _]|[Hti _]]]; [reflexivity|congruence|contradiction].
Qed.

Lemma layered_acyclic a b : In (mkDagEdgeCreate a b) E -> ~ path E b a.
Proof.
  intros Hedge Hpath. apply edges_layered in Hedge. apply layered_path in Hpath.
  destruct Hedge as [[-> Hb]|[Ha ->]].
  - destruct Hpath as [->|[[-> _]|[_ Hst]]]; [contradiction..|congruence].
  - destruct Hpath as [->|[[Hts _]|[Hti _]]]; [contradiction|congruence|contradiction].
Qed.

End Layered.

Lemma NoDup_map_injective {A B : Type} (f : A -> B) (l : list A) :
  (forall x y, f x = f y -> x = y) -> List.NoDup l -> List.NoDup (map f l).
Proof.
  intros Hinj. induction 1 as [|x l Hx _ IH]; cbn; constructor; [|exact IH].
  intros Hin. apply in_map_iff in Hin. destruct Hin as (y & Hy & Hin).
  apply Hinj in Hy. now subst.
Qed.

(** X21. In every DAG that [create_initial_dag] returns, each edge joins two
    nodes of the DAG and leads either from the source node to an entity node
    or from an entity node to the destination node; there are twice as many
    edges as there are entity nodes, exactly one source node, exactly one
    destination node and no transformer node. *)
Theorem initial_dag_edges_well_formed
    (db : DagService.Db) (uuid4 : nat -> N) (sync_id : N)
    (d : DagService.SyncDagDefinitionCreate) :
  DagService.create_initial_dag db uuid4 sync_id = Return d ->
  (forall e, In e (DagService.edges d) ->
     exists a b,
       In a (DagService.nodes d) /\ In b (DagService.nodes d) /\
       DagService.from_node_id e = DagService.id a /\
       DagService.to_node_id e = DagService.id b /\
       ((DagService.type a = DagService.source /\ DagService.type b = DagService.entity)
        \/ (DagService.type a = DagService.entity
            /\ DagService.type b = DagService.destination))) /\
  length (DagService.edges d) = (2 * (length (DagService.nodes d) - 2))%nat /\
  length (List.filter (fun n => bool_decide (DagService.type n = DagService.source))
            (DagService.nodes d)) = 1%nat /\
  length (List.filter (fun n => bool_decide (DagService.type n = DagService.destination))
            (DagService.nodes d)) = 1%nat /\
  Forall (fun n => DagService.type n <> DagService.transformer) (DagService.nodes d).
Proof.
  intros H. apply create_initial_dag_shape in H.
  destruct H as (src & new & file & dst & Hs & Hd & Hall & Hf & _ & Hn & He).
  assert (Hinner : Forall (fun n => DagService.type n = DagService.entity) (new ++ [file])).
  { apply Forall_app. split; [exact Hall|]. constructor; [exact Hf|constructor]. }
  assert (Hnodes : DagService.nodes d = src :: (new ++ [file]) ++ [dst]).
  { rewrite Hn, <- app_assoc. reflexivity. }
  rewrite Hnodes, He. clear Hn He Hnodes.
  set (inner := new ++ [file]) in *.
  assert (Hsrc_in : In src (src :: inner ++ [dst])) by now left.
  assert (Hdst_in : In dst (src :: inner ++ [dst])).
  { right. apply in_or_app. right. now left. }
  assert (Hin_in : forall n, In n inner -> In n (src :: inner ++ [dst])).
  { intros n Hn. right. apply in_or_app. now left. }
  rewrite List.Forall_forall in Hinner.
  split; [|split; [|split; [|split]]].
  - intros e Hin. apply in_app_or in Hin. destruct Hin as [Hin|Hin];
      apply in_map_iff in Hin; destruct Hin as (n & <- & Hn).
    + exists src, n.
      split; [exact Hsrc_in|]. split; [exact (Hin_in n Hn)|]. cbn.
      split; [reflexivity|].
      split; [reflexivity|]. left. split; [exact Hs|exact (Hinner n Hn)].
    + exists n, dst.
      split; [exact (Hin_in n Hn)|]. split; [exact Hdst_in|]. cbn.
      split; [reflexivity|].
      split; [reflexivity|]. right. split; [exact (Hinner n Hn)|exact Hd].
  - rewrite length_app, !length_map. cbn [length]. rewrite length_app. cbn. lia.
  - cbn [List.filter]. rewrite Hs. cbn. rewrite List.filter_app. cbn [List.filter].
    rewrite Hd. cbn. rewrite app_nil_r.
    replace (List.filter _ inner) with (@nil DagService.DagNodeCreate); [reflexivity|].
    symmetry. clear -Hinner. induction inner as [|n inner IH]; [reflexivity|].
    cbn. rewrite (Hinner n) by now left. cbn. apply IH. intros x Hx. apply Hinner.
    now right.
  - cbn [List.filter]. rewrite Hs. cbn. rewrite List.filter_app. cbn [List.filter].
    rewrite Hd. cbn.
    replace (List.filter _ inner) with (@nil DagService.DagNodeCreate); [reflexivity|].
    symmetry. clear -Hinner. induction inner as [|n inner IH]; [reflexivity|].
    cbn. rewrite (Hinner n) by now left. cbn. apply IH. intros x Hx. apply Hinner.
    now right.
  - apply List.Forall_forall. intros n [<-|Hin]; [congruence|].
    apply in_app_or in Hin. destruct Hin as [Hin|[<-|[]]]; [|congruence].
    rewrite (Hinner n Hin). discriminate.
Qed.

Lemma initial_dag_edges_well_formed_witness :
  exists d,
    DagService.create_initial_dag dag_db N.of_nat 1 = Return d /\
    length (DagService.edges d) = 4%nat /\ length (DagService.nodes d) = 4%nat.
Proof.
  destruct (DagService.create_initial_dag dag_db N.of_nat 1) as [d|e] eqn:H;
    [|vm_compute in H; discriminate].
  destruct (initial_dag_edges_well_formed dag_db N.of_nat 1 d H) as (_ & Hlen & _).
  exists d. split; [reflexivity|].
  assert (Hn : length (DagService.nodes d) = 4%nat)
    by (vm_compute in H; injection H as <-; reflexivity).
  split; [rewrite Hlen, Hn; reflexivity|exact Hn].
Defined.

Section InitialDagIds.
Import DagService.

Lemma NoDup_ends (s t : N) (inner : list N) :
  List.NoDup (s :: inner ++ [t]) -> ~ In s inner /\ ~ In t inner /\ s <> t.
Proof.
  intros H. inversion H as [|? ? Hs Hrest]; subst.
  apply NoDup_remove in Hrest. rewrite app_nil_r in Hrest.
  destruct Hrest as [_ Ht].
  split; [|split].
  - intros Hin. apply Hs. apply in_or_app. now left.
  - exact Ht.
  - intros ->. apply Hs. apply in_or_app. right. now left.
Qed.

Lemma layered_edges (s t : N) (inner : list DagNodeCreate) a b :
  In (mkDagEdgeCreate a b)
     (map (fun n => mkDagEdgeCreate s (id n)) inner
      ++ map (fun n => mkDagEdgeCreate (id n) t) inner)
  <-> (a = s /\ In b (map id inner)) \/ (In a (map id inner) /\ b = t).
Proof.
  rewrite in_app_iff. split.
  - intros [H|H]; apply in_map_iff in H; destruct H as (n & Hn & Hin);
      injection Hn as <- <-.
    + left. split; [reflexivity|]. apply in_map_iff. now exists n.
    + right. split; [|reflexivity]. apply in_map_iff. now exists n.
  - intros [[-> Hb]|[Ha ->]].
    + apply in_map_iff in Hb. destruct Hb as (n & <- & Hin). left.
      apply in_map_iff. now exists n.
    + apply in_map_iff in Ha. destruct Ha as (n & <- & Hin). right.
      apply in_map_iff. now exists n.
Qed.

(** The ids of the nodes of a returned DAG are distinct draws of [uuid4]. *)
Lemma initial_dag_ids db uuid4 sync_id d :
  (forall i j, uuid4 i = uuid4 j -> i = j) ->
  create_initial_dag db uuid4 sync_id = Return d ->
  exists s t inner,
    List.NoDup (id s :: map id inner ++ [id t]) /\
    nodes d = s :: inner ++ [t] /\
    edges d = map (fun n => mkDagEdgeCreate (id s) (id n)) inner
                ++ map (fun n => mkDagEdgeCreate (id n) (id t)) inner.
Proof.
  intros Hinj H. apply create_initial_dag_full in H.
  destruct H as (sync & sc & s & dst & _ & _ & _ & H). cbv zeta in H.
  destruct H as (_ & Hid & Hn & He).
  set (defs := get_multi_by_ids db (output_entity_definition_ids s)) in *.
  eexists _, dst, _. split; [|split; [exact Hn|exact He]].
  destruct (entity_nodes_ids uuid4 defs 1) as (idxs & Hmap & Hrange & Hnd).
  rewrite map_app, Hmap, Hid. cbn [map id].
  replace (uuid4 0%nat :: (map uuid4 idxs ++ [uuid4 (1 + length defs)%nat])
            ++ [uuid4 (2 + length defs)%nat])
    with (map uuid4 (0%nat :: idxs ++ [(1 + length defs)%nat; (2 + length defs)%nat])).
  2:{ cbn [map]. rewrite map_app, <- app_assoc. reflexivity. }
  apply NoDup_map_injective; [exact Hinj|].
  rewrite List.Forall_forall in Hrange.
  constructor.
  - intros Hin. apply in_app_or in Hin. destruct Hin as [Hin|[Hin|[Hin|[]]]].
    + apply Hrange in Hin. lia.
    + lia.
    + lia.
  - apply List.NoDup_app; [exact Hnd| |].
    + constructor; [intros [Hin|[]]; lia|]. constructor; [intros []|constructor].
    + intros i Hi [Hin|[Hin|[]]]; apply Hrange in Hi; lia.
Qed.

End InitialDagIds.

(** X22. When the ids drawn by [uuid4] are pairwise distinct, the nodes of
    a DAG returned by [create_initial_dag] have pairwise distinct ids and
    the DAG has no cycle: no edge is followed by a path that leads back to
    the node the edge leaves. *)
Theorem initial_dag_is_acyclic
    (db : DagService.Db) (uuid4 : nat -> N) (sync_id : N)
    (d : DagService.SyncDagDefinitionCreate) :
  (forall i j, uuid4 i = uuid4 j -> i = j) ->
  DagService.create_initial_dag db uuid4 sync_id = Return d ->
  List.NoDup (map DagService.id (DagService.nodes d)) /\
  forall a b,
    In (DagService.mkDagEdgeCreate a b) (DagService.edges d) ->
    ~ path (DagService.edges d) b a.
Proof.
  intros Hinj H.
  destruct (initial_dag_ids db uuid4 sync_id d Hinj H)
    as (s & t & inner & Hnd & Hn & He).
  split.
  - rewrite Hn. cbn [map]. rewrite map_app. exact Hnd.
  - destruct (NoDup_ends _ _ _ Hnd) as (Hs & Ht & Hst).
    intros a b. rewrite He.
    apply (layered_acyclic (DagService.id s) (DagService.id t)
             (map DagService.id inner)); try assumption.
    intros x y. apply layered_edges.
Qed.

Lemma initial_dag_is_acyclic_witness :
  exists d,
    DagService.create_initial_dag dag_db N.of_nat 1 = Return d /\
    List.NoDup (map DagService.id (DagService.nodes d)) /\
    ~ path (DagService.edges d) 4 0.
Proof.
  destruct (DagService.create_initial_dag dag_db N.of_nat 1) as [d|e] eqn:H;
    [|vm_compute in H; discriminate].
  destruct (initial_dag_is_acyclic dag_db N.of_nat 1 d Nat2N.inj H) as [Hnd Hacyclic].
  exists d. split; [reflexivity|]. split; [exact Hnd|].
  apply Hacyclic. vm_compute in H. injection H as <-. cbn. right. now left.
Defined.

(** X23. The entity nodes of a returned DAG are the fake file node
    [AsanaPDF] and one node per entity definition found for the source
    whose name contains neither [Workspace] nor [Comment]: every such
    definition has a node with its name and id, and every entity node
    other than the file node carries the name and id of such a
    definition. *)
Theorem initial_dag_skips_workspace_and_comment
    (db : DagService.Db) (uuid4 : nat -> N) (sync_id : N)
    (d : DagService.SyncDagDefinitionCreate) :
  DagService.create_initial_dag db uuid4 sync_id = Return d ->
  exists sync sc s,
    DagService.syncs db !! sync_id = Some sync /\
    DagService.connections db !! DagService.source_connection_id sync = Some sc /\
    DagService.sources db !! DagService.short_name sc = Some s /\
    let defs :=
      DagService.get_multi_by_ids db (DagService.output_entity_definition_ids s) in
    (forall e, In e defs ->
       DagService.contains "Workspace" (DagService.entity_definition_name e) = false ->
       DagService.contains "Comment" (DagService.entity_definition_name e) = false ->
       exists n,
         In n (DagService.nodes d) /\ DagService.type n = DagService.entity /\
         DagService.name n = DagService.entity_definition_name e /\
         DagService.node_entity_definition_id n
         = Some (DagService.entity_definition_id e)) /\
    (forall n, In n (DagService.nodes d) -> DagService.type n = DagService.entity ->
       (DagService.name n = "AsanaPDF"
        /\ DagService.node_entity_definition_id n = None
        /\ DagService.config n = Some {[ "type" := "file" ]})
       \/ exists e,
            In e defs /\
            DagService.contains "Workspace" (DagService.entity_definition_name e) = false /\
            DagService.contains "Comment" (DagService.entity_definition_name e) = false /\
            DagService.name n = DagService.entity_definition_name e /\
            DagService.node_entity_definition_id n
            = Some (DagService.entity_definition_id e)).
Proof.
  intros H. apply create_initial_dag_full in H.
  destruct H as (sync & sc & s & dst & Hsync & Hsc & Hs & H). cbv zeta in H.
  destruct H as (Hty & _ & Hn & _).
  exists sync, sc, s. split; [exact Hsync|]. split; [exact Hsc|]. split; [exact Hs|].
  cbv zeta.
  set (defs := DagService.get_multi_by_ids db (DagService.output_entity_definition_ids s))
    in *.
  split.
  - intros e He Hw Hc.
    assert (Hsk : skipped e = false) by (unfold skipped; rewrite Hw, Hc; reflexivity).
    destruct (entity_nodes_cover uuid4 defs 1 e He Hsk) as (n & Hin & Hname & Hid).
    exists n. split.
    { rewrite Hn. right. apply in_or_app. left. apply in_or_app. now left. }
    destruct (entity_nodes_origin uuid4 defs 1 n Hin) as (e' & i & _ & _ & ->).
    split; [reflexivity|]. split; [exact Hname|exact Hid].
  - intros n Hin Hent. rewrite Hn in Hin.
    destruct Hin as [<-|Hin]; [discriminate Hent|].
    apply in_app_or in Hin. destruct Hin as [Hin|[<-|[]]]; [|congruence].
    apply in_app_or in Hin. destruct Hin as [Hin|[<-|[]]].
    + right. destruct (entity_nodes_origin uuid4 defs 1 n Hin)
        as (e & i & He & Hsk & ->).
      unfold skipped in Hsk. apply orb_false_iff in Hsk. destruct Hsk as [Hw Hc].
      exists e. split; [exact He|]. split; [exact Hw|]. split; [exact Hc|].
      split; reflexivity.
    + left. split; [reflexivity|]. split; reflexivity.
Qed.

Lemma initial_dag_skips_workspace_and_comment_witness :
  exists d,
    DagService.create_initial_dag dag_db N.of_nat 1 = Return d /\
    map DagService.name (DagService.nodes d)
    = ["Asana"; "AsanaTaskEntity"; "AsanaPDF"; "Native Weaviate"] /\
    forall n, In n (DagService.nodes d) -> DagService.type n = DagService.entity ->
      DagService.name n = "AsanaPDF"
      \/ (DagService.contains "Workspace" (DagService.name n) = false
          /\ DagService.contains "Comment" (DagService.name n) = false).
Proof.
  destruct (DagService.create_initial_dag dag_db N.of_nat 1) as [d|e] eqn:H;
    [|vm_compute in H; discriminate].
  destruct (initial_dag_skips_workspace_and_comment dag_db N.of_nat 1 d H)
    as (sync & sc & s & _ & _ & _ & _ & Hall).
  exists d. split; [reflexivity|]. split.
  - vm_compute in H. injection H as <-. reflexivity.
  - intros n Hin Hent. destruct (Hall n Hin Hent) as [(Hname & _)|(e' & _ & Hw & Hc & Hname & _)].
    + now left.
    + right. rewrite Hname. split; [exact Hw|exact Hc].
Defined.

(** ** Exchanging an authorization code *)

Section CodeExchange.
Import OAuth2Exchange.

Variable app_url : string.
Variable b64encode : string -> string.
Variable post : OAuth2Service.TokenRequest -> post_result.
Variable T : Type.
Variable init : list (string * json) -> outcome T.

(** An outcome of the body as a result of the call. *)
Definition of_outcome (o : outcome T) : result T :=
  match o with
  | Return response => Ok response
  | Raise e => Err (Raised e)
  end.

(** The keys the exchange normalises. *)
Definition token_keys : list string :=
  ["access_token"; "refresh_token"; "token_type"; "expires_in"; "scope"].

Lemma normalized_object data user k :
  obj_get "authed_user" data = JObj user ->
  normalized data k
  = Return (if json_truthy (obj_get k data) then obj_get k data else obj_get k user).
Proof.
  intros H. unfold normalized. destruct (json_truthy (obj_get k data)); [reflexivity|].
  rewrite H. destruct user; reflexivity.
Qed.

Lemma normalized_no_user data k :
  json_truthy (obj_get "authed_user" data) = false ->
  normalized data k
  = Return (if json_truthy (obj_get k data) then obj_get k data else JNull).
Proof.
  intros H. unfold normalized. destruct (json_truthy (obj_get k data)); [reflexivity|].
  rewrite H. reflexivity.
Qed.

Lemma normalized_cases data k :
  normalized data k = Raise AttributeError \/ exists v, normalized data k = Return v.
Proof.
  unfold normalized. destruct (json_truthy (obj_get k data)); [right; eauto|].
  destruct (json_truthy (obj_get "authed_user" data)); [|right; eauto].
  destruct (obj_get "authed_user" data); eauto.
Qed.

Lemma normalized_bad_user data k :
  json_truthy (obj_get "authed_user" data) = true ->
  (forall user, obj_get "authed_user" data <> JObj user) ->
  json_truthy (obj_get k data) = false ->
  normalized data k = Raise AttributeError.
Proof.
  intros Ht Hno Hk. unfold normalized. rewrite Hk, Ht.
  destruct (obj_get "authed_user" data); try reflexivity.
  now destruct (Hno fields).
Qed.

(** Building the request fails only on credentials that cannot be encoded
    for the header. *)
Lemma exchange_request_cases code redirect_uri cid csec cfg :
  let credentials := py_str cid +:+ ":" +:+ py_str csec in
  let payload : dict :=
    <["redirect_uri" := PyStr redirect_uri]>
      (<["code" := PyStr code]> {[ "grant_type" := PyStr (grant_type cfg) ]}) in
  exchange_request b64encode code redirect_uri cid csec cfg
  = if String.eqb (client_credential_location cfg) "header" then
      if isascii credentials then
        Return (OAuth2Service.mkTokenRequest (backend_url cfg)
                  (<["Authorization" := "Basic " +:+ b64encode credentials]>
                     {[ "Content-Type" := content_type cfg ]})
                  payload)
      else Raise UnicodeEncodeError
    else
      Return (OAuth2Service.mkTokenRequest (backend_url cfg)
                {[ "Content-Type" := content_type cfg ]}
                (<["client_secret" := csec]> (<["client_id" := cid]> payload))).
Proof.
  cbv zeta. unfold exchange_request, OAuth2Service._encode_client_credentials.
  destruct (String.eqb (client_credential_location cfg) "header"); [|reflexivity].
  destruct (isascii _); reflexivity.
Qed.

Lemma exchange_code_unbuilt code redirect_uri cid csec cfg e :
  exchange_request b64encode code redirect_uri cid csec cfg = Raise e ->
  _exchange_code b64encode post T init (Some tt) code redirect_uri cid csec cfg
  = (Err (Raised e), []).
Proof. intros H. unfold _exchange_code. now rewrite H. Qed.

Lemma exchange_code_sends_one_request code redirect_uri cid csec cfg request :
  exchange_request b64encode code redirect_uri cid csec cfg = Return request ->
  snd (_exchange_code b64encode post T init (Some tt) code redirect_uri cid csec cfg)
  = [request].
Proof.
  intros H. unfold _exchange_code. rewrite H.
  destruct (post _) as [msg|status_code text [data|]]; [reflexivity| |].
  - destruct ((200 <=? status_code) && (status_code <? 300))%Z; [|reflexivity].
    destruct (token_response_of _ _ _); reflexivity.
  - destruct ((200 <=? status_code) && (status_code <? 300))%Z; reflexivity.
Qed.

End CodeExchange.

(** X24. [exchange_code_for_whitelabel] never returns a token and never
    sends a request to the provider: when the integration has no settings it
    raises [NotFoundException], and otherwise its call of [_exchange_code]
    leaves out the required keyword-only argument [logger], which raises
    [TypeError] before the body runs. *)
Theorem whitelabel_exchange_always_raises
    (b64encode : string -> string)
    (post : OAuth2Service.TokenRequest -> OAuth2Exchange.post_result)
    (T : Type) (init : list (string * OAuth2Exchange.json) -> outcome T)
    (integration_settings : gmap string OAuth2Exchange.OAuth2Settings)
    (code : string) (white_label : OAuth2Exchange.WhiteLabel) :
  OAuth2Exchange.exchange_code_for_whitelabel b64encode post T init
    integration_settings code white_label
  = (OAuth2Exchange.Err
       (match integration_settings !! OAuth2Exchange.source_short_name white_label with
        | Some _ => OAuth2Exchange.TypeError "logger"
        | None =>
            OAuth2Exchange.Raised
              (NotFoundException
                 ("Integration " +:+ OAuth2Exchange.source_short_name white_label
                  +:+ " not found."))
        end),
     []).
Proof.
  unfold OAuth2Exchange.exchange_code_for_whitelabel.
  destruct (integration_settings !! OAuth2Exchange.source_short_name white_label);
    reflexivity.
Qed.

(** X25. [exchange_authorization_code_for_token] falls back on the
    configured client id and secret only when the caller gives neither.  For
    a caller who gives one of the two, the request is built from the caller's
    pair as it is, a missing half as [None].  Where the integration takes the
    credentials in the payload, exactly one request is sent, to the
    integration's token endpoint and with the callback of the source as
    redirect URI, and its payload holds the caller's pair.  Where it takes
    them in the header, the one request carries the pair encoded in the
    [Authorization] header and not in the payload, unless the pair holds a
    character outside ASCII: then the call raises [UnicodeEncodeError] and
    sends nothing. *)
Theorem partial_client_credentials_are_not_completed
    (app_url : string) (b64encode : string -> string)
    (post : OAuth2Service.TokenRequest -> OAuth2Exchange.post_result)
    (T : Type) (init : list (string * OAuth2Exchange.json) -> outcome T)
    (integration_settings : gmap string OAuth2Exchange.OAuth2Settings)
    (source_short_name code : string) (client_id client_secret : pyval)
    (oauth2_settings : OAuth2Exchange.OAuth2Settings) :
  integration_settings !! source_short_name = Some oauth2_settings ->
  truthy client_id || truthy client_secret = true ->
  let run :=
    OAuth2Exchange.exchange_authorization_code_for_token app_url b64encode post
      T init integration_settings source_short_name code client_id client_secret in
  let credentials := py_str client_id +:+ ":" +:+ py_str client_secret in
  let sent (request : OAuth2Service.TokenRequest) :=
    snd run = [request] /\
    OAuth2Service.url request = OAuth2Exchange.backend_url oauth2_settings /\
    OAuth2Service.payload request !! "redirect_uri"
    = Some (PyStr (app_url +:+ "/auth/callback/" +:+ source_short_name)) /\
    OAuth2Service.payload request !! "code" = Some (PyStr code) in
  if String.eqb (OAuth2Exchange.client_credential_location oauth2_settings) "header"
  then
    if isascii credentials then
      exists request,
        sent request /\
        OAuth2Service.headers request !! "Authorization"
        = Some ("Basic " +:+ b64encode credentials) /\
        OAuth2Service.payload request !! "client_id" = None /\
        OAuth2Service.payload request !! "client_secret" = None
    else
      run = (OAuth2Exchange.Err (OAuth2Exchange.Raised UnicodeEncodeError), [])
  else
    exists request,
      sent request /\
      OAuth2Service.payload request !! "client_id" = Some client_id /\
      OAuth2Service.payload request !! "client_secret" = Some client_secret /\
      OAuth2Service.headers request !! "Authorization" = None.
Proof.
  intros Hs Hgiven. cbv zeta.
  unfold OAuth2Exchange.exchange_authorization_code_for_token. rewrite Hs.
  assert (Hboth : negb (truthy client_id) && negb (truthy client_secret) = false).
  { destruct (truthy client_id), (truthy client_secret); try reflexivity.
    discriminate Hgiven. }
  rewrite Hboth.
  pose proof (exchange_request_cases b64encode code
                (OAuth2Exchange._get_redirect_url app_url source_short_name)
                client_id client_secret oauth2_settings) as Hreq. cbv zeta in Hreq.
  destruct (String.eqb (OAuth2Exchange.client_credential_location oauth2_settings)
              "header").
  - destruct (isascii (py_str client_id +:+ ":" +:+ py_str client_secret)).
    + eexists. rewrite (exchange_code_sends_one_request _ _ _ _ _ _ _ _ _ _ Hreq).
      unfold OAuth2Exchange._get_redirect_url.
      cbn [OAuth2Service.url OAuth2Service.payload OAuth2Service.headers].
      split; [split; [reflexivity|]; split; [reflexivity|];
              split; now simplify_map_eq|].
      split; [now simplify_map_eq|]. split; now simplify_map_eq.
    + now apply exchange_code_unbuilt.
  - eexists. rewrite (exchange_code_sends_one_request _ _ _ _ _ _ _ _ _ _ Hreq).
    unfold OAuth2Exchange._get_redirect_url.
    cbn [OAuth2Service.url OAuth2Service.payload OAuth2Service.headers].
    split; [split; [reflexivity|]; split; [reflexivity|];
            split; now simplify_map_eq|].
    split; [now simplify_map_eq|]. split; now simplify_map_eq.
Qed.

(** The settings of a Slack integration that takes the client credentials in
    the payload, and a token endpoint that answers the way Slack does, with
    the user token under [authed_user]. *)
Definition cfg_slack : OAuth2Exchange.OAuth2Settings :=
  OAuth2Exchange.mkOAuth2Settings "https://slack.com/api/oauth.v2.access"
    "authorization_code" "application/x-www-form-urlencoded" "body"
    (PyStr "cfg-id") (PyStr "cfg-secret").

Definition slack_reply : list (string * OAuth2Exchange.json) :=
  [("ok", OAuth2Exchange.JBool true);
   ("authed_user",
    OAuth2Exchange.JObj [("id", OAuth2Exchange.JStr "U1");
                         ("access_token", OAuth2Exchange.JStr "xoxp-1");
                         ("token_type", OAuth2Exchange.JStr "user")])].

Definition post_slack (_ : OAuth2Service.TokenRequest) : OAuth2Exchange.post_result :=
  OAuth2Exchange.PostResponse 200 "{...}" (Some (OAuth2Exchange.JObj slack_reply)).

Lemma partial_client_credentials_are_not_completed_witness :
  exists request,
    snd (OAuth2Exchange.exchange_authorization_code_for_token "https://app" id
           post_slack _ Return {[ "slack" := cfg_slack ]} "slack" "c0de"
           (PyStr "my-id") PyNone)
    = [request] /\
    OAuth2Service.payload request !! "client_id" = Some (PyStr "my-id") /\
    OAuth2Service.payload request !! "client_secret" = Some PyNone.
Proof.
  pose proof (partial_client_credentials_are_not_completed "https://app" id
                post_slack _ Return {[ "slack" := cfg_slack ]} "slack" "c0de"
                (PyStr "my-id") PyNone cfg_slack) as H.
  cbv zeta in H.
  change (String.eqb (OAuth2Exchange.client_credential_location cfg_slack) "header")
    with false in H.
  destruct H as (request & (Hsent & _) & Hid & Hsecret & _).
  - vm_compute. reflexivity.
  - reflexivity.
  - exists request. split; [exact Hsent|]. split; [exact Hid|exact Hsecret].
Defined.

(** X26. Unless the client credentials cannot be encoded for the header
    (header location with a character outside ASCII in the client id or
    secret, which raises [UnicodeEncodeError] before anything is sent),
    [_exchange_code] sends exactly one request, and every failure of that
    request leaves as an [HTTPException] with status 400, whatever the
    provider's status was: with the text of the provider's answer as detail
    when the status is outside 2xx, with a fixed detail when there was no
    answer.  An answer with a 2xx status whose body is not JSON raises the
    decoder's [ValueError]. *)
Theorem exchange_code_failures_become_http_400
    (b64encode : string -> string)
    (post : OAuth2Service.TokenRequest -> OAuth2Exchange.post_result)
    (T : Type) (init : list (string * OAuth2Exchange.json) -> outcome T)
    (code redirect_uri : string) (client_id client_secret : pyval)
    (integration_config : OAuth2Exchange.OAuth2Settings) :
  let run :=
    OAuth2Exchange._exchange_code b64encode post T init (Some tt) code redirect_uri
      client_id client_secret integration_config in
  match OAuth2Exchange.exchange_request b64encode code redirect_uri client_id
          client_secret integration_config with
  | Raise e =>
      e = UnicodeEncodeError /\
      OAuth2Exchange.client_credential_location integration_config = "header" /\
      isascii (py_str client_id +:+ ":" +:+ py_str client_secret) = false /\
      run = (OAuth2Exchange.Err (OAuth2Exchange.Raised UnicodeEncodeError), [])
  | Return request =>
      snd run = [request] /\
      match post request with
      | OAuth2Exchange.PostFails _ =>
          fst run
          = OAuth2Exchange.Err
              (OAuth2Exchange.Raised
                 (HTTPException 400 "Failed to exchange authorization code"))
      | OAuth2Exchange.PostResponse status_code text body =>
          if ((200 <=? status_code) && (status_code <? 300))%Z then
            match body with
            | None => fst run = OAuth2Exchange.Err (OAuth2Exchange.Raised ValueError)
            | Some data =>
                fst run = of_outcome T (OAuth2Exchange.token_response_of T init data)
            end
          else
            fst run
            = OAuth2Exchange.Err (OAuth2Exchange.Raised (HTTPException 400 text))
      end
  end.
Proof.
  cbv zeta.
  pose proof (exchange_request_cases b64encode code redirect_uri client_id
                client_secret integration_config) as Hcases. cbv zeta in Hcases.
  destruct (OAuth2Exchange.exchange_request b64encode code redirect_uri client_id
              client_secret integration_config) as [request|e] eqn:Hreq.
  - split; [now apply exchange_code_sends_one_request|].
    unfold OAuth2Exchange._exchange_code. rewrite Hreq.
    destruct (post _) as [msg|status_code text [data|]]; [reflexivity| |].
    + destruct ((200 <=? status_code) && (status_code <? 300))%Z; [|reflexivity].
      destruct (OAuth2Exchange.token_response_of _ _ _); reflexivity.
    + destruct ((200 <=? status_code) && (status_code <? 300))%Z; reflexivity.
  - destruct (String.eqb_spec
                (OAuth2Exchange.client_credential_location integration_config)
                "header") as [Hloc|_]; [|discriminate Hcases].
    destruct (isascii _) eqn:Hascii; [discriminate Hcases|].
    injection Hcases as ->. split; [reflexivity|]. split; [exact Hloc|].
    split; [reflexivity|]. now apply exchange_code_unbuilt.
Qed.

(** X27. When the provider's answer is a JSON object whose [authed_user] is
    an object (as Slack's is) or is missing or falsy, each of the five token
    fields is taken from the top level if it is truthy there and from
    [authed_user] otherwise, each field on its own.  If the access token so
    found is truthy, the constructor of the token response gets the five
    fields and the whole answer as [extra_fields]; if not, it gets the keys
    of the answer itself. *)
Theorem exchange_code_reads_nested_tokens
    (T : Type) (init : list (string * OAuth2Exchange.json) -> outcome T)
    (data user : list (string * OAuth2Exchange.json)) :
  OAuth2Exchange.obj_get "authed_user" data = OAuth2Exchange.JObj user
  \/ (OAuth2Exchange.json_truthy (OAuth2Exchange.obj_get "authed_user" data) = false
      /\ user = []) ->
  let field k :=
    if OAuth2Exchange.json_truthy (OAuth2Exchange.obj_get k data)
    then OAuth2Exchange.obj_get k data else OAuth2Exchange.obj_get k user in
  OAuth2Exchange.token_response_of T init (OAuth2Exchange.JObj data)
  = if OAuth2Exchange.json_truthy (field "access_token") then
      init [("access_token", field "access_token"); ("token_type", field "token_type");
            ("expires_in", field "expires_in");
            ("refresh_token", field "refresh_token");
            ("scope", field "scope"); ("extra_fields", OAuth2Exchange.JObj data)]
    else init data.
Proof.
  intros H. cbv zeta.
  assert (Hn : forall k,
             OAuth2Exchange.normalized data k
             = Return (if OAuth2Exchange.json_truthy (OAuth2Exchange.obj_get k data)
                       then OAuth2Exchange.obj_get k data
                       else OAuth2Exchange.obj_get k user)).
  { intros k. destruct H as [H|[H ->]].
    - now apply normalized_object.
    - now apply normalized_no_user. }
  unfold OAuth2Exchange.token_response_of. rewrite !Hn. reflexivity.
Qed.

(** The request of a caller who gives both client id and secret. *)
Definition slack_request : OAuth2Service.TokenRequest :=
  OAuth2Service.mkTokenRequest "https://slack.com/api/oauth.v2.access"
    {[ "Content-Type" := "application/x-www-form-urlencoded" ]}
    (<["client_secret" := PyStr "my-secret"]>
       (<["client_id" := PyStr "my-id"]>
          (<["redirect_uri" := PyStr "https://app/auth/callback/slack"]>
             (<["code" := PyStr "c0de"]>
                {[ "grant_type" := PyStr "authorization_code" ]})))).

Lemma exchange_code_reads_nested_tokens_witness :
  OAuth2Exchange._exchange_code id post_slack _ Return (Some tt) "c0de"
    "https://app/auth/callback/slack" (PyStr "my-id") (PyStr "my-secret") cfg_slack
  = (OAuth2Exchange.Ok
       [("access_token", OAuth2Exchange.JStr "xoxp-1");
        ("token_type", OAuth2Exchange.JStr "user");
        ("expires_in", OAuth2Exchange.JNull);
        ("refresh_token", OAuth2Exchange.JNull);
        ("scope", OAuth2Exchange.JNull);
        ("extra_fields", OAuth2Exchange.JObj slack_reply)],
     [slack_request]).
Proof.
  unfold OAuth2Exchange._exchange_code.
  change (OAuth2Exchange.exchange_request id "c0de" "https://app/auth/callback/slack"
            (PyStr "my-id") (PyStr "my-secret") cfg_slack) with (Return slack_request).
  cbn [post_slack].
  change ((200 <=? 200)%Z && (200 <? 300)%Z) with true. cbv iota.
  rewrite (exchange_code_reads_nested_tokens _ Return slack_reply
             [("id", OAuth2Exchange.JStr "U1");
              ("access_token", OAuth2Exchange.JStr "xoxp-1");
              ("token_type", OAuth2Exchange.JStr "user")]).
  - reflexivity.
  - left. reflexivity.
Defined.

(** X28. Once the request is built and answered with a 2xx status and a
    JSON object: when [authed_user] in the answer is truthy but not an
    object, and one of the five token fields is missing or falsy at the top
    level, [_exchange_code] raises [AttributeError] after its one request: no
    token response is built, even if the answer holds an access token. *)
Theorem exchange_code_rejects_scalar_authed_user
    (b64encode : string -> string)
    (post : OAuth2Service.TokenRequest -> OAuth2Exchange.post_result)
    (T : Type) (init : list (string * OAuth2Exchange.json) -> outcome T)
    (code redirect_uri : string) (client_id client_secret : pyval)
    (integration_config : OAuth2Exchange.OAuth2Settings)
    (request : OAuth2Service.TokenRequest)
    (status_code : Z) (text : string) (data : list (string * OAuth2Exchange.json))
    (k : string) :
  OAuth2Exchange.exchange_request b64encode code redirect_uri client_id
    client_secret integration_config = Return request ->
  post request
  = OAuth2Exchange.PostResponse status_code text (Some (OAuth2Exchange.JObj data)) ->
  (200 <= status_code < 300)%Z ->
  OAuth2Exchange.json_truthy (OAuth2Exchange.obj_get "authed_user" data) = true ->
  (forall user, OAuth2Exchange.obj_get "authed_user" data <> OAuth2Exchange.JObj user) ->
  In k token_keys ->
  OAuth2Exchange.json_truthy (OAuth2Exchange.obj_get k data) = false ->
  OAuth2Exchange._exchange_code b64encode post T init (Some tt) code redirect_uri
    client_id client_secret integration_config
  = (OAuth2Exchange.Err (OAuth2Exchange.Raised AttributeError), [request]).
Proof.
  intros Hreq Hpost Hstatus Htruthy Hobj Hk Hfalsy.
  unfold OAuth2Exchange._exchange_code. rewrite Hreq, Hpost.
  replace ((200 <=? status_code)%Z && (status_code <? 300)%Z) with true
    by (symmetry; apply andb_true_iff; split; [apply Z.leb_le|apply Z.ltb_lt]; lia).
  assert (Hraise : OAuth2Exchange.token_response_of T init (OAuth2Exchange.JObj data)
                   = Raise AttributeError).
  { pose proof (normalized_bad_user data k Htruthy Hobj Hfalsy) as Hbad.
    unfold OAuth2Exchange.token_response_of.
    destruct (normalized_cases data "access_token") as [->|[v1 H1]]; [reflexivity|].
    destruct (normalized_cases data "refresh_token") as [H2|[v2 H2]];
      [rewrite H1, H2; reflexivity|].
    destruct (normalized_cases data "token_type") as [H3|[v3 H3]];
      [rewrite H1, H2, H3; reflexivity|].
    destruct (normalized_cases data "expires_in") as [H4|[v4 H4]];
      [rewrite H1, H2, H3, H4; reflexivity|].
    destruct (normalized_cases data "scope") as [H5|[v5 H5]];
      [rewrite H1, H2, H3, H4, H5; reflexivity|].
    exfalso. unfold token_keys in Hk.
    destruct Hk as [<-|[<-|[<-|[<-|[<-|[]]]]]]; congruence. }
  rewrite Hraise. reflexivity.
Qed.

Definition scalar_user_reply : list (string * OAuth2Exchange.json) :=
  [("access_token", OAuth2Exchange.JStr "A1"); ("authed_user", OAuth2Exchange.JStr "U1")].

Definition post_scalar_user (_ : OAuth2Service.TokenRequest)
  : OAuth2Exchange.post_result :=
  OAuth2Exchange.PostResponse 200 "{...}" (Some (OAuth2Exchange.JObj scalar_user_reply)).

Lemma exchange_code_rejects_scalar_authed_user_witness :
  OAuth2Exchange._exchange_code id post_scalar_user _ Return (Some tt) "c0de"
    "https://app/auth/callback/slack" (PyStr "my-id") (PyStr "my-secret") cfg_slack
  = (OAuth2Exchange.Err (OAuth2Exchange.Raised AttributeError), [slack_request]).
Proof.
  apply (exchange_code_rejects_scalar_authed_user id post_scalar_user _ Return "c0de"
           "https://app/auth/callback/slack" (PyStr "my-id") (PyStr "my-secret")
           cfg_slack slack_request 200 "{...}" scalar_user_reply "refresh_token").
  - reflexivity.
  - reflexivity.
  - lia.
  - reflexivity.
  - intros user. discriminate.
  - right. now left.
  - reflexivity.
Defined.

(** ** Search analytics *)

Section AnalyticsIds.
Import Uuid.

Lemma hex_char_not_p (d : N) : hex_char d <> "p"%char.
Proof.
  unfold hex_char.
  destruct d as [|p]; [discriminate|].
  do 4 (destruct p as [p|p|]; try discriminate).
Qed.

Lemma str_chars_no_p (u : UUID) : Forall (fun c => c <> "p"%char) (str_chars u).
Proof.
  assert (Hh : Forall (fun c => c <> "p"%char) (hex u)).
  { unfold hex. apply Forall_map. apply List.Forall_forall. intros d _.
    apply hex_char_not_p. }
  unfold str_chars.
  repeat first [ apply Forall_app; split
               | apply Forall_cons; split; [discriminate|]
               | apply Forall_take | apply Forall_drop | exact Hh ].
Qed.

(** The [str] of a UUID is never an [api_key_] identifier. *)
Lemma str_not_api_key (u : UUID) (s : string) : str u <> "api_key_" +:+ s.
Proof.
  intros H. apply (f_equal list_ascii_of_string) in H. unfold str in H.
  rewrite list_ascii_of_string_of_list_ascii in H.
  pose proof (str_chars_no_p u) as Hp. rewrite H in Hp.
  rewrite List.Forall_forall in Hp.
  apply (Hp "p"%char); [|reflexivity].
  cbn. right. now left.
Qed.

Lemma api_key_prefix_inj (s t : string) : "api_key_" +:+ s = "api_key_" +:+ t -> s = t.
Proof. cbn. intros H. now injection H. Qed.

End AnalyticsIds.

(** X29. The [distinct_id] under which [track_search_event] reports an event
    tells the callers apart: two contexts get the same one exactly when both
    have a user and the users' ids are the same, or neither has a user and
    the organizations' ids are the same.  An event of an API key never goes
    under the identifier of a user. *)
Theorem distinct_id_separates_callers
    (float : Type) (ctx1 ctx2 : SearchAnalytics.ApiContext)
    (properties1 properties2 : gmap string (SearchAnalytics.value float))
    (name1 name2 : string) :
  SearchAnalytics.distinct_id float
    (SearchAnalytics.track_search_event float ctx1 properties1 name1)
  = SearchAnalytics.distinct_id float
      (SearchAnalytics.track_search_event float ctx2 properties2 name2)
  <-> match SearchAnalytics.user ctx1, SearchAnalytics.user ctx2 with
      | Some u1, Some u2 =>
          Uuid.int (SearchAnalytics.user_id u1) = Uuid.int (SearchAnalytics.user_id u2)
      | None, None =>
          Uuid.int (SearchAnalytics.org_id (SearchAnalytics.organization ctx1))
          = Uuid.int (SearchAnalytics.org_id (SearchAnalytics.organization ctx2))
      | _, _ => False
      end.
Proof.
  unfold SearchAnalytics.track_search_event. cbn [SearchAnalytics.distinct_id].
  destruct (SearchAnalytics.user ctx1) as [u1|], (SearchAnalytics.user ctx2) as [u2|].
  - split; [apply str_inj|apply str_of_int].
  - split; [intros H; exact (str_not_api_key _ _ H)|intros []].
  - split; [intros H; symmetry in H; exact (str_not_api_key _ _ H)|intros []].
  - split.
    + intros H. apply api_key_prefix_inj in H. now apply str_inj.
    + intros H. f_equal. now apply str_of_int.
Qed.

(** X30. A search that found nothing is reported differently by the two
    property builders: [build_search_properties] leaves [results_count] out
    when the result list is missing or empty and gives its length otherwise,
    while [build_search_persistence_properties], and with it the
    [search_persisted] event of [track_search_persisted], always carries the
    count it was given, zero included.  The three feature flags are kept
    whenever they are not [None], also when [False]; the response type is
    dropped when it is [None] or empty. *)
Theorem results_count_reporting
    (float : Type) (A : Type) (ctx : SearchAnalytics.ApiContext)
    (query collection_slug : string) (duration_ms : float)
    (search_type status : string) (results : option (list A))
    (results_count : Z) (response_type : option string)
    (query_expansion_enabled reranking_enabled query_interpretation_enabled
       : option bool) :
  let regular :=
    SearchAnalytics.build_search_properties float ctx query collection_slug
      duration_ms search_type results response_type status in
  let event :=
    SearchAnalytics.track_search_persisted float ctx query collection_slug
      duration_ms results_count status search_type response_type
      query_expansion_enabled reranking_enabled query_interpretation_enabled in
  let persisted := SearchAnalytics.properties float event in
  let shown_type :=
    match response_type with
    | Some r => if String.eqb r EmptyString then None
                else Some (SearchAnalytics.VStr float r)
    | None => None
    end in
  regular !! "results_count"
  = match results with
    | Some (x :: l) => Some (SearchAnalytics.VInt float (Z.of_nat (S (length l))))
    | _ => None
    end /\
  SearchAnalytics.event_name float event = "search_persisted" /\
  persisted
  = SearchAnalytics.build_search_persistence_properties float ctx query
      collection_slug duration_ms results_count status search_type response_type
      query_expansion_enabled reranking_enabled query_interpretation_enabled /\
  persisted !! "results_count" = Some (SearchAnalytics.VInt float results_count) /\
  persisted !! "query_expansion_enabled"
  = SearchAnalytics.VBool float <$> query_expansion_enabled /\
  persisted !! "reranking_enabled" = SearchAnalytics.VBool float <$> reranking_enabled /\
  persisted !! "query_interpretation_enabled"
  = SearchAnalytics.VBool float <$> query_interpretation_enabled /\
  regular !! "response_type" = shown_type /\
  persisted !! "response_type" = shown_type.
Proof.
  cbv zeta.
  unfold SearchAnalytics.track_search_persisted, SearchAnalytics.track_search_event,
    SearchAnalytics.build_search_properties,
    SearchAnalytics.build_search_persistence_properties,
    SearchAnalytics.add_flag, SearchAnalytics.add_response_type.
  cbn [SearchAnalytics.properties SearchAnalytics.event_name].
  split; [|split; [reflexivity|split; [reflexivity|]]].
  - destruct results as [[|x l]|], response_type as [r|];
      try destruct (String.eqb r EmptyString); cbn [negb length];
      now simplify_map_eq.
  - destruct response_type as [r|]; try destruct (String.eqb r EmptyString);
      destruct query_expansion_enabled, reranking_enabled,
        query_interpretation_enabled, results as [[|x l]|];
      cbn [negb fmap option_fmap option_map];
      repeat split; now simplify_map_eq.
Qed.
